(** * LOKSAR backend: value formatting and notification handlers

    A shallow embedding of [cleanhome-backend/server.js]: the value
    formatter [formatValue], the template renderer, the dispatcher
    [sendEmail] and the three request handlers, followed by the
    properties of the specification that concern them. *)

From Stdlib Require Import ZArith List String Ascii Bool Lia.
From Stdlib Require Import Numbers.DecimalString.
Import ListNotations.

Set Warnings "-register-all".

Open Scope list_scope.
Open Scope string_scope.

(** ** Values *)

(** The values a handler sees: what [JSON.parse] and [express.json()]
    produce, plus [undefined] for an absent property.  [JNum n] is the
    number that the integer [n] denotes: [n] itself when it is a safe
    integer (below 2^53 in absolute value), the nearest double beyond.
    Numbers with a fraction are outside the model.  The properties of
    an object are kept in the order in which [Object.values] enumerates
    them; a key occurs once. *)
Inductive JsValue : Type :=
| JUndefined
| JNull
| JBool (b : bool)
| JNum (n : Z)
| JStr (s : string)
| JArr (items : list JsValue)
| JObj (props : list (string * JsValue)).

(** Exceptions that the modelled code can meet. *)
Inductive JsError : Type :=
| TypeError
| SyntaxError
| TransportError (reason : string).

(** Outcome of evaluating an expression: a value or a thrown error. *)
Inductive Completion (A : Type) : Type :=
| Normal (a : A)
| Throw (e : JsError).

Arguments Normal {A} a.
Arguments Throw {A} e.

Definition bindC {A B : Type} (c : Completion A) (k : A -> Completion B)
  : Completion B :=
  match c with
  | Normal a => k a
  | Throw e => Throw e
  end.

Declare Scope completion_scope.
Delimit Scope completion_scope with completion.
Notation "x <- c ;; k" := (bindC c (fun x => k))
  (at level 61, c at next level, right associativity) : completion_scope.

(** [xs.map(f)] for an [f] that may throw: the first throw ends the map. *)
Definition mapC {A B : Type} (f : A -> Completion B)
  : list A -> Completion (list B) :=
  fix go (l : list A) : Completion (list B) :=
    match l with
    | [] => Normal []
    | x :: rest =>
        bindC (f x) (fun y => bindC (go rest) (fun ys => Normal (y :: ys)))
    end.

(** *** Truthiness, property reads *)

Definition isEmptyString (s : string) : bool :=
  match s with
  | EmptyString => true
  | String _ _ => false
  end.

(** [ToBoolean]. *)
Definition truthy (v : JsValue) : bool :=
  match v with
  | JUndefined | JNull => false
  | JBool b => b
  | JNum n => negb (n =? 0)%Z
  | JStr s => negb (isEmptyString s)
  | JArr _ | JObj _ => true
  end.

(** [o.k] on a plain object: the property's value, [undefined] when the
    object has no such key. *)
Fixpoint lookup (props : list (string * JsValue)) (k : string) : JsValue :=
  match props with
  | [] => JUndefined
  | (k', v) :: rest => if String.eqb k' k then v else lookup rest k
  end.

Definition hasOwn (props : list (string * JsValue)) (k : string) : bool :=
  existsb (fun kv => String.eqb (fst kv) k) props.

(** [Object.values(o)]. *)
Definition Object_values (props : list (string * JsValue)) : list JsValue :=
  map snd props.

(** [v.k] for the property names the server reads ([bestDays], [other],
    [name], [email], ...), none of which exists on a built-in prototype:
    reading from [null] or [undefined] throws, a primitive or an array
    yields [undefined]. *)
Definition Get (v : JsValue) (k : string) : Completion JsValue :=
  match v with
  | JUndefined | JNull => Throw TypeError
  | JObj props => Normal (lookup props k)
  | _ => Normal JUndefined
  end.

(** *** String conversion *)

(** [Number.isSafeInteger(n)]: below 2^53 in absolute value, where
    every integer is a number of its own. *)
Definition isSafeInteger (n : Z) : bool := (Z.abs n <? 2 ^ 53)%Z.

(** The decimal digits of an integer, with a minus sign when negative. *)
Definition digitsOf (n : Z) : string := NilZero.string_of_int (Z.to_int n).

Definition zeros (count : Z) : string :=
  string_of_list_ascii (repeat "0"%char (Z.to_nat count)).

(** The number that an integer [n] of 2^53 or more denotes is the
    nearest double, ties going to the even mantissa: its mantissa
    (53 bits) and binary exponent. *)
Definition nearestDouble (n : Z) : Z * Z :=
  (let shift := Z.log2 n + 1 - 53 in
   let m0 := n / 2 ^ shift in
   let r := n mod 2 ^ shift in
   let half := 2 ^ (shift - 1) in
   let m1 := if (half <? r) || ((r =? half) && Z.odd m0) then m0 + 1 else m0 in
   if m1 =? 2 ^ 53 then (2 ^ 52, shift + 1) else (m1, shift))%Z.

(** Whether the integer [c] reads back as the double [m * 2^e]: it lies
    within half a gap of it, the midpoints counting when [m] is even. *)
Definition inRoundingInterval (m e c : Z) : bool :=
  (let d := m * 2 ^ e in
   let low2 := 2 * d - (if m =? 2 ^ 52 then 2 ^ (e - 1) else 2 ^ e) in
   let high2 := 2 * d + 2 ^ e in
   if Z.even m then (low2 <=? 2 * c) && (2 * c <=? high2)
   else (low2 <? 2 * c) && (2 * c <? high2))%Z.

(** The decimals [s * 10^e10] with [k] significant digits that read back
    as the double [m * 2^e]. *)
Definition candidates (m e k : Z) : list (Z * Z) :=
  (let d := m * 2 ^ e in
   let len := Z.of_nat (String.length (digitsOf d)) in
   flat_map
     (fun e10 =>
        if e10 <? 0 then []
        else
          let s0 := d / 10 ^ e10 in
          filter (fun c => (10 ^ (k - 1) <=? fst c) && (fst c <? 10 ^ k)
                           && inRoundingInterval m e (fst c * 10 ^ snd c))
            [(s0, e10); (s0 + 1, e10)])
     [len - k; len - k + 1])%Z.

(** Of two decimals the one nearer to [d]; the even one when as near. *)
Definition closer (d : Z) (a b : Z * Z) : Z * Z :=
  (let da := Z.abs (fst a * 10 ^ snd a - d) in
   let db := Z.abs (fst b * 10 ^ snd b - d) in
   if db <? da then b
   else if (db =? da) && Z.even (fst b) then b
   else a)%Z.

(** The shortest decimal that reads back as the double [m * 2^e], the
    nearest to it among the shortest: digits and power of ten. *)
Definition shortestDigits (m e : Z) : Z * Z :=
  (let d := m * 2 ^ e in
   let pick :=
     fold_left
       (fun found k =>
          match found with
          | Some _ => found
          | None =>
              match candidates m e k with
              | [] => None
              | c :: rest => Some (fold_left (closer d) rest c)
              end
          end)
       [1; 2; 3; 4; 5; 6; 7; 8; 9; 10; 11; 12; 13; 14; 15; 16; 17] None in
   match pick with
   | Some c => c
   | None => (d, 0)
   end)%Z.

(** [String(n)] for a positive integer of 2^53 or more: the shortest
    digits, padded with zeros up to 21 digits, in exponent notation
    beyond, [Infinity] past the largest double. *)
Definition largeToString (n : Z) : string :=
  (let '(m, e) := nearestDouble n in
   if 971 <? e then "Infinity"
   else
     let '(s, e10) := shortestDigits m e in
     let digits := digitsOf s in
     let n10 := Z.of_nat (String.length digits) + e10 in
     if n10 <=? 21 then digits ++ zeros e10
     else
       match digits with
       | String first rest =>
           String first
             (match rest with
              | EmptyString => ""
              | _ => "." ++ rest
              end)
           ++ "e+" ++ digitsOf (n10 - 1)
       | EmptyString => ""
       end)%Z.

(** [String(n)] for the number that the integer [n] denotes: the plain
    decimal digits for a safe integer, the text of the nearest double
    otherwise. *)
Definition Number_toString (n : Z) : string :=
  if isSafeInteger n then digitsOf n
  else if (n <? 0)%Z then "-" ++ largeToString (- n)
  else largeToString n.

(** [Array.prototype.join] over an element conversion [str]: [undefined]
    and [null] elements contribute the empty string. *)
Definition joinWith (str : JsValue -> Completion string) (sep : string)
  : list JsValue -> Completion string :=
  fix go (l : list JsValue) : Completion string :=
    match l with
    | [] => Normal ""
    | x :: rest =>
        bindC (match x with
               | JUndefined | JNull => Normal ""
               | _ => str x
               end)
          (fun s =>
             match rest with
             | [] => Normal s
             | _ :: _ => bindC (go rest) (fun r => Normal (s ++ sep ++ r))
             end)
    end.

(** [ToString].  An array prints as its elements joined by a comma; a
    plain object prints as [[object Object]], unless it carries a
    [toString] property of its own, which (not being callable) makes the
    conversion throw. *)
Fixpoint ToString (v : JsValue) : Completion string :=
  match v with
  | JUndefined => Normal "undefined"
  | JNull => Normal "null"
  | JBool true => Normal "true"
  | JBool false => Normal "false"
  | JNum n => Normal (Number_toString n)
  | JStr s => Normal s
  | JArr items => joinWith ToString "," items
  | JObj props =>
      if hasOwn props "toString" then Throw TypeError
      else Normal "[object Object]"
  end.

(** [xs.join(sep)]. *)
Definition Array_join (sep : string) (xs : list JsValue) : Completion string :=
  joinWith ToString sep xs.

(** [v + s] and [v += s] for a string [s]. *)
Definition appendString (v : JsValue) (s : string) : Completion JsValue :=
  bindC (ToString v) (fun t => Normal (JStr (t ++ s))).

(** ** The value formatter *)

(** The object branch of [formatValue]. *)
Definition formatObject (props : list (string * JsValue)) : JsValue :=
  if truthy (lookup props "label") then lookup props "label"
  else if truthy (lookup props "value") then lookup props "value"
  else if truthy (lookup props "name") then lookup props "name"
  else if truthy (lookup props "id")
          && negb (match lookup props "id" with
                   | JStr s => String.eqb s "other"
                   | _ => false
                   end)
       then lookup props "id"
  else if truthy (lookup props "other") then lookup props "other"
  else match Object_values props with
       | JStr s :: _ => JStr s
       | _ => JStr "Provided"
       end.

(** [formatValue].  The result is whatever the matching branch returns:
    a string, the number itself, or the value held by the chosen
    property of an object. *)
Fixpoint formatValue (data : JsValue) : Completion JsValue :=
  match data with
  | JNull | JUndefined => Normal (JStr "N/A")
  | JStr s => if isEmptyString s then Normal (JStr "N/A") else Normal (JStr s)
  | JNum n => Normal (JNum n)
  | JArr items =>
      match items with
      | [] => Normal (JStr "N/A")
      | _ :: _ =>
          bindC (mapC formatValue items) (fun formatted =>
          bindC (Array_join ", " formatted) (fun s => Normal (JStr s)))
      end
  | JObj props => Normal (formatObject props)
  | JBool b => bindC (ToString (JBool b)) (fun s => Normal (JStr s))
  end.

(** ** Template literals *)

(** A Rocq string literal cannot hold a quotation mark, so the HTML
    fragments below write a backquote in its place and [q] puts the
    quotation mark back; the source's templates hold no backquote. *)
Definition dquote : ascii := ascii_of_nat 34.

Fixpoint q (s : string) : string :=
  match s with
  | EmptyString => EmptyString
  | String c rest => String (if Ascii.eqb c "`" then dquote else c) (q rest)
  end.

(** The pieces of a template literal: literal text and [${e}]
    substitutions. *)
Inductive Part : Type :=
| Lit (text : string)
| Sub (e : Completion JsValue).

(** Evaluation of a template literal, left to right: each substitution
    is evaluated and converted with [ToString]. *)
Fixpoint template (parts : list Part) : Completion string :=
  match parts with
  | [] => Normal ""
  | Lit text :: rest => bindC (template rest) (fun r => Normal (text ++ r))
  | Sub e :: rest =>
      bindC e (fun v =>
      bindC (ToString v) (fun s =>
      bindC (template rest) (fun r => Normal (s ++ r))))
  end.

(** [a || b] on strings. *)
Definition orElse (a b : string) : string :=
  if isEmptyString a then b else a.

(** ** Email styling *)

(** [generateEmailTemplate(title, content)]; [year] is what
    [new Date().getFullYear()] reads. *)
Definition generateEmailTemplate (year : Z) (title content : string) : string :=
  (q "
    <!DOCTYPE html>
    <html>
    <head>
      <meta charset=`utf-8`>
      <style>
        body { font-family: 'Helvetica Neue', Helvetica, Arial, sans-serif; line-height: 1.6; color: #333; margin: 0; padding: 0; background-color: #f4f4f4; }
        .container { max-width: 600px; margin: 20px auto; background: #ffffff; border-radius: 8px; overflow: hidden; box-shadow: 0 2px 8px rgba(0,0,0,0.1); }
        .header { background-color: #0D6B7D; padding: 30px; text-align: center; }
        .header h1 { color: #ffffff; margin: 0; font-size: 26px; font-weight: 700; letter-spacing: 1px; }
        .header p { color: #e0f7fa; margin: 5px 0 0; font-size: 14px; }
        .content { padding: 40px 30px; }
        .footer { background-color: #f8f9fa; padding: 20px; text-align: center; font-size: 12px; color: #888; border-top: 1px solid #eee; }
        .section-title { font-size: 16px; font-weight: 700; color: #0D6B7D; text-transform: uppercase; margin: 25px 0 15px 0; border-bottom: 2px solid #e0f2f1; padding-bottom: 8px; }
        .info-table { width: 100%; border-collapse: collapse; margin-bottom: 20px; }
        .info-table td { padding: 10px 0; border-bottom: 1px solid #f0f0f0; font-size: 14px; }
        .info-table td:first-child { width: 40%; font-weight: 600; color: #555; }
        .info-table td:last-child { color: #333; }
        .highlight { background-color: #e0f7fa; border-radius: 6px; padding: 15px; border-left: 4px solid #0D6B7D; margin: 20px 0; }
        .description-box { background-color: #f9f9f9; padding: 15px; border-radius: 6px; border: 1px solid #eee; font-style: italic; color: #555; }
      </style>
    </head>
    <body>
      <div class=`container`>
        <div class=`header`>
          <h1>LOKSAR</h1>
          <p>Professional Home & Gardening Services</p>
        </div>
        <div class=`content`>
          ")
  ++ content
  ++ (q "
        </div>
        <div class=`footer`>
          <p>&copy; ")
  ++ Number_toString year
  ++ " Loksar Services. All rights reserved.</p>
          <p>Leicester, United Kingdom | support@loksar.com</p>
        </div>
      </div>
    </body>
    </html>
  ".

(** ** Process environment, mail transport, observable effects *)

(** What the process reads from its surroundings: the variables of
    [process.env], each a string or not set, and the year of the clock. *)
Record Env : Type := {
  EMAIL_USER : option string;
  ADMIN_EMAIL : option string;
  currentYear : Z
}.

Definition envValue (x : option string) : JsValue :=
  match x with
  | Some s => JStr s
  | None => JUndefined
  end.

(** [${process.env.X}]. *)
Definition envString (x : option string) : string :=
  match x with
  | Some s => s
  | None => "undefined"
  end.

Record Attachment : Type := {
  filename : string;
  content : list Byte.byte
}.

(** The argument of [transporter.sendMail]. *)
Record MailOptions : Type := {
  from : string;
  to : JsValue;
  subject : string;
  html : string;
  attachments : list Attachment
}.

Inductive LogEntry : Type :=
| ConsoleLog (text : string)
| ConsoleError (label : option string) (error : JsError).

(** [res.status(code).json({ success })]. *)
Record Response : Type := {
  status : Z;
  success : bool
}.

(** What a run leaves behind: the calls made to the transport, the
    console lines, and the responses written, each in order. *)
Record World : Type := {
  outbox : list MailOptions;
  console : list LogEntry;
  responses : list Response
}.

(** The mail transport is outside the program: given the calls made so
    far and the message, it delivers or rejects. *)
Definition Transport : Type := list MailOptions -> MailOptions -> Completion unit.

(** An effectful computation: runs in a world, ends normally or by a
    throw, and leaves a world. *)
Definition Action (A : Type) : Type := World -> Completion A * World.

Definition ret {A : Type} (a : A) : Action A := fun w => (Normal a, w).

Definition bind {A B : Type} (m : Action A) (k : A -> Action B) : Action B :=
  fun w =>
    match m w with
    | (Normal a, w') => k a w'
    | (Throw e, w') => (Throw e, w')
    end.

Definition throw {A : Type} (e : JsError) : Action A := fun w => (Throw e, w).

Definition lift {A : Type} (c : Completion A) : Action A := fun w => (c, w).

(** [try { body } catch (error) { handler }]. *)
Definition tryCatch {A : Type} (body : Action A) (handler : JsError -> Action A)
  : Action A :=
  fun w =>
    match body w with
    | (Normal a, w') => (Normal a, w')
    | (Throw e, w') => handler e w'
    end.

Declare Scope action_scope.
Delimit Scope action_scope with action.
Notation "x <- c ;; k" := (bind c (fun x => k))
  (at level 61, c at next level, right associativity) : action_scope.
Notation "c ;; k" := (bind c (fun _ => k))
  (at level 61, right associativity) : action_scope.

Definition console_log (text : string) : Action unit :=
  fun w => (Normal tt,
            {| outbox := outbox w;
               console := (console w ++ [ConsoleLog text])%list;
               responses := responses w |}).

Definition console_error (label : option string) (error : JsError) : Action unit :=
  fun w => (Normal tt,
            {| outbox := outbox w;
               console := (console w ++ [ConsoleError label error])%list;
               responses := responses w |}).

Definition res_status_json (code : Z) (ok : bool) : Action unit :=
  fun w => (Normal tt,
            {| outbox := outbox w;
               console := console w;
               responses := (responses w ++ [{| status := code; success := ok |}])%list |}).

(** [await transporter.sendMail(m)]: the call is made, and the
    transport's verdict is its outcome. *)
Definition transporter_sendMail (transporter : Transport) (m : MailOptions)
  : Action unit :=
  fun w => (transporter (outbox w) m,
            {| outbox := (outbox w ++ [m])%list;
               console := console w;
               responses := responses w |}).

(** An uploaded file as multer hands it over. *)
Record File : Type := {
  originalname : string;
  buffer : list Byte.byte
}.

(** [req.body] of the contact endpoint is the parsed JSON body. *)
Record ContactRequest : Type := {
  contact_body : JsValue
}.

(** [req] of a booking endpoint: the text fields of the multipart body
    that the handler reads ([None] when the field was not sent) and
    [req.files]. *)
Record BookingRequest : Type := {
  userDetails_field : option string;
  bookingDetails_field : option string;
  description_field : option string;
  files : option (list File)
}.

(** ** Dispatcher and handlers *)

(** The default parameter value [attachments = []]. *)
Definition defaultAttachments (attachments : option (list Attachment))
  : list Attachment :=
  match attachments with
  | Some given => given
  | None => []
  end.

Section Server.

Variable env : Env.
Variable JSON_parse : string -> Completion JsValue.
Variable transporter : Transport.

(** The object literal that [sendEmail] hands to [transporter.sendMail]. *)
Definition mailOptions (to : JsValue) (subject htmlContent : string)
    (attachments : list Attachment) : MailOptions :=
  {| from := q "`Loksar Services` <" ++ envString (EMAIL_USER env) ++ ">";
     to := to;
     subject := subject;
     html := htmlContent;
     attachments := attachments |}.

(** [sendEmail(to, subject, htmlContent, attachments = [])]; the last
    argument is [None] when the caller leaves it out. *)
Definition sendEmail (to : JsValue) (subject htmlContent : string)
    (attachments : option (list Attachment)) : Action unit :=
  tryCatch
    (transporter_sendMail transporter
       (mailOptions to subject htmlContent (defaultAttachments attachments)) ;;
     line <- lift (template [ Lit "Email sent to "; Sub (Normal to) ]) ;;
     console_log line)%action
    (fun error =>
       (console_error (Some "Error sending email:") error ;;
        throw error)%action).

(** *** 1. Contact Us *)

Definition contactAdminContent (subject name email phone message : JsValue)
  : Completion string :=
  template
    [ Lit (q "
    <h2 style=`color: #333; margin-top:0;`>New Inquiry</h2>
    <div class=`highlight`>
      <strong>Subject:</strong> ");
      Sub (Normal subject);
      Lit (q "
    </div>
    <div class=`section-title`>Contact Details</div>
    <table class=`info-table`>
      <tr><td>Name</td><td>");
      Sub (Normal name);
      Lit (q "</td></tr>
      <tr><td>Email</td><td><a href=`mailto:");
      Sub (Normal email);
      Lit (q "` style=`color:#0D6B7D; text-decoration:none;`>");
      Sub (Normal email);
      Lit "</a></td></tr>
      <tr><td>Phone</td><td>";
      Sub (Normal phone);
      Lit (q "</td></tr>
    </table>
    <div class=`section-title`>Message</div>
    <div class=`description-box`>");
      Sub (Normal message);
      Lit "</div>
  " ].

Definition contactUserContent (subject name : JsValue) : Completion string :=
  template
    [ Lit (q "
    <h2 style=`color: #333; margin-top:0;`>Hello ");
      Sub (Normal name);
      Lit (q ",</h2>
    <p>Thank you for contacting <strong>LOKSAR</strong>. We have successfully received your inquiry regarding <strong>`");
      Sub (Normal subject);
      Lit (q "`</strong>.</p>
    <div class=`highlight`>
      Our team will review your message and get back to you within 24 hours.
    </div>
    <p>Best Regards,<br>The Loksar Team</p>
  ") ].

(** Lines 129-153: the destructured fields and the two fragments,
    built before the [try]. *)
Definition contactContents (req : ContactRequest)
  : Completion (JsValue * JsValue * string * string) :=
  (name <- Get (contact_body req) "name" ;;
   email <- Get (contact_body req) "email" ;;
   phone <- Get (contact_body req) "phone" ;;
   subject <- Get (contact_body req) "subject" ;;
   message <- Get (contact_body req) "message" ;;
   adminContent <- contactAdminContent subject name email phone message ;;
   userContent <- contactUserContent subject name ;;
   Normal (email, subject, adminContent, userContent))%completion.

(** [app.post('/api/contact', ...)].  A throw while the fragments are
    built leaves the handler: only the sends are inside the [try]. *)
Definition contactHandler (req : ContactRequest) : Action unit :=
  (contents <- lift (contactContents req) ;;
   let '(email, subject, adminContent, userContent) := contents in
   tryCatch
     (adminSubject <- lift (template [ Lit "New Contact: "; Sub (Normal subject) ]) ;;
      sendEmail (envValue (ADMIN_EMAIL env)) adminSubject
        (generateEmailTemplate (currentYear env) "New Contact" adminContent) None ;;
      sendEmail email "We received your message - Loksar"
        (generateEmailTemplate (currentYear env) "Thank You" userContent) None ;;
      res_status_json 200 true)
     (fun error => res_status_json 500 false))%action.

(** *** Pieces shared by the booking handlers *)

(** [JSON.parse(req.body.field)]: an absent field reaches the parser as
    the text of [undefined]. *)
Definition parseField (field : option string) : Completion JsValue :=
  JSON_parse (match field with
              | Some text => text
              | None => "undefined"
              end).

(** [req.body.description || '']. *)
Definition descriptionOf (req : BookingRequest) : string :=
  match description_field req with
  | Some text => orElse text ""
  | None => ""
  end.

(** [req.files ? req.files.map(...) : []]. *)
Definition emailAttachments (req : BookingRequest) : list Attachment :=
  match files req with
  | Some fs =>
      map (fun file => {| filename := originalname file;
                          content := buffer file |}) fs
  | None => []
  end.

(** [formatValue(bookingDetails.k)]. *)
Definition formatField (bookingDetails : JsValue) (k : string)
  : Completion JsValue :=
  bindC (Get bookingDetails k) formatValue.

(** [typeof v === 'object']. *)
Definition typeofObject (v : JsValue) : bool :=
  match v with
  | JNull | JArr _ | JObj _ => true
  | _ => false
  end.

(** *** 2. Cleaning Booking *)

(** The value of [bestDaysDisplay] once lines 177-189 have run. *)
Definition bestDaysDisplay (bookingDetails : JsValue) : Completion JsValue :=
  (bestDays <- Get bookingDetails "bestDays" ;;
   if truthy bestDays then
     match bestDays with
     | JArr _ => formatValue bestDays
     | _ =>
         nested <- Get bestDays "bestDays" ;;
         if truthy nested then
           days <- formatValue nested ;;
           other <- Get bestDays "other" ;;
           if truthy other then
             suffix <- template [ Lit " (Other: "; Sub (Normal other); Lit ")" ] ;;
             appendString days suffix
           else Normal days
         else Normal (JStr "N/A")
     end
   else Normal (JStr "N/A"))%completion.

(** The value of [currentCleanerDisplay] once lines 192-200 have run. *)
Definition currentCleanerDisplay (bookingDetails : JsValue)
  : Completion JsValue :=
  (currentCleaner <- Get bookingDetails "currentCleaner" ;;
   if truthy currentCleaner then
     inner <- (if typeofObject currentCleaner
               then Get currentCleaner "currentCleaner"
               else Normal (JBool false)) ;;
     if typeofObject currentCleaner && truthy inner then
       other <- Get currentCleaner "other" ;;
       if truthy other then
         suffix <- template [ Lit " ("; Sub (Normal other); Lit ")" ] ;;
         appendString inner suffix
       else Normal inner
     else formatValue currentCleaner
   else Normal (JStr "N/A"))%completion.

(** The value of [cleaningTypeDisplay] once lines 203-206 have run. *)
Definition cleaningTypeDisplay (bookingDetails : JsValue)
  : Completion JsValue :=
  (display <- formatField bookingDetails "cleaningType" ;;
   cleaningTypeOther <- Get bookingDetails "cleaningTypeOther" ;;
   if truthy cleaningTypeOther then
     suffix <- template [ Lit " ("; Sub (Normal cleaningTypeOther); Lit ")" ] ;;
     appendString display suffix
   else Normal display)%completion.

Definition cleaningBookingRows (bookingDetails bestDaysDisplay
    currentCleanerDisplay cleaningTypeDisplay : JsValue) : Completion string :=
  template
    [ Lit "
      <tr><td>Property Type</td><td>";
      Sub (formatField bookingDetails "propertyType");
      Lit "</td></tr>
      <tr><td>Frequency</td><td>";
      Sub (formatField bookingDetails "frequency");
      Lit "</td></tr>
      <tr><td>Bedrooms</td><td>";
      Sub (formatField bookingDetails "bedrooms");
      Lit "</td></tr>
      <tr><td>Bathrooms</td><td>";
      Sub (formatField bookingDetails "receptionRooms");
      Lit "</td></tr>
      <tr><td>Service Type</td><td>";
      Sub (Normal cleaningTypeDisplay);
      Lit "</td></tr>
      <tr><td>Current Cleaner</td><td>";
      Sub (Normal currentCleanerDisplay);
      Lit "</td></tr>
      <tr><td>Preferred Days</td><td>";
      Sub (Normal bestDaysDisplay);
      Lit "</td></tr>
      <tr><td>Supplies</td><td>";
      Sub (formatField bookingDetails "supplyMaterials");
      Lit "</td></tr>
      <tr><td>Hiring Decision</td><td>";
      Sub (formatField bookingDetails "hiringDecision");
      Lit "</td></tr>
      <tr><td>Location</td><td>";
      Sub (formatField bookingDetails "location");
      Lit "</td></tr>
    " ].

Definition cleaningAdminContent (userDetails : JsValue)
    (bookingRows description : string) : Completion string :=
  template
    [ Lit (q "
      <h2 style=`color: #d32f2f; margin-top:0;`>New Cleaning Job Request</h2>
      <div class=`section-title`>Customer Details</div>
      <table class=`info-table`>
        <tr><td>Name</td><td>");
      Sub (Get userDetails "name");
      Lit "</td></tr>
        <tr><td>Email</td><td>";
      Sub (Get userDetails "email");
      Lit "</td></tr>
        <tr><td>Phone</td><td>";
      Sub (Get userDetails "phone");
      Lit (q "</td></tr>
      </table>
      <div class=`section-title`>Job Specification</div>
      <table class=`info-table`>");
      Lit bookingRows;
      Lit (q "</table>
      <div class=`section-title`>Customer Notes</div>
      <div class=`description-box`>");
      Lit (orElse description "No additional notes provided.");
      Lit "</div>
    " ].

Definition cleaningUserContent (userDetails : JsValue) (bookingRows : string)
  : Completion string :=
  template
    [ Lit (q "
      <h2 style=`color: #333; margin-top:0;`>Booking Confirmation</h2>
      <p>Dear ");
      Sub (Get userDetails "name");
      Lit (q ",</p>
      <p>Thank you for choosing <strong>LOKSAR</strong>. We have received your request for a cleaning service.</p>
      <div class=`highlight`>
        We will review your property details and provide you with a competitive quote shortly.
      </div>
      <div class=`section-title`>Your Request Summary</div>
      <table class=`info-table`>");
      Lit bookingRows;
      Lit "</table>
      <p>Best Regards,<br>The Loksar Team</p>
    " ].

(** Lines 167-247: everything the handler computes before the first
    send. *)
Definition cleaningContents (req : BookingRequest)
  : Completion (JsValue * string * string) :=
  (userDetails <- parseField (userDetails_field req) ;;
   bookingDetails <- parseField (bookingDetails_field req) ;;
   bestDays <- bestDaysDisplay bookingDetails ;;
   currentCleaner <- currentCleanerDisplay bookingDetails ;;
   cleaningType <- cleaningTypeDisplay bookingDetails ;;
   bookingRows <- cleaningBookingRows bookingDetails bestDays
                    currentCleaner cleaningType ;;
   adminContent <- cleaningAdminContent userDetails bookingRows
                     (descriptionOf req) ;;
   userContent <- cleaningUserContent userDetails bookingRows ;;
   Normal (userDetails, adminContent, userContent))%completion.

(** [app.post('/api/book-cleaning', upload.array('files'), ...)]. *)
Definition bookCleaningHandler (req : BookingRequest) : Action unit :=
  tryCatch
    (contents <- lift (cleaningContents req) ;;
     let '(userDetails, adminContent, userContent) := contents in
     sendEmail (envValue (ADMIN_EMAIL env)) "New Cleaning Job Alert"
       (generateEmailTemplate (currentYear env) "New Cleaning Job" adminContent)
       (Some (emailAttachments req)) ;;
     customer <- lift (Get userDetails "email") ;;
     sendEmail customer "Booking Received - Loksar Services"
       (generateEmailTemplate (currentYear env) "Booking Received" userContent)
       None ;;
     res_status_json 200 true)%action
    (fun error =>
       (console_error None error ;;
        res_status_json 500 false)%action).

(** *** 3. Gardening Booking *)

Definition gardeningBookingRows (bookingDetails : JsValue) : Completion string :=
  template
    [ Lit "
      <tr><td>Property Type</td><td>";
      Sub (formatField bookingDetails "propertyType");
      Lit "</td></tr>
      <tr><td>Services</td><td>";
      Sub (formatField bookingDetails "services");
      Lit "</td></tr>
      <tr><td>Frequency</td><td>";
      Sub (formatField bookingDetails "frequency");
      Lit "</td></tr>
      <tr><td>Garden Size</td><td>";
      Sub (formatField bookingDetails "gardenSize");
      Lit "</td></tr>
      <tr><td>Condition</td><td>";
      Sub (formatField bookingDetails "gardenCondition");
      Lit "</td></tr>
      <tr><td>Plants</td><td>";
      Sub (formatField bookingDetails "plants");
      Lit "</td></tr>
      <tr><td>Waste Removal</td><td>";
      Sub (formatField bookingDetails "gardenWaste");
      Lit "</td></tr>
      <tr><td>Start Time</td><td>";
      Sub (formatField bookingDetails "workBegin");
      Lit "</td></tr>
      <tr><td>Hiring Decision</td><td>";
      Sub (formatField bookingDetails "hiringDecision");
      Lit "</td></tr>
      <tr><td>Location</td><td>";
      Sub (formatField bookingDetails "location");
      Lit "</td></tr>
    " ].

Definition gardeningAdminContent (userDetails : JsValue)
    (bookingRows description : string) : Completion string :=
  template
    [ Lit (q "
      <h2 style=`color: #2e7d32; margin-top:0;`>New Gardening Job Request</h2>
      <div class=`section-title`>Customer Details</div>
      <table class=`info-table`>
        <tr><td>Name</td><td>");
      Sub (Get userDetails "name");
      Lit "</td></tr>
        <tr><td>Email</td><td>";
      Sub (Get userDetails "email");
      Lit "</td></tr>
        <tr><td>Phone</td><td>";
      Sub (Get userDetails "phone");
      Lit (q "</td></tr>
      </table>
      <div class=`section-title`>Job Specification</div>
      <table class=`info-table`>");
      Lit bookingRows;
      Lit (q "</table>
      <div class=`section-title`>Customer Notes</div>
      <div class=`description-box`>");
      Lit (orElse description "No additional notes provided.");
      Lit "</div>
    " ].

Definition gardeningUserContent (userDetails : JsValue) (bookingRows : string)
  : Completion string :=
  template
    [ Lit (q "
      <h2 style=`color: #333; margin-top:0;`>Booking Confirmation</h2>
      <p>Dear ");
      Sub (Get userDetails "name");
      Lit (q ",</p>
      <p>Thank you for choosing <strong>LOKSAR</strong>. We have received your gardening service request.</p>
      <div class=`highlight`>
        Our gardening experts will review your requirements and get back to you soon.
      </div>
      <div class=`section-title`>Your Request Summary</div>
      <table class=`info-table`>");
      Lit bookingRows;
      Lit "</table>
      <p>Best Regards,<br>The Loksar Team</p>
    " ].

(** Lines 262-308: everything the handler computes before the first
    send. *)
Definition gardeningContents (req : BookingRequest)
  : Completion (JsValue * string * string) :=
  (userDetails <- parseField (userDetails_field req) ;;
   bookingDetails <- parseField (bookingDetails_field req) ;;
   bookingRows <- gardeningBookingRows bookingDetails ;;
   adminContent <- gardeningAdminContent userDetails bookingRows
                     (descriptionOf req) ;;
   userContent <- gardeningUserContent userDetails bookingRows ;;
   Normal (userDetails, adminContent, userContent))%completion.

(** [app.post('/api/book-gardening', upload.array('files'), ...)]. *)
Definition bookGardeningHandler (req : BookingRequest) : Action unit :=
  tryCatch
    (contents <- lift (gardeningContents req) ;;
     let '(userDetails, adminContent, userContent) := contents in
     sendEmail (envValue (ADMIN_EMAIL env)) "New Gardening Job Alert"
       (generateEmailTemplate (currentYear env) "New Gardening Job" adminContent)
       (Some (emailAttachments req)) ;;
     customer <- lift (Get userDetails "email") ;;
     sendEmail customer "Booking Received - Loksar Services"
       (generateEmailTemplate (currentYear env) "Booking Received" userContent)
       None ;;
     res_status_json 200 true)%action
    (fun error =>
       (console_error None error ;;
        res_status_json 500 false)%action).

End Server.

(** ** Summary of a handler run *)

(** What a run of a handler amounts to, as a function of the request and
    of the calls the transport has already seen: the calls it makes, in
    order, and whether it reports success.  The handlers are proved to
    behave as summarised here. *)

Definition okResponse : Response := {| status := 200; success := true |}.
Definition failResponse : Response := {| status := 500; success := false |}.

Definition responseOf (ok : bool) : Response :=
  if ok then okResponse else failResponse.

(** A world after some more calls, console lines and responses. *)
Definition extend (w : World) (calls : list MailOptions) (lines : list LogEntry)
    (written : list Response) : World :=
  {| outbox := (outbox w ++ calls)%list;
     console := (console w ++ lines)%list;
     responses := (responses w ++ written)%list |}.

Section Summary.

Variable env : Env.
Variable JSON_parse : string -> Completion JsValue.
Variable transporter : Transport.

(** Outcome of one [sendEmail] made after the calls [before]: the
    verdict of the transport, then the conversion of the recipient for
    the log line. *)
Definition sendCompletes (before : list MailOptions) (m : MailOptions)
  : Completion unit :=
  bindC (transporter before m) (fun _ =>
  bindC (ToString (to m)) (fun _ => Normal tt)).

(** The admin send, then the customer send when the first completed. *)
Definition twoSends (before : list MailOptions) (admin : MailOptions)
    (customer : Completion MailOptions) : list MailOptions * bool :=
  match sendCompletes before admin with
  | Throw _ => ([admin], false)
  | Normal _ =>
      match customer with
      | Throw _ => ([admin], false)
      | Normal second =>
          match sendCompletes (before ++ [admin])%list second with
          | Throw _ => ([admin; second], false)
          | Normal _ => ([admin; second], true)
          end
      end
  end.

(** [None]: the handler is left by a throw before its [try]. *)
Definition contactSummary (req : ContactRequest) (before : list MailOptions)
  : option (list MailOptions * bool) :=
  match contactContents req with
  | Throw _ => None
  | Normal (email, subject, adminContent, userContent) =>
      match ToString subject with
      | Throw _ => Some ([], false)
      | Normal subjectText =>
          Some (twoSends before
                  (mailOptions env (envValue (ADMIN_EMAIL env))
                     ("New Contact: " ++ subjectText)
                     (generateEmailTemplate (currentYear env) "New Contact"
                        adminContent) [])
                  (Normal
                     (mailOptions env email "We received your message - Loksar"
                        (generateEmailTemplate (currentYear env) "Thank You"
                           userContent) [])))
      end
  end.

Definition bookingSummary (contents : Completion (JsValue * string * string))
    (adminSubject adminTitle : string) (req : BookingRequest)
    (before : list MailOptions) : list MailOptions * bool :=
  match contents with
  | Throw _ => ([], false)
  | Normal (userDetails, adminContent, userContent) =>
      twoSends before
        (mailOptions env (envValue (ADMIN_EMAIL env)) adminSubject
           (generateEmailTemplate (currentYear env) adminTitle adminContent)
           (emailAttachments req))
        (bindC (Get userDetails "email") (fun customer =>
         Normal
           (mailOptions env customer "Booking Received - Loksar Services"
              (generateEmailTemplate (currentYear env) "Booking Received"
                 userContent) [])))
  end.

Definition cleaningSummary (req : BookingRequest) (before : list MailOptions)
  : list MailOptions * bool :=
  bookingSummary (cleaningContents JSON_parse req)
    "New Cleaning Job Alert" "New Cleaning Job" req before.

Definition gardeningSummary (req : BookingRequest) (before : list MailOptions)
  : list MailOptions * bool :=
  bookingSummary (gardeningContents JSON_parse req)
    "New Gardening Job Alert" "New Gardening Job" req before.

End Summary.

(** ** The object rule as the specification words it *)

(** A field counts as given when it is neither absent, nor [null], nor
    the empty string. *)
Definition provided (v : JsValue) : bool :=
  match v with
  | JUndefined | JNull => false
  | JStr s => negb (isEmptyString s)
  | _ => true
  end.

Definition isOtherLiteral (v : JsValue) : bool :=
  match v with
  | JStr s => String.eqb s "other"
  | _ => false
  end.

(** The cascade read off the specification: first given field among
    [label], [value], [name]; else a given [id] other than the string
    [other]; else a given [other]; else the first value when it is a
    string; else the placeholder. *)
Definition formatObject_spec (props : list (string * JsValue)) : JsValue :=
  if provided (lookup props "label") then lookup props "label"
  else if provided (lookup props "value") then lookup props "value"
  else if provided (lookup props "name") then lookup props "name"
  else if provided (lookup props "id") && negb (isOtherLiteral (lookup props "id"))
       then lookup props "id"
  else if provided (lookup props "other") then lookup props "other"
  else match Object_values props with
       | JStr s :: _ => JStr s
       | _ => JStr "Provided"
       end.

(** The object rule as a relation between the properties and the
    result, one constructor per line of the cascade, with JavaScript's
    truthiness as the test. *)
Inductive ObjectRule (props : list (string * JsValue)) : JsValue -> Prop :=
| ByLabel :
    truthy (lookup props "label") = true ->
    ObjectRule props (lookup props "label")
| ByValue :
    truthy (lookup props "label") = false ->
    truthy (lookup props "value") = true ->
    ObjectRule props (lookup props "value")
| ByName :
    truthy (lookup props "label") = false ->
    truthy (lookup props "value") = false ->
    truthy (lookup props "name") = true ->
    ObjectRule props (lookup props "name")
| ById :
    truthy (lookup props "label") = false ->
    truthy (lookup props "value") = false ->
    truthy (lookup props "name") = false ->
    truthy (lookup props "id") = true ->
    isOtherLiteral (lookup props "id") = false ->
    ObjectRule props (lookup props "id")
| ByOther :
    truthy (lookup props "label") = false ->
    truthy (lookup props "value") = false ->
    truthy (lookup props "name") = false ->
    truthy (lookup props "id") = false
    \/ isOtherLiteral (lookup props "id") = true ->
    truthy (lookup props "other") = true ->
    ObjectRule props (lookup props "other")
| ByFirstString (s : string) :
    truthy (lookup props "label") = false ->
    truthy (lookup props "value") = false ->
    truthy (lookup props "name") = false ->
    truthy (lookup props "id") = false
    \/ isOtherLiteral (lookup props "id") = true ->
    truthy (lookup props "other") = false ->
    hd_error (Object_values props) = Some (JStr s) ->
    ObjectRule props (JStr s)
| ByPlaceholder :
    truthy (lookup props "label") = false ->
    truthy (lookup props "value") = false ->
    truthy (lookup props "name") = false ->
    truthy (lookup props "id") = false
    \/ isOtherLiteral (lookup props "id") = true ->
    truthy (lookup props "other") = false ->
    (forall s, hd_error (Object_values props) <> Some (JStr s)) ->
    ObjectRule props (JStr "Provided").

(** [null] and [undefined], which [join] prints as nothing. *)
Definition nullish (v : JsValue) : bool :=
  match v with
  | JUndefined | JNull => true
  | _ => false
  end.

(** [needle] occurs in [text]. *)
Definition occursIn (needle text : string) : Prop :=
  exists before after : string, text = before ++ needle ++ after.

(** The two sends of a run from [w] to [w'] happen one after the other:
    at most two calls, the first to the administrator; a rejected first
    call is the last call and the run reports failure; success is
    reported only after two calls that the transport accepted, the
    second having been made when the first was already in the
    transport's history. *)
Definition SequentialSends (transporter : Transport) (administrator : JsValue)
    (w w' : World) : Prop :=
  (exists calls,
      outbox w' = (outbox w ++ calls)%list
      /\ List.length calls <= 2
      /\ forall first rest, calls = first :: rest -> to first = administrator)
  /\ (forall first rest e,
        outbox w' = (outbox w ++ first :: rest)%list ->
        transporter (outbox w) first = Throw e ->
        rest = [] /\ responses w' = (responses w ++ [failResponse])%list)
  /\ (responses w' = (responses w ++ [okResponse])%list ->
      exists first second,
        outbox w' = (outbox w ++ [first; second])%list
        /\ transporter (outbox w) first = Normal tt
        /\ transporter (outbox w ++ [first])%list second = Normal tt).

(** The Customer Notes section of an admin email when no note was
    given. *)
Definition emptyNotesSection : string :=
  q "<div class=`section-title`>Customer Notes</div>
      <div class=`description-box`>No additional notes provided.</div>".

(** ** Sample submissions *)

Definition sampleEnv : Env :=
  {| EMAIL_USER := Some "noreply@loksar.com";
     ADMIN_EMAIL := Some "admin@loksar.com";
     currentYear := 2025 |}.

Definition emptyWorld : World :=
  {| outbox := []; console := []; responses := [] |}.

Definition acceptAll : Transport := fun _ _ => Normal tt.

Definition rejectAll : Transport :=
  fun _ _ => Throw (TransportError "connection refused").

(** The contact submission of the specification's example. *)
Definition annRequest : ContactRequest :=
  {| contact_body :=
       JObj [("name", JStr "Ann"); ("email", JStr "ann@x.com");
             ("phone", JStr "123"); ("subject", JStr "Leak");
             ("message", JStr "Help")] |}.

Definition sampleUserText : string :=
  q "{`name`:`Ann`,`email`:`ann@x.com`,`phone`:`123`}".

Definition sampleBookingText : string :=
  q "{`bedrooms`:3,`bestDays`:{`bestDays`:[`Mon`,`Wed`],`other`:`evenings`}}".

Definition sampleUserDetails : JsValue :=
  JObj [("name", JStr "Ann"); ("email", JStr "ann@x.com");
        ("phone", JStr "123")].

Definition sampleBookingDetails : JsValue :=
  JObj [("bedrooms", JNum 3);
        ("bestDays",
         JObj [("bestDays", JArr [JStr "Mon"; JStr "Wed"]);
               ("other", JStr "evenings")])].

(** A parser that knows the two sample texts, on which it answers as
    [JSON.parse] does. *)
Definition sampleParse (text : string) : Completion JsValue :=
  if String.eqb text sampleUserText then Normal sampleUserDetails
  else if String.eqb text sampleBookingText then Normal sampleBookingDetails
  else Throw SyntaxError.

Definition samplePhoto : File :=
  {| originalname := "kitchen.jpg";
     buffer := [Byte.xff; Byte.xd8; Byte.xff; Byte.xe0] |}.

(** A booking without a description and with one uploaded file. *)
Definition sampleBooking : BookingRequest :=
  {| userDetails_field := Some sampleUserText;
     bookingDetails_field := Some sampleBookingText;
     description_field := None;
     files := Some [samplePhoto] |}.

(** ** Ordinary data *)

(** A value is ordinary when no object inside it, at any depth, has a
    property named [toString]: the only values on which a string
    conversion throws are the others. *)
Fixpoint plain (v : JsValue) : bool :=
  match v with
  | JArr items => forallb plain items
  | JObj props =>
      negb (hasOwn props "toString")
      && forallb (fun kv => plain (snd kv)) props
  | _ => true
  end.

(** A template part that cannot throw: literal text, or a substitution
    that ends normally in an ordinary value. *)
Definition PartReturns (part : Part) : Prop :=
  match part with
  | Lit _ => True
  | Sub e => exists v, e = Normal v /\ plain v = true
  end.

(** The text an array of strings is displayed as: the empty string
    counts as not given. *)
Definition shown (s : string) : string :=
  if isEmptyString s then "N/A" else s.

(** The properties of [bookingDetails] that the cleaning handler reads. *)
Definition cleaningKeys : list string :=
  ["bestDays"; "currentCleaner"; "cleaningType"; "cleaningTypeOther";
   "propertyType"; "frequency"; "bedrooms"; "receptionRooms";
   "supplyMaterials"; "hiringDecision"; "location"].

(** The rows of the cleaning summary that show one formatted field:
    the label of the row and the property it shows. *)
Definition cleaningFieldRows : list (string * string) :=
  [("Property Type", "propertyType"); ("Frequency", "frequency");
   ("Bedrooms", "bedrooms"); ("Bathrooms", "receptionRooms");
   ("Supplies", "supplyMaterials"); ("Hiring Decision", "hiringDecision");
   ("Location", "location")].

(** The ten rows of the gardening summary. *)
Definition gardeningFieldRows : list (string * string) :=
  [("Property Type", "propertyType"); ("Services", "services");
   ("Frequency", "frequency"); ("Garden Size", "gardenSize");
   ("Condition", "gardenCondition"); ("Plants", "plants");
   ("Waste Removal", "gardenWaste"); ("Start Time", "workBegin");
   ("Hiring Decision", "hiringDecision"); ("Location", "location")].

(** A row of a summary table. *)
Definition tableRow (label value : string) : string :=
  "<tr><td>" ++ label ++ "</td><td>" ++ value ++ "</td></tr>".

(** A transport that accepts the first call it sees and rejects every
    later one. *)
Definition acceptFirstOnly : Transport :=
  fun before _ =>
    match before with
    | [] => Normal tt
    | _ :: _ => Throw (TransportError "mailbox unavailable")
    end.

(** A booking whose user details are not JSON. *)
Definition malformedBooking : BookingRequest :=
  {| userDetails_field := Some "Ann";
     bookingDetails_field := Some sampleBookingText;
     description_field := Some "<b>Ring twice</b>";
     files := None |}.

(** The sample booking with a note. *)
Definition notedBooking : BookingRequest :=
  {| userDetails_field := Some sampleUserText;
     bookingDetails_field := Some sampleBookingText;
     description_field := Some "<b>Ring twice</b>";
     files := Some [samplePhoto] |}.

(** The box of the Customer Notes section around a note. *)
Definition notesBox (note : string) : string :=
  q "<div class=`description-box`>" ++ note ++ "</div>".

(** * Properties *)

(** ** Strings *)

Lemma append_nil_r (s : string) : s ++ "" = s.
Proof. induction s as [|c s IH]; [reflexivity | cbn; now rewrite IH]. Qed.

Lemma append_assoc (a b c : string) : a ++ b ++ c = (a ++ b) ++ c.
Proof. induction a as [|x a IH]; [reflexivity | cbn; now rewrite IH]. Qed.

Lemma occursIn_here (needle before after : string) :
  occursIn needle (before ++ needle ++ after).
Proof. now exists before, after. Qed.

Lemma occursIn_append_l (needle a text : string) :
  occursIn needle text -> occursIn needle (a ++ text).
Proof.
  intros (before & after & ->). exists (a ++ before), after.
  now rewrite append_assoc.
Qed.

Lemma occursIn_append_r (needle text b : string) :
  occursIn needle text -> occursIn needle (text ++ b).
Proof.
  intros (before & after & ->). exists before, (after ++ b).
  now rewrite <- !append_assoc.
Qed.

Lemma occursIn_trans (a b c : string) :
  occursIn a b -> occursIn b c -> occursIn a c.
Proof.
  intros Hab (before & after & ->).
  now apply occursIn_append_l, occursIn_append_r.
Qed.

(** ** Template literals *)

Lemma template_app (ps1 ps2 : list Part) :
  template (ps1 ++ ps2)
  = bindC (template ps1) (fun a =>
    bindC (template ps2) (fun b => Normal (a ++ b))).
Proof.
  induction ps1 as [|[text|e] ps1 IH]; cbn [app template].
  - cbn [bindC]. destruct (template ps2); reflexivity.
  - rewrite IH. destruct (template ps1) as [a|]; [|reflexivity].
    cbn [bindC]. destruct (template ps2) as [b|]; [|reflexivity].
    cbn [bindC]. now rewrite append_assoc.
  - destruct e as [v|]; [|reflexivity]. cbn [bindC].
    destruct (ToString v) as [t|]; [|reflexivity]. cbn [bindC].
    rewrite IH. destruct (template ps1) as [a|]; [|reflexivity].
    cbn [bindC]. destruct (template ps2) as [b|]; [|reflexivity].
    cbn [bindC]. now rewrite append_assoc.
Qed.

(** The text of a run of consecutive parts occurs in the text of the
    whole template. *)
Lemma template_window (k n : nat) (ps : list Part) (s t : string) :
  template ps = Normal s ->
  template (firstn n (skipn k ps)) = Normal t ->
  occursIn t s.
Proof.
  intros Hs Ht.
  rewrite <- (firstn_skipn k ps), template_app in Hs.
  destruct (template (firstn k ps)) as [a|]; [|discriminate].
  cbn [bindC] in Hs.
  rewrite <- (firstn_skipn n (skipn k ps)), template_app, Ht in Hs.
  cbn [bindC] in Hs.
  destruct (template (skipn n (skipn k ps))) as [c|]; [|discriminate].
  cbn [bindC] in Hs. inversion Hs. now exists a, c.
Qed.

Lemma generateEmailTemplate_content (year : Z) (title content : string) :
  occursIn content (generateEmailTemplate year title content).
Proof.
  unfold generateEmailTemplate. apply occursIn_here.
Qed.

(** ** Value formatter *)

Lemma truthy_not_nullish (v : JsValue) : truthy v = true -> nullish v = false.
Proof. destruct v; simpl; congruence. Qed.

Lemma formatObject_not_nullish (props : list (string * JsValue)) :
  nullish (formatObject props) = false.
Proof.
  unfold formatObject.
  repeat match goal with
         | |- context [if ?c then _ else _] =>
             let E := fresh "E" in destruct c eqn:E
         end;
    try (apply truthy_not_nullish; assumption).
  - apply andb_prop in E2. apply truthy_not_nullish. tauto.
  - destruct (Object_values props) as [|[] ?]; reflexivity.
Qed.

Lemma formatValue_not_nullish (data r : JsValue) :
  formatValue data = Normal r -> nullish r = false.
Proof.
  destruct data as [| |b|n|s|items|props]; simpl; intros H.
  - inversion H; reflexivity.
  - inversion H; reflexivity.
  - destruct b; inversion H; reflexivity.
  - inversion H; reflexivity.
  - destruct (isEmptyString s); inversion H; reflexivity.
  - destruct items as [|x rest]; [inversion H; reflexivity|].
    destruct (mapC formatValue (x :: rest)) as [formatted|]; simpl in H;
      [|discriminate].
    destruct (Array_join ", " formatted); simpl in H; inversion H; reflexivity.
  - inversion H. apply formatObject_not_nullish.
Qed.

Lemma mapC_Forall {A B : Type} (f : A -> Completion B) (P : B -> Prop) :
  (forall a b, f a = Normal b -> P b) ->
  forall l r, mapC f l = Normal r -> Forall P r.
Proof.
  intros Hf. induction l as [|a l IH]; simpl; intros r H.
  - inversion H. constructor.
  - destruct (f a) as [b|] eqn:Ea; simpl in H; [|discriminate].
    destruct (mapC f l) as [bs|]; simpl in H; [|discriminate].
    inversion H; subst. constructor; eauto.
Qed.

(** On values none of which is [null] or [undefined], [join] is the
    library's [String.concat] of the converted elements. *)
Lemma joinWith_concat (sep : string) (vs : list JsValue) :
  Forall (fun v => nullish v = false) vs ->
  joinWith ToString sep vs
  = bindC (mapC ToString vs) (fun strs => Normal (String.concat sep strs)).
Proof.
  induction 1 as [|v vs Hv Hvs IH].
  - reflexivity.
  - cbn [joinWith mapC] in *.
    replace (match v with JUndefined | JNull => Normal "" | _ => ToString v end)
      with (ToString v) by (destruct v; try reflexivity; discriminate).
    destruct (ToString v) as [s|]; [|reflexivity]. cbn [bindC].
    destruct vs as [|v' vs'].
    + reflexivity.
    + rewrite IH. destruct (mapC ToString (v' :: vs')) as [strs|] eqn:E;
        [|reflexivity].
      cbn [bindC]. destruct strs as [|s' strs'].
      * cbn [mapC] in E. destruct (ToString v'); [|discriminate].
        cbn [bindC] in E. destruct (mapC ToString vs'); discriminate.
      * reflexivity.
Qed.

Lemma formatObject_rule (props : list (string * JsValue)) :
  ObjectRule props (formatObject props).
Proof.
  unfold formatObject.
  destruct (truthy (lookup props "label")) eqn:El; [now constructor|].
  destruct (truthy (lookup props "value")) eqn:Ev; [now constructor|].
  destruct (truthy (lookup props "name")) eqn:En; [now constructor|].
  destruct (truthy (lookup props "id")) eqn:Ei; cbn [andb].
  - change (match lookup props "id" with
            | JStr s => (s =? "other")%string
            | _ => false
            end) with (isOtherLiteral (lookup props "id")).
    destruct (isOtherLiteral (lookup props "id")) eqn:Eo; cbn [negb].
    + destruct (truthy (lookup props "other")) eqn:Et;
        [apply ByOther; auto|].
      destruct (Object_values props) as [|v vs] eqn:Evs.
      * apply ByPlaceholder; auto. rewrite Evs. discriminate.
      * destruct v; try (apply ByPlaceholder; auto; rewrite Evs; discriminate).
        apply ByFirstString; auto. rewrite Evs. reflexivity.
    + now apply ById.
  - destruct (truthy (lookup props "other")) eqn:Et;
      [apply ByOther; auto|].
    destruct (Object_values props) as [|v vs] eqn:Evs.
    + apply ByPlaceholder; auto. rewrite Evs. discriminate.
    + destruct v; try (apply ByPlaceholder; auto; rewrite Evs; discriminate).
      apply ByFirstString; auto. rewrite Evs. reflexivity.
Qed.

Lemma ObjectRule_functional (props : list (string * JsValue)) (r1 r2 : JsValue) :
  ObjectRule props r1 -> ObjectRule props r2 -> r1 = r2.
Proof.
  intros H1 H2.
  destruct H1; destruct H2; try reflexivity; try congruence;
    repeat match goal with
           | H : _ \/ _ |- _ => destruct H
           end; try congruence.
  all: match goal with
       | H : forall s, _ <> Some (JStr s) |- _ => exfalso; eapply H; eassumption
       end.
Qed.

(** Where none of the five fields holds [false] or [0], the only values
    on which "given" and "truthy" differ, the cascade of the
    specification's wording and the code's agree. *)
Lemma formatObject_spec_agrees (props : list (string * JsValue)) :
  (forall k, In k ["label"; "value"; "name"; "id"; "other"] ->
             provided (lookup props k) = truthy (lookup props k)) ->
  formatValue (JObj props) = Normal (formatObject_spec props).
Proof.
  intros H. cbn [formatValue]. f_equal.
  unfold formatObject, formatObject_spec.
  rewrite !H by (cbn [In]; tauto).
  reflexivity.
Qed.

(** C1, as amended.  For every plain object, [formatValue] returns the
    first truthy field among [label], [value], [name] (truthy: not
    [undefined], [null], [false], [0] or the empty string); otherwise
    the [id] field when it is truthy and not the string [other];
    otherwise the [other] field when it is truthy; otherwise the first
    value of the object when that is a string; otherwise the placeholder
    [Provided].  [ObjectRule] states these lines and determines the
    result.  The object with id [other] and other [Custom] gives
    [Custom]; the object with label [X] and value [Y] gives [X]. *)
Theorem formatValue_object_rule :
  (forall props r, formatValue (JObj props) = Normal r <-> ObjectRule props r)
  /\ formatValue (JObj [("id", JStr "other"); ("other", JStr "Custom")])
     = Normal (JStr "Custom")
  /\ formatValue (JObj [("label", JStr "X"); ("value", JStr "Y")])
     = Normal (JStr "X").
Proof.
  split; [|split; reflexivity].
  intros props r. cbn [formatValue]. split.
  - intros H. inversion H. apply formatObject_rule.
  - intros H. f_equal.
    apply (ObjectRule_functional props); [apply formatObject_rule | exact H].
Qed.

Lemma formatValue_object_rule_witness :
  ObjectRule [("id", JStr "foo")] (JStr "foo").
Proof.
  apply (proj1 (proj1 formatValue_object_rule [("id", JStr "foo")] (JStr "foo"))).
  reflexivity.
Defined.

(** C1, as stated, fails on an object whose [id] is the number 0: the
    field is present and is not the string [other], yet the formatter
    answers [Provided]. *)
Lemma formatValue_object_counterexample :
  formatValue (JObj [("id", JNum 0)]) = Normal (JStr "Provided")
  /\ formatObject_spec [("id", JNum 0)] = JNum 0
  /\ formatValue (JObj [("id", JNum 0)])
     <> Normal (formatObject_spec [("id", JNum 0)]).
Proof.
  repeat split; try reflexivity. discriminate.
Qed.

(** C2.  [formatValue] answers the placeholder [N/A] for [null], for
    [undefined] and for the empty string. *)
Theorem formatValue_not_provided :
  formatValue JNull = Normal (JStr "N/A")
  /\ formatValue JUndefined = Normal (JStr "N/A")
  /\ formatValue (JStr "") = Normal (JStr "N/A").
Proof. repeat split. Qed.

(** C3.  [formatValue] answers [N/A] for the empty array; for a
    non-empty array it formats every element and answers their string
    forms joined by a comma and a space, [String.concat] being the
    library's join (and it throws exactly when formatting or converting
    an element throws). *)
Theorem formatValue_array (items : list JsValue) :
  formatValue (JArr items)
  = match items with
    | [] => Normal (JStr "N/A")
    | _ :: _ =>
        bindC (mapC formatValue items) (fun formatted =>
        bindC (mapC ToString formatted) (fun strs =>
        Normal (JStr (String.concat ", " strs))))
    end.
Proof.
  destruct items as [|x rest]; [reflexivity|].
  cbn [formatValue].
  destruct (mapC formatValue (x :: rest)) as [formatted|] eqn:E; [|reflexivity].
  cbn [bindC]. unfold Array_join.
  rewrite joinWith_concat.
  - destruct (mapC ToString formatted); reflexivity.
  - eapply mapC_Forall; [|exact E].
    intros a b. apply formatValue_not_nullish.
Qed.

(** C4, as amended.  A non-empty string is returned unchanged.  A number
    is returned unchanged as well, as a number and not as a string.  It
    becomes text through what the caller then does with the result:
    interpolation into a template literal, the join of a formatted
    array, or a string appended with [+=] as for the cleaning type; for
    a safe integer that text is its plain decimal digits. *)
Theorem formatValue_string_number (s : string) (n : Z) :
  s <> "" ->
  formatValue (JStr s) = Normal (JStr s)
  /\ formatValue (JNum n) = Normal (JNum n)
  /\ (isSafeInteger n = true ->
      template [Sub (formatValue (JNum n))] = Normal (digitsOf n)
      /\ formatValue (JArr [JNum n]) = Normal (JStr (digitsOf n))
      /\ forall text,
          text <> "" ->
          cleaningTypeDisplay
            (JObj [("cleaningType", JNum n); ("cleaningTypeOther", JStr text)])
          = Normal (JStr (digitsOf n ++ " (" ++ text ++ ")"))).
Proof.
  intros Hs. split; [|split; [reflexivity|]].
  - destruct s; [congruence | reflexivity].
  - intros Hsafe.
    assert (Hn : Number_toString n = digitsOf n)
      by (unfold Number_toString; now rewrite Hsafe).
    split; [|split].
    + cbn [formatValue template bindC ToString]. rewrite Hn.
      now rewrite append_nil_r.
    + cbn [formatValue mapC bindC]. unfold Array_join.
      cbn [joinWith ToString bindC]. now rewrite Hn.
    + intros text Ht. destruct text as [|c text]; [congruence|].
      unfold cleaningTypeDisplay, formatField.
      cbn [Get lookup String.eqb Ascii.eqb Bool.eqb bindC formatValue truthy
             isEmptyString negb template ToString].
      unfold appendString. cbn [ToString bindC]. rewrite Hn.
      now rewrite append_nil_r.
Qed.

Lemma formatValue_string_number_witness :
  formatValue (JStr "Mon") = Normal (JStr "Mon")
  /\ formatValue (JNum 3) = Normal (JNum 3)
  /\ template [Sub (formatValue (JNum 3))] = Normal "3"
  /\ formatValue (JArr [JNum 3]) = Normal (JStr "3")
  /\ cleaningTypeDisplay
       (JObj [("cleaningType", JNum 3); ("cleaningTypeOther", JStr "oven")])
     = Normal (JStr ("3" ++ " (" ++ "oven" ++ ")")).
Proof.
  destruct (formatValue_string_number "Mon" 3 ltac:(discriminate))
    as (Hstring & Hnumber & Htext).
  destruct (Htext eq_refl) as (Htemplate & Hjoin & Happend).
  split; [exact Hstring|]. split; [exact Hnumber|].
  split; [exact Htemplate|]. split; [exact Hjoin|].
  apply (Happend "oven"). discriminate.
Defined.

(** C4, as stated, fails: the number 5 comes back as the number, not as
    the string of its digits; and the empty string does not come back
    unchanged. *)
Lemma formatValue_string_number_counterexample :
  Number_toString 5 = "5"
  /\ formatValue (JNum 5) <> Normal (JStr (Number_toString 5))
  /\ formatValue (JStr "") <> Normal (JStr "").
Proof.
  repeat split; discriminate.
Qed.

(** [String(n)] on integers around and beyond the safe range: rounding
    to the nearest double, shortest digits, exponent notation from
    10^21 on. *)
Example Number_toString_examples :
  map Number_toString
    [0; -7; 2 ^ 53 - 1; 2 ^ 53 + 1; 2 ^ 53 + 3; 2 ^ 60; 2 ^ 64; 10 ^ 20;
     10 ^ 21; 10 ^ 23; 2 ^ 70; -(15 * 10 ^ 20); 2 ^ 1024 - 2 ^ 971;
     2 ^ 1024]%Z
  = ["0"; "-7"; "9007199254740991"; "9007199254740992"; "9007199254740996";
     "1152921504606847000"; "18446744073709552000"; "100000000000000000000";
     "1e+21"; "1e+23"; "1.1805916207174113e+21"; "-1.5e+21";
     "1.7976931348623157e+308"; "Infinity"].
Proof. vm_compute. reflexivity. Qed.

(** ** Dispatcher *)

Section Runs.

Variable env : Env.
Variable JSON_parse : string -> Completion JsValue.
Variable transporter : Transport.

Lemma extend_extend w c1 l1 r1 c2 l2 r2 :
  extend (extend w c1 l1 r1) c2 l2 r2
  = extend w (c1 ++ c2)%list (l1 ++ l2)%list (r1 ++ r2)%list.
Proof. unfold extend; cbn. now rewrite !app_assoc. Qed.

Lemma extend_nil w : extend w [] [] [] = w.
Proof. destruct w; unfold extend; cbn. now rewrite !app_nil_r. Qed.

(** One [sendEmail]: exactly one call reaches the transport, nothing is
    written to the response, and the call ends as [sendCompletes] says. *)
Lemma sendEmail_run recipient subj htmlContent attached w :
  exists lines,
    sendEmail env transporter recipient subj htmlContent attached w
    = (sendCompletes transporter (outbox w)
         (mailOptions env recipient subj htmlContent (defaultAttachments attached)),
       extend w [mailOptions env recipient subj htmlContent
                   (defaultAttachments attached)] lines []).
Proof.
  unfold sendEmail, tryCatch, bind, transporter_sendMail, sendCompletes, lift,
    console_log, console_error, throw, extend.
  cbn [outbox console responses to mailOptions].
  destruct (transporter (outbox w) _) as [[]|e]; cbn [bindC template].
  - destruct (ToString recipient) as [s|e]; cbn [bindC];
      rewrite (app_nil_r (responses w)); eexists; reflexivity.
  - rewrite (app_nil_r (responses w)); eexists; reflexivity.
Qed.

Lemma res_status_json_run (code : Z) (ok : bool) (w : World) :
  res_status_json code ok w
  = (Normal tt, extend w [] [] [{| status := code; success := ok |}]).
Proof.
  unfold res_status_json, extend. now rewrite !app_nil_r.
Qed.

Lemma tryCatch_lift_Normal {A B : Type} (x : A) (k : A -> Action B)
    (handler : JsError -> Action B) (w : World) :
  tryCatch (bind (lift (Normal x)) k) handler w = tryCatch (k x) handler w.
Proof. reflexivity. Qed.

Lemma tryCatch_lift_Throw {A B : Type} (e : JsError) (k : A -> Action B)
    (handler : JsError -> Action B) (w : World) :
  tryCatch (bind (lift (Throw e)) k) handler w = handler e w.
Proof. reflexivity. Qed.

(** The shape shared by the three handlers: inside one [try], the admin
    send, the customer send, the success response; any throw is turned
    by the [catch] into the failure response. *)
Lemma twoSends_run (onError : JsError -> Action unit)
    (admin : JsValue) (adminSubject adminHtml : string)
    (attached : option (list Attachment))
    (customer : Completion JsValue) (customerSubject customerHtml : string)
    (w : World) :
  (forall e w0, exists lines,
      onError e w0 = (Normal tt, extend w0 [] lines [failResponse])) ->
  exists lines,
    tryCatch
      (sendEmail env transporter admin adminSubject adminHtml attached ;;
       second <- lift customer ;;
       sendEmail env transporter second customerSubject customerHtml None ;;
       res_status_json 200 true)%action
      onError w
    = (Normal tt,
       extend w
         (fst (twoSends transporter (outbox w)
                 (mailOptions env admin adminSubject adminHtml
                    (defaultAttachments attached))
                 (bindC customer (fun second =>
                  Normal (mailOptions env second customerSubject
                            customerHtml [])))))
         lines
         [responseOf
            (snd (twoSends transporter (outbox w)
                    (mailOptions env admin adminSubject adminHtml
                       (defaultAttachments attached))
                    (bindC customer (fun second =>
                     Normal (mailOptions env second customerSubject
                               customerHtml [])))))]).
Proof.
  intros HonError.
  unfold tryCatch at 1, bind at 1, twoSends.
  destruct (sendEmail_run admin adminSubject adminHtml attached w)
    as (lines1 & ->).
  destruct (sendCompletes transporter (outbox w) _) as [[]|e1].
  2:{ destruct (HonError e1 (extend w [mailOptions env admin adminSubject
                                         adminHtml (defaultAttachments attached)]
                               lines1 [])) as (lines2 & ->).
      rewrite extend_extend. cbn [fst snd app responseOf]. eauto. }
  unfold bind at 1, lift at 1.
  destruct customer as [second|e2]; cbn [bindC].
  2:{ destruct (HonError e2 (extend w [mailOptions env admin adminSubject
                                         adminHtml (defaultAttachments attached)]
                               lines1 [])) as (lines2 & ->).
      rewrite extend_extend. cbn [fst snd app responseOf]. eauto. }
  unfold bind at 1.
  destruct (sendEmail_run second customerSubject customerHtml None
              (extend w [mailOptions env admin adminSubject adminHtml
                           (defaultAttachments attached)] lines1 []))
    as (lines2 & ->).
  replace (outbox (extend w [mailOptions env admin adminSubject adminHtml
                               (defaultAttachments attached)] lines1 []))
    with (outbox w ++ [mailOptions env admin adminSubject adminHtml
                         (defaultAttachments attached)])%list by reflexivity.
  cbn [defaultAttachments].
  destruct (sendCompletes transporter _ _) as [[]|e3].
  - rewrite res_status_json_run, !extend_extend.
    cbn [fst snd app responseOf]. eauto.
  - match goal with
    | |- context [onError e3 ?w0] =>
        destruct (HonError e3 w0) as (lines3 & ->)
    end.
    rewrite !extend_extend. cbn [fst snd app responseOf]. eauto.
Qed.

(** ** Handlers *)

Lemma booking_catch_run (e : JsError) (w0 : World) :
  exists lines,
    (console_error None e ;; res_status_json 500 false)%action w0
    = (Normal tt, extend w0 [] lines [failResponse]).
Proof.
  exists [ConsoleError None e].
  unfold bind, console_error, res_status_json, extend.
  cbn [outbox console responses]. now rewrite app_nil_r.
Qed.

Lemma contact_catch_run (e : JsError) (w0 : World) :
  exists lines,
    res_status_json 500 false w0 = (Normal tt, extend w0 [] lines [failResponse]).
Proof. exists []. apply res_status_json_run. Qed.

(** A booking handler always ends normally, having written one
    response, and its calls and verdict are those of its summary. *)
Lemma bookCleaningHandler_run (req : BookingRequest) (w : World) :
  exists lines,
    bookCleaningHandler env JSON_parse transporter req w
    = (Normal tt,
       extend w (fst (cleaningSummary env JSON_parse transporter req (outbox w)))
         lines
         [responseOf
            (snd (cleaningSummary env JSON_parse transporter req (outbox w)))]).
Proof.
  unfold bookCleaningHandler, cleaningSummary, bookingSummary.
  destruct (cleaningContents JSON_parse req) as [[[userDetails adminContent] userContent]|e].
  - rewrite tryCatch_lift_Normal. apply twoSends_run. apply booking_catch_run.
  - rewrite tryCatch_lift_Throw. apply booking_catch_run.
Qed.

Lemma bookGardeningHandler_run (req : BookingRequest) (w : World) :
  exists lines,
    bookGardeningHandler env JSON_parse transporter req w
    = (Normal tt,
       extend w (fst (gardeningSummary env JSON_parse transporter req (outbox w)))
         lines
         [responseOf
            (snd (gardeningSummary env JSON_parse transporter req (outbox w)))]).
Proof.
  unfold bookGardeningHandler, gardeningSummary, bookingSummary.
  destruct (gardeningContents JSON_parse req) as [[[userDetails adminContent] userContent]|e].
  - rewrite tryCatch_lift_Normal. apply twoSends_run. apply booking_catch_run.
  - rewrite tryCatch_lift_Throw. apply booking_catch_run.
Qed.

(** The contact handler either is left by a throw before its [try],
    with nothing sent and nothing written, or behaves as its summary. *)
Lemma contactHandler_run (req : ContactRequest) (w : World) :
  match contactSummary env transporter req (outbox w) with
  | None =>
      exists e, contactHandler env transporter req w = (Throw e, w)
  | Some (calls, ok) =>
      exists lines,
        contactHandler env transporter req w
        = (Normal tt, extend w calls lines [responseOf ok])
  end.
Proof.
  unfold contactHandler, contactSummary.
  destruct (contactContents req)
    as [[[[email subj] adminContent] userContent]|e].
  2:{ exists e. reflexivity. }
  unfold bind at 1, lift at 1. cbn [template bindC].
  destruct (ToString subj) as [subjectText|e].
  - cbn [bindC]. rewrite append_nil_r, tryCatch_lift_Normal.
    match goal with
    | |- context [twoSends ?t ?b ?m ?c] =>
        destruct (twoSends t b m c) as [calls ok] eqn:E
    end.
    destruct (twoSends_run (fun error => res_status_json 500 false)
                (envValue (ADMIN_EMAIL env)) ("New Contact: " ++ subjectText)
                (generateEmailTemplate (currentYear env) "New Contact" adminContent)
                None (Normal email) "We received your message - Loksar"
                (generateEmailTemplate (currentYear env) "Thank You" userContent)
                w contact_catch_run) as (lines & H).
    cbn [bindC defaultAttachments] in H. rewrite E in H. cbn [fst snd] in H.
    exists lines. exact H.
  - cbn [bindC]. rewrite tryCatch_lift_Throw. apply (contact_catch_run e).
Qed.

(** *** What the summaries say *)

Lemma sendCompletes_accepted (before : list MailOptions) (m : MailOptions)
    (u : unit) :
  sendCompletes transporter before m = Normal u ->
  transporter before m = Normal tt.
Proof.
  unfold sendCompletes. destruct (transporter before m) as [[]|]; [reflexivity|].
  discriminate.
Qed.

Lemma twoSends_calls (before : list MailOptions) (admin : MailOptions)
    (customer : Completion MailOptions) :
  fst (twoSends transporter before admin customer) = [admin]
  \/ exists second,
       customer = Normal second
       /\ fst (twoSends transporter before admin customer) = [admin; second]
       /\ transporter before admin = Normal tt.
Proof.
  unfold twoSends.
  destruct (sendCompletes transporter before admin) as [u|] eqn:E1; [|now left].
  destruct customer as [second|]; [|now left].
  right. exists second. apply sendCompletes_accepted in E1.
  destruct (sendCompletes transporter (before ++ [admin])%list second); auto.
Qed.

Lemma twoSends_ok (before : list MailOptions) (admin : MailOptions)
    (customer : Completion MailOptions) :
  snd (twoSends transporter before admin customer) = true ->
  exists second,
    customer = Normal second
    /\ fst (twoSends transporter before admin customer) = [admin; second]
    /\ transporter before admin = Normal tt
    /\ transporter (before ++ [admin])%list second = Normal tt.
Proof.
  unfold twoSends.
  destruct (sendCompletes transporter before admin) as [u|] eqn:E1;
    [|discriminate].
  destruct customer as [second|]; [|discriminate].
  destruct (sendCompletes transporter (before ++ [admin])%list second) as [u'|] eqn:E2;
    [|discriminate].
  intros _. exists second.
  apply sendCompletes_accepted in E1. apply sendCompletes_accepted in E2. auto.
Qed.

Lemma twoSends_rejected (before : list MailOptions) (admin : MailOptions)
    (customer : Completion MailOptions) (pre post : list MailOptions)
    (m : MailOptions) (e : JsError) :
  fst (twoSends transporter before admin customer) = (pre ++ m :: post)%list ->
  transporter (before ++ pre)%list m = Throw e ->
  post = [] /\ snd (twoSends transporter before admin customer) = false.
Proof.
  unfold twoSends.
  destruct (sendCompletes transporter before admin) as [u|] eqn:E1.
  - apply sendCompletes_accepted in E1.
    destruct customer as [second|].
    + destruct (sendCompletes transporter (before ++ [admin])%list second)
        as [u'|] eqn:E2; cbn [fst snd]; intros Hc Hm.
      * apply sendCompletes_accepted in E2.
        destruct pre as [|p1 [|p2 pre]]; cbn [app] in Hc; inversion Hc; subst.
        -- rewrite app_nil_r in Hm. congruence.
        -- congruence.
        -- destruct pre; discriminate.
      * destruct pre as [|p1 [|p2 pre]]; cbn [app] in Hc; inversion Hc; subst.
        -- rewrite app_nil_r in Hm. congruence.
        -- auto.
        -- destruct pre; discriminate.
    + cbn [fst snd]; intros Hc Hm.
      destruct pre as [|p1 pre]; cbn [app] in Hc; inversion Hc; subst.
      * rewrite app_nil_r in Hm. congruence.
      * destruct pre; discriminate.
  - cbn [fst snd]; intros Hc Hm.
    destruct pre as [|p1 pre]; cbn [app] in Hc; inversion Hc; subst.
    + auto.
    + destruct pre; discriminate.
Qed.

(** A run that ends in [(r, w')] and the summary of that run. *)
Lemma run_matches_summary {r : Completion unit} {w w' : World}
    {calls : list MailOptions} {lines : list LogEntry} {ok : bool}
    (more : list MailOptions) :
  (r, w') = (Normal tt, extend w calls lines [responseOf ok]) ->
  outbox w' = (outbox w ++ more)%list ->
  r = Normal tt /\ more = calls
  /\ responses w' = (responses w ++ [responseOf ok])%list.
Proof.
  intros H Ho. inversion H; subst. cbn [extend outbox responses] in *.
  apply app_inv_head in Ho. auto.
Qed.

(** *** What the contents are made of *)

Ltac bind_inversion H :=
  repeat match type of H with
         | bindC ?c _ = Normal _ =>
             let E := fresh "E" in
             destruct c eqn:E; cbn [bindC] in H; [|discriminate H]
         end.

Lemma cleaningContents_inv (req : BookingRequest) (userDetails : JsValue)
    (adminContent userContent : string) :
  cleaningContents JSON_parse req = Normal (userDetails, adminContent, userContent) ->
  exists bookingDetails bestDays currentCleaner cleaningType bookingRows,
    parseField JSON_parse (userDetails_field req) = Normal userDetails
    /\ parseField JSON_parse (bookingDetails_field req) = Normal bookingDetails
    /\ bestDaysDisplay bookingDetails = Normal bestDays
    /\ cleaningBookingRows bookingDetails bestDays currentCleaner cleaningType
       = Normal bookingRows
    /\ cleaningAdminContent userDetails bookingRows (descriptionOf req)
       = Normal adminContent
    /\ cleaningUserContent userDetails bookingRows = Normal userContent.
Proof.
  unfold cleaningContents. intros H. bind_inversion H. inversion H; subst.
  repeat eexists; eassumption.
Qed.

Lemma gardeningContents_inv (req : BookingRequest) (userDetails : JsValue)
    (adminContent userContent : string) :
  gardeningContents JSON_parse req = Normal (userDetails, adminContent, userContent) ->
  exists bookingDetails bookingRows,
    parseField JSON_parse (userDetails_field req) = Normal userDetails
    /\ parseField JSON_parse (bookingDetails_field req) = Normal bookingDetails
    /\ gardeningBookingRows bookingDetails = Normal bookingRows
    /\ gardeningAdminContent userDetails bookingRows (descriptionOf req)
       = Normal adminContent
    /\ gardeningUserContent userDetails bookingRows = Normal userContent.
Proof.
  unfold gardeningContents. intros H. bind_inversion H. inversion H; subst.
  repeat eexists; eassumption.
Qed.

(** The calls of a booking handler: none; or the admin email, with the
    uploaded files; or that and the customer email, without any. *)
Lemma bookingSummary_calls (contents : Completion (JsValue * string * string))
    (adminSubject adminTitle : string) (req : BookingRequest)
    (before : list MailOptions) :
  fst (bookingSummary env transporter contents adminSubject adminTitle req before) = []
  \/ exists userDetails adminContent userContent,
       contents = Normal (userDetails, adminContent, userContent)
       /\ let admin :=
            mailOptions env (envValue (ADMIN_EMAIL env)) adminSubject
              (generateEmailTemplate (currentYear env) adminTitle adminContent)
              (emailAttachments req) in
          fst (bookingSummary env transporter contents adminSubject adminTitle
                 req before) = [admin]
          \/ exists customer,
               Get userDetails "email" = Normal customer
               /\ fst (bookingSummary env transporter contents adminSubject
                         adminTitle req before)
                  = [admin;
                     mailOptions env customer "Booking Received - Loksar Services"
                       (generateEmailTemplate (currentYear env) "Booking Received"
                          userContent) []].
Proof.
  unfold bookingSummary.
  destruct contents as [[[userDetails adminContent] userContent]|]; [|now left].
  right. exists userDetails, adminContent, userContent. split; [reflexivity|].
  cbn zeta.
  match goal with
  | |- context [twoSends ?t ?b ?m ?c] =>
      destruct (twoSends_calls b m c) as [H|(second & Hc & H & _)]
  end; [now left|].
  right. destruct (Get userDetails "email") as [customer|]; [|discriminate].
  cbn [bindC] in Hc. inversion Hc; subst. exists customer. auto.
Qed.


Lemma cleaningAdminContent_rows (userDetails : JsValue)
    (bookingRows description adminContent : string) :
  cleaningAdminContent userDetails bookingRows description = Normal adminContent ->
  occursIn bookingRows adminContent.
Proof.
  intros H. unfold cleaningAdminContent in H.
  eapply occursIn_trans; [|eapply (template_window 7 1); [exact H | reflexivity]].
  exists "", "". reflexivity.
Qed.

Lemma cleaningUserContent_rows (userDetails : JsValue)
    (bookingRows userContent : string) :
  cleaningUserContent userDetails bookingRows = Normal userContent ->
  occursIn bookingRows userContent.
Proof.
  intros H. unfold cleaningUserContent in H.
  eapply occursIn_trans; [|eapply (template_window 3 1); [exact H | reflexivity]].
  exists "", "". reflexivity.
Qed.

Lemma cleaningAdminContent_notes (userDetails : JsValue)
    (bookingRows adminContent : string) :
  cleaningAdminContent userDetails bookingRows "" = Normal adminContent ->
  occursIn emptyNotesSection adminContent.
Proof.
  intros H. unfold cleaningAdminContent in H.
  eapply occursIn_trans; [|eapply (template_window 8 3); [exact H | reflexivity]].
  exists "</table>
      ", "
    ".
  reflexivity.
Qed.

Lemma gardeningAdminContent_notes (userDetails : JsValue)
    (bookingRows adminContent : string) :
  gardeningAdminContent userDetails bookingRows "" = Normal adminContent ->
  occursIn emptyNotesSection adminContent.
Proof.
  intros H. unfold gardeningAdminContent in H.
  eapply occursIn_trans; [|eapply (template_window 8 3); [exact H | reflexivity]].
  exists "</table>
      ", "
    ".
  reflexivity.
Qed.

(** A call made by a run of the cleaning handler is one of the two
    emails of its contents. *)
Lemma cleaning_call_inv (req : BookingRequest) (w w' : World)
    (r : Completion unit) (calls : list MailOptions) :
  bookCleaningHandler env JSON_parse transporter req w = (r, w') ->
  outbox w' = (outbox w ++ calls)%list ->
  calls = []
  \/ exists userDetails adminContent userContent admin rest,
       cleaningContents JSON_parse req
       = Normal (userDetails, adminContent, userContent)
       /\ calls = admin :: rest
       /\ admin = mailOptions env (envValue (ADMIN_EMAIL env))
                    "New Cleaning Job Alert"
                    (generateEmailTemplate (currentYear env) "New Cleaning Job"
                       adminContent)
                    (emailAttachments req)
       /\ (rest = []
           \/ exists customer,
                Get userDetails "email" = Normal customer
                /\ rest = [mailOptions env customer
                             "Booking Received - Loksar Services"
                             (generateEmailTemplate (currentYear env)
                                "Booking Received" userContent) []]).
Proof.
  intros Hrun Hout.
  destruct (bookCleaningHandler_run req w) as (lines & Hr).
  rewrite Hr in Hrun. symmetry in Hrun.
  destruct (run_matches_summary calls Hrun Hout) as (_ & -> & _).
  unfold cleaningSummary.
  destruct (bookingSummary_calls (cleaningContents JSON_parse req)
              "New Cleaning Job Alert" "New Cleaning Job" req (outbox w))
    as [H|(userDetails & adminContent & userContent & Hc & H)]; [now left|].
  right. exists userDetails, adminContent, userContent.
  cbn zeta in H. destruct H as [H|(customer & Hg & H)]; rewrite H.
  - eexists _, _. repeat split; auto.
  - eexists _, _. repeat split; eauto.
Qed.

Lemma gardening_call_inv (req : BookingRequest) (w w' : World)
    (r : Completion unit) (calls : list MailOptions) :
  bookGardeningHandler env JSON_parse transporter req w = (r, w') ->
  outbox w' = (outbox w ++ calls)%list ->
  calls = []
  \/ exists userDetails adminContent userContent admin rest,
       gardeningContents JSON_parse req
       = Normal (userDetails, adminContent, userContent)
       /\ calls = admin :: rest
       /\ admin = mailOptions env (envValue (ADMIN_EMAIL env))
                    "New Gardening Job Alert"
                    (generateEmailTemplate (currentYear env) "New Gardening Job"
                       adminContent)
                    (emailAttachments req)
       /\ (rest = []
           \/ exists customer,
                Get userDetails "email" = Normal customer
                /\ rest = [mailOptions env customer
                             "Booking Received - Loksar Services"
                             (generateEmailTemplate (currentYear env)
                                "Booking Received" userContent) []]).
Proof.
  intros Hrun Hout.
  destruct (bookGardeningHandler_run req w) as (lines & Hr).
  rewrite Hr in Hrun. symmetry in Hrun.
  destruct (run_matches_summary calls Hrun Hout) as (_ & -> & _).
  unfold gardeningSummary.
  destruct (bookingSummary_calls (gardeningContents JSON_parse req)
              "New Gardening Job Alert" "New Gardening Job" req (outbox w))
    as [H|(userDetails & adminContent & userContent & Hc & H)]; [now left|].
  right. exists userDetails, adminContent, userContent.
  cbn zeta in H. destruct H as [H|(customer & Hg & H)]; rewrite H.
  - eexists _, _. repeat split; auto.
  - eexists _, _. repeat split; eauto.
Qed.

(** ** Properties of the handlers *)


(** C10.  In both booking handlers, when the description field is
    absent or empty, the admin email (the first call of the run) holds
    the Customer Notes section with the text [No additional notes
    provided.] in its box. *)
Theorem empty_notes_placeholder (req : BookingRequest) :
  description_field req = None \/ description_field req = Some "" ->
  (forall w r w' admin rest,
      bookCleaningHandler env JSON_parse transporter req w = (r, w') ->
      outbox w' = (outbox w ++ admin :: rest)%list ->
      to admin = envValue (ADMIN_EMAIL env)
      /\ occursIn emptyNotesSection (html admin))
  /\ (forall w r w' admin rest,
        bookGardeningHandler env JSON_parse transporter req w = (r, w') ->
        outbox w' = (outbox w ++ admin :: rest)%list ->
        to admin = envValue (ADMIN_EMAIL env)
        /\ occursIn emptyNotesSection (html admin)).
Proof.
  intros Hdescription.
  assert (Hd : descriptionOf req = "").
  { unfold descriptionOf. destruct Hdescription as [->| ->]; reflexivity. }
  split; intros w r w' admin rest Hrun Hout.
  - destruct (cleaning_call_inv req w w' r _ Hrun Hout)
      as [H|(userDetails & adminContent & userContent & admin' & rest'
             & Hc & Hcalls & -> & _)]; [discriminate|].
    inversion Hcalls; subst. split; [reflexivity|].
    apply cleaningContents_inv in Hc
      as (? & ? & ? & ? & bookingRows & _ & _ & _ & _ & Hadmin & _).
    rewrite Hd in Hadmin. apply cleaningAdminContent_notes in Hadmin.
    cbn [html mailOptions].
    eapply occursIn_trans; [exact Hadmin|apply generateEmailTemplate_content].
  - destruct (gardening_call_inv req w w' r _ Hrun Hout)
      as [H|(userDetails & adminContent & userContent & admin' & rest'
             & Hc & Hcalls & -> & _)]; [discriminate|].
    inversion Hcalls; subst. split; [reflexivity|].
    apply gardeningContents_inv in Hc
      as (? & bookingRows & _ & _ & _ & Hadmin & _).
    rewrite Hd in Hadmin. apply gardeningAdminContent_notes in Hadmin.
    cbn [html mailOptions].
    eapply occursIn_trans; [exact Hadmin|apply generateEmailTemplate_content].
Qed.

Lemma app_self_nil {A : Type} (l x : list A) : l = (l ++ x)%list -> x = [].
Proof.
  intros H. apply (app_inv_head l). rewrite app_nil_r. now symmetry.
Qed.

Lemma bookingSummary_rejected (contents : Completion (JsValue * string * string))
    (adminSubject adminTitle : string) (req : BookingRequest)
    (before pre post : list MailOptions) (m : MailOptions) (e : JsError) :
  fst (bookingSummary env transporter contents adminSubject adminTitle req before)
  = (pre ++ m :: post)%list ->
  transporter (before ++ pre)%list m = Throw e ->
  post = []
  /\ snd (bookingSummary env transporter contents adminSubject adminTitle req
            before) = false.
Proof.
  unfold bookingSummary.
  destruct contents as [[[userDetails adminContent] userContent]|].
  - apply twoSends_rejected.
  - cbn [fst]. destruct pre; discriminate.
Qed.

(** C7.  When the transport rejects a send, [sendEmail] ends with the
    very error of the transport after that one call (no second attempt)
    and a console line; and whichever send of a handler is rejected,
    the admin send in particular, the handler ends normally, having
    answered 500 with success false, and makes no further call. *)
Theorem transport_failure_is_reported :
  (forall recipient subj htmlContent attached w e,
      transporter (outbox w)
        (mailOptions env recipient subj htmlContent (defaultAttachments attached))
      = Throw e ->
      sendEmail env transporter recipient subj htmlContent attached w
      = (Throw e,
         extend w
           [mailOptions env recipient subj htmlContent
              (defaultAttachments attached)]
           [ConsoleError (Some "Error sending email:") e] []))
  /\ (forall req w r w' pre m post e,
        bookCleaningHandler env JSON_parse transporter req w = (r, w') ->
        outbox w' = (outbox w ++ pre ++ m :: post)%list ->
        transporter (outbox w ++ pre)%list m = Throw e ->
        r = Normal tt
        /\ responses w' = (responses w ++ [failResponse])%list
        /\ post = [])
  /\ (forall req w r w' pre m post e,
        bookGardeningHandler env JSON_parse transporter req w = (r, w') ->
        outbox w' = (outbox w ++ pre ++ m :: post)%list ->
        transporter (outbox w ++ pre)%list m = Throw e ->
        r = Normal tt
        /\ responses w' = (responses w ++ [failResponse])%list
        /\ post = [])
  /\ (forall req w r w' pre m post e,
        contactHandler env transporter req w = (r, w') ->
        outbox w' = (outbox w ++ pre ++ m :: post)%list ->
        transporter (outbox w ++ pre)%list m = Throw e ->
        r = Normal tt
        /\ responses w' = (responses w ++ [failResponse])%list
        /\ post = []).
Proof.
  split; [|split; [|split]].
  - intros recipient subj htmlContent attached w e H.
    unfold sendEmail, tryCatch, bind, transporter_sendMail.
    rewrite H. unfold console_error, throw, extend.
    cbn [outbox console responses]. now rewrite app_nil_r.
  - intros req w r w' pre m post e Hrun Hout Hm.
    destruct (bookCleaningHandler_run req w) as (lines & Hr).
    rewrite Hr in Hrun. symmetry in Hrun.
    destruct (run_matches_summary _ Hrun Hout) as (-> & Hcalls & ->).
    symmetry in Hcalls.
    destruct (bookingSummary_rejected _ _ _ _ _ _ _ _ _ Hcalls Hm) as (-> & Hok).
    unfold cleaningSummary. rewrite Hok. auto.
  - intros req w r w' pre m post e Hrun Hout Hm.
    destruct (bookGardeningHandler_run req w) as (lines & Hr).
    rewrite Hr in Hrun. symmetry in Hrun.
    destruct (run_matches_summary _ Hrun Hout) as (-> & Hcalls & ->).
    symmetry in Hcalls.
    destruct (bookingSummary_rejected _ _ _ _ _ _ _ _ _ Hcalls Hm) as (-> & Hok).
    unfold gardeningSummary. rewrite Hok. auto.
  - intros req w r w' pre m post e Hrun Hout Hm.
    pose proof (contactHandler_run req w) as Hr.
    unfold contactSummary in Hr.
    destruct (contactContents req)
      as [[[[email subj] adminContent] userContent]|].
    + destruct (ToString subj) as [subjectText|].
      * match type of Hr with
        | context [twoSends ?t ?b ?a ?c] =>
            pose proof (twoSends_rejected b a c pre post m e) as Hrej;
            destruct (twoSends t b a c) as [calls ok]
        end.
        destruct Hr as (lines & Hr). rewrite Hr in Hrun. symmetry in Hrun.
        destruct (run_matches_summary _ Hrun Hout) as (-> & Hcalls & ->).
        cbn [fst snd] in Hrej. symmetry in Hcalls.
        destruct (Hrej Hcalls Hm) as (-> & ->). auto.
      * destruct Hr as (lines & Hr). rewrite Hr in Hrun. symmetry in Hrun.
        destruct (run_matches_summary _ Hrun Hout) as (_ & Hcalls & _).
        destruct pre; discriminate.
    + destruct Hr as (e' & Hr). rewrite Hr in Hrun. inversion Hrun; subst.
      apply app_self_nil in Hout. destruct pre; discriminate.
Qed.

Lemma responseOf_ok (ok : bool) :
  [responseOf ok] = [okResponse] -> ok = true.
Proof. destruct ok; [reflexivity | discriminate]. Qed.

Lemma twoSends_sequential (admin : MailOptions)
    (customer : Completion MailOptions) (w : World) (lines : list LogEntry) :
  SequentialSends transporter (to admin) w
    (extend w (fst (twoSends transporter (outbox w) admin customer)) lines
       [responseOf (snd (twoSends transporter (outbox w) admin customer))]).
Proof.
  unfold SequentialSends. cbn [extend outbox responses].
  split; [|split].
  - eexists. split; [reflexivity|].
    destruct (twoSends_calls (outbox w) admin customer)
      as [->|(second & _ & -> & _)]; cbn [List.length];
      (split; [lia|]); intros first rest H; inversion H; reflexivity.
  - intros first rest e Hout Hfirst. apply app_inv_head in Hout.
    destruct (twoSends_rejected (outbox w) admin customer [] rest first e)
      as (-> & ->); auto.
    now rewrite app_nil_r.
  - intros Hok. apply app_inv_head, responseOf_ok in Hok.
    destruct (twoSends_ok _ _ _ Hok) as (second & _ & -> & H1 & H2).
    eauto.
Qed.

Lemma noSend_sequential (administrator : JsValue) (w : World)
    (lines : list LogEntry) :
  SequentialSends transporter administrator w (extend w [] lines [failResponse]).
Proof.
  unfold SequentialSends. cbn [extend outbox responses].
  split; [|split].
  - exists []. split; [reflexivity|]. split; [cbn; lia|]. discriminate.
  - intros first rest e Hout. apply app_inv_head in Hout. discriminate.
  - intros Hok. apply app_inv_head in Hok. discriminate.
Qed.

Lemma booking_sequential (contents : Completion (JsValue * string * string))
    (adminSubject adminTitle : string) (req : BookingRequest) (w : World)
    (lines : list LogEntry) :
  SequentialSends transporter (envValue (ADMIN_EMAIL env)) w
    (extend w
       (fst (bookingSummary env transporter contents adminSubject adminTitle req
               (outbox w)))
       lines
       [responseOf
          (snd (bookingSummary env transporter contents adminSubject adminTitle
                  req (outbox w)))]).
Proof.
  unfold bookingSummary.
  destruct contents as [[[userDetails adminContent] userContent]|].
  - match goal with
    | |- context [twoSends _ _ ?a ?c] => apply (twoSends_sequential a c)
    end.
  - apply noSend_sequential.
Qed.

(** C9.  In each of the three handlers the two sends are made one after
    the other, the admin send first: the customer send is made only in
    a history that already holds the accepted admin send, it is never
    made once the admin send is rejected, and the handler answers 200
    with success true only when both sends were accepted. *)
Theorem sends_are_sequential :
  (forall req w r w',
      bookCleaningHandler env JSON_parse transporter req w = (r, w') ->
      SequentialSends transporter (envValue (ADMIN_EMAIL env)) w w')
  /\ (forall req w r w',
        bookGardeningHandler env JSON_parse transporter req w = (r, w') ->
        SequentialSends transporter (envValue (ADMIN_EMAIL env)) w w')
  /\ (forall req w r w',
        contactHandler env transporter req w = (r, w') ->
        SequentialSends transporter (envValue (ADMIN_EMAIL env)) w w').
Proof.
  split; [|split].
  - intros req w r w' Hrun.
    destruct (bookCleaningHandler_run req w) as (lines & Hr).
    rewrite Hr in Hrun. inversion Hrun; subst. apply booking_sequential.
  - intros req w r w' Hrun.
    destruct (bookGardeningHandler_run req w) as (lines & Hr).
    rewrite Hr in Hrun. inversion Hrun; subst. apply booking_sequential.
  - intros req w r w' Hrun.
    pose proof (contactHandler_run req w) as Hr.
    unfold contactSummary in Hr.
    destruct (contactContents req)
      as [[[[email subj] adminContent] userContent]|].
    + destruct (ToString subj) as [subjectText|].
      * match type of Hr with
        | context [twoSends ?t ?b ?a ?c] =>
            pose proof (fun lines => twoSends_sequential a c w lines) as Hseq;
            destruct (twoSends t b a c) as [calls ok]
        end.
        destruct Hr as (lines & Hr). rewrite Hr in Hrun.
        inversion Hrun; subst. apply Hseq.
      * destruct Hr as (lines & Hr). rewrite Hr in Hrun.
        inversion Hrun; subst. apply noSend_sequential.
    + destruct Hr as (e' & Hr). rewrite Hr in Hrun. inversion Hrun; subst.
      unfold SequentialSends. split; [|split].
      * exists []. rewrite app_nil_r. split; [reflexivity|].
        split; [cbn; lia|]. discriminate.
      * intros first rest e1 Hout. apply app_self_nil in Hout. discriminate.
      * intros Hok. apply app_self_nil in Hok. discriminate.
Qed.

(** C6.  For the contact submission of Ann with subject Leak, the
    handler builds two emails, one to the configured administrator
    address with subject [New Contact: Leak] and one to [ann@x.com] with
    subject [We received your message - Loksar]; when the transport
    accepts both, the run makes exactly these two calls, in this order,
    and answers 200 with success true. *)
Theorem contact_example (w : World) :
  exists admin customer,
    to admin = envValue (ADMIN_EMAIL env)
    /\ subject admin = "New Contact: Leak"
    /\ to customer = JStr "ann@x.com"
    /\ subject customer = "We received your message - Loksar"
    /\ (transporter (outbox w) admin = Normal tt ->
        transporter (outbox w ++ [admin])%list customer = Normal tt ->
        exists lines,
          contactHandler env transporter annRequest w
          = (Normal tt, extend w [admin; customer] lines [okResponse])).
Proof.
  pose proof (contactHandler_run annRequest w) as Hr.
  unfold contactSummary in Hr.
  destruct (contactContents annRequest)
    as [[[[email subj] adminContent] userContent]|] eqn:E;
    [|vm_compute in E; discriminate E].
  assert (Hfields : email = JStr "ann@x.com" /\ subj = JStr "Leak")
    by (vm_compute in E; inversion E; auto).
  destruct Hfields as (-> & ->). cbn [ToString] in Hr.
  eexists _, _. split; [|split; [|split; [|split]]]; cycle 4.
  - intros Hadmin Hcustomer.
    unfold twoSends, sendCompletes in Hr. rewrite Hadmin in Hr.
    cbn [to mailOptions bindC] in Hr.
    replace (ToString (envValue (ADMIN_EMAIL env)))
      with (Normal (envString (ADMIN_EMAIL env))) in Hr
      by (destruct (ADMIN_EMAIL env); reflexivity).
    cbn [bindC] in Hr. rewrite Hcustomer in Hr. exact Hr.
  - reflexivity.
  - reflexivity.
  - reflexivity.
  - reflexivity.
Qed.

End Runs.

(** ** The sample submissions *)

(** The sample booking, run against a transport that accepts
    everything: two calls, the files on the first only, a 200 answer. *)
Example sampleBooking_run :
  let run := bookCleaningHandler sampleEnv sampleParse acceptAll sampleBooking
               emptyWorld in
  fst run = Normal tt
  /\ responses (snd run) = [okResponse]
  /\ map to (outbox (snd run)) = [JStr "admin@loksar.com"; JStr "ann@x.com"]
  /\ map attachments (outbox (snd run))
     = [[{| filename := "kitchen.jpg";
            content := [Byte.xff; Byte.xd8; Byte.xff; Byte.xe0] |}]; []].
Proof. vm_compute. repeat split. Qed.


Lemma contact_example_witness :
  exists w',
    contactHandler sampleEnv acceptAll annRequest emptyWorld = (Normal tt, w')
    /\ responses w' = [okResponse]
    /\ map to (outbox w') = [JStr "admin@loksar.com"; JStr "ann@x.com"]
    /\ map subject (outbox w')
       = ["New Contact: Leak"; "We received your message - Loksar"].
Proof.
  destruct (contact_example sampleEnv acceptAll emptyWorld)
    as (admin & customer & Hta & Hsa & Htc & Hsc & Hrun).
  destruct (Hrun eq_refl eq_refl) as (lines & ->).
  eexists. split; [reflexivity|].
  cbn [extend emptyWorld outbox responses app map].
  rewrite Hta, Hsa, Htc, Hsc. repeat split.
Defined.

Lemma transport_failure_is_reported_witness :
  (let m := mailOptions sampleEnv (JStr "admin@loksar.com") "Hello" "<p>Hi</p>" [] in
   sendEmail sampleEnv rejectAll (JStr "admin@loksar.com") "Hello" "<p>Hi</p>" None
     emptyWorld
   = (Throw (TransportError "connection refused"),
      extend emptyWorld [m]
        [ConsoleError (Some "Error sending email:")
           (TransportError "connection refused")] []))
  /\ (let run := bookCleaningHandler sampleEnv sampleParse rejectAll sampleBooking
                   emptyWorld in
      fst run = Normal tt /\ responses (snd run) = [failResponse]
      /\ List.length (outbox (snd run)) = 1)
  /\ (let run := bookGardeningHandler sampleEnv sampleParse rejectAll
                   sampleBooking emptyWorld in
      fst run = Normal tt /\ responses (snd run) = [failResponse])
  /\ (let run := contactHandler sampleEnv rejectAll annRequest emptyWorld in
      fst run = Normal tt /\ responses (snd run) = [failResponse]).
Proof.
  destruct (transport_failure_is_reported sampleEnv sampleParse rejectAll)
    as (Hsend & Hcleaning & Hgardening & Hcontact).
  split; [|split; [|split]]; cbn zeta.
  - apply (Hsend (JStr "admin@loksar.com") "Hello" "<p>Hi</p>" None emptyWorld).
    reflexivity.
  - set (run := bookCleaningHandler sampleEnv sampleParse rejectAll sampleBooking
                  emptyWorld).
    destruct (Hcleaning sampleBooking emptyWorld (fst run) (snd run) []
                (hd (mailOptions sampleEnv JNull "" "" []) (outbox (snd run)))
                (tl (outbox (snd run)))
                (TransportError "connection refused")
                (surjective_pairing run))
      as (Hr & Hresponse & Hpost); [vm_compute; reflexivity | reflexivity |].
    split; [exact Hr|]. split; [exact Hresponse|].
    vm_compute. reflexivity.
  - set (run := bookGardeningHandler sampleEnv sampleParse rejectAll sampleBooking
                  emptyWorld).
    destruct (Hgardening sampleBooking emptyWorld (fst run) (snd run) []
                (hd (mailOptions sampleEnv JNull "" "" []) (outbox (snd run)))
                (tl (outbox (snd run)))
                (TransportError "connection refused")
                (surjective_pairing run))
      as (Hr & Hresponse & Hpost); [vm_compute; reflexivity | reflexivity |].
    split; [exact Hr | exact Hresponse].
  - set (run := contactHandler sampleEnv rejectAll annRequest emptyWorld).
    destruct (Hcontact annRequest emptyWorld (fst run) (snd run) []
                (hd (mailOptions sampleEnv JNull "" "" []) (outbox (snd run)))
                (tl (outbox (snd run)))
                (TransportError "connection refused")
                (surjective_pairing run))
      as (Hr & Hresponse & Hpost); [vm_compute; reflexivity | reflexivity |].
    split; [exact Hr | exact Hresponse].
Defined.

Lemma sends_are_sequential_witness :
  SequentialSends acceptAll (JStr "admin@loksar.com") emptyWorld
    (snd (bookCleaningHandler sampleEnv sampleParse acceptAll sampleBooking
            emptyWorld))
  /\ SequentialSends rejectAll (JStr "admin@loksar.com") emptyWorld
       (snd (bookGardeningHandler sampleEnv sampleParse rejectAll sampleBooking
               emptyWorld))
  /\ SequentialSends acceptAll (JStr "admin@loksar.com") emptyWorld
       (snd (contactHandler sampleEnv acceptAll annRequest emptyWorld)).
Proof.
  split; [|split].
  - exact (proj1 (sends_are_sequential sampleEnv sampleParse acceptAll)
             sampleBooking emptyWorld _ _ (surjective_pairing _)).
  - exact (proj1 (proj2 (sends_are_sequential sampleEnv sampleParse rejectAll))
             sampleBooking emptyWorld _ _ (surjective_pairing _)).
  - exact (proj2 (proj2 (sends_are_sequential sampleEnv sampleParse acceptAll))
             annRequest emptyWorld _ _ (surjective_pairing _)).
Defined.

Lemma empty_notes_placeholder_witness :
  let cleaning := bookCleaningHandler sampleEnv sampleParse acceptAll
                    sampleBooking emptyWorld in
  let gardening := bookGardeningHandler sampleEnv sampleParse acceptAll
                     sampleBooking emptyWorld in
  let none := mailOptions sampleEnv JNull "" "" [] in
  List.length (outbox (snd cleaning)) = 2
  /\ occursIn emptyNotesSection (html (hd none (outbox (snd cleaning))))
  /\ List.length (outbox (snd gardening)) = 2
  /\ occursIn emptyNotesSection (html (hd none (outbox (snd gardening)))).
Proof.
  intros cleaning gardening none.
  destruct (empty_notes_placeholder sampleEnv sampleParse acceptAll sampleBooking
              (or_introl eq_refl)) as (Hcleaning & Hgardening).
  split; [vm_compute; reflexivity|]. split; [|split; [vm_compute; reflexivity|]].
  - refine (proj2 (Hcleaning emptyWorld (fst cleaning) (snd cleaning)
                     (hd none (outbox (snd cleaning)))
                     (tl (outbox (snd cleaning)))
                     (surjective_pairing cleaning) _)).
    vm_compute. reflexivity.
  - refine (proj2 (Hgardening emptyWorld (fst gardening) (snd gardening)
                     (hd none (outbox (snd gardening)))
                     (tl (outbox (snd gardening)))
                     (surjective_pairing gardening) _)).
    vm_compute. reflexivity.
Defined.

(** * Further properties *)

(** ** Ordinary data never makes the formatter throw *)

(** Induction over values, with the elements of an array and the
    property values of an object as premises. *)
Lemma JsValue_nested_ind (P : JsValue -> Prop) :
  P JUndefined -> P JNull -> (forall b, P (JBool b)) -> (forall n, P (JNum n)) ->
  (forall s, P (JStr s)) ->
  (forall items, Forall P items -> P (JArr items)) ->
  (forall props, Forall (fun kv => P (snd kv)) props -> P (JObj props)) ->
  forall v, P v.
Proof.
  intros Hu Hn Hb Hz Hs Ha Ho.
  fix IH 1. intros [| |b|n|s|items|props].
  - exact Hu.
  - exact Hn.
  - apply Hb.
  - apply Hz.
  - apply Hs.
  - apply Ha. induction items as [|x items IHitems]; constructor;
      [apply IH | exact IHitems].
  - apply Ho. induction props as [|[k x] props IHprops]; constructor;
      [apply IH | exact IHprops].
Qed.

Lemma lookup_plain (props : list (string * JsValue)) (k : string) :
  forallb (fun kv => plain (snd kv)) props = true ->
  plain (lookup props k) = true.
Proof.
  induction props as [|[k' v] props IH]; cbn [forallb lookup snd]; intros H.
  - reflexivity.
  - apply andb_prop in H as (Hv & Hrest).
    destruct (String.eqb k' k); auto.
Qed.

Lemma Get_plain (v : JsValue) (k : string) :
  plain v = true -> nullish v = false ->
  exists x, Get v k = Normal x /\ plain x = true.
Proof.
  destruct v; cbn [Get nullish]; intros Hp Hn; try discriminate; eauto.
  exists (lookup props k). split; [reflexivity|].
  cbn [plain] in Hp. apply andb_prop in Hp as (_ & Hp).
  now apply lookup_plain.
Qed.

Lemma joinWith_plain (sep : string) (vs : list JsValue) :
  Forall (fun v => exists s, ToString v = Normal s) vs ->
  exists s, joinWith ToString sep vs = Normal s.
Proof.
  induction 1 as [|v vs (s & Hs) _ (r & Hr)]; [now exists ""|].
  cbn [joinWith].
  assert (He : exists t, match v with
                         | JUndefined | JNull => Normal ""
                         | _ => ToString v
                         end = Normal t)
    by (destruct v; eauto).
  destruct He as (t & ->). cbn [bindC].
  destruct vs as [|v' vs']; [eauto|].
  cbn [joinWith] in Hr. cbn [joinWith]. rewrite Hr. cbn [bindC]. eauto.
Qed.

Lemma ToString_plain (v : JsValue) :
  plain v = true -> exists s, ToString v = Normal s.
Proof.
  induction v as [| |b|n|s|items IH|props IH] using JsValue_nested_ind;
    cbn [ToString plain]; intros Hp; eauto.
  - destruct b; eauto.
  - apply joinWith_plain. rewrite forallb_forall in Hp.
    rewrite Forall_forall in *. auto.
  - apply andb_prop in Hp as (Hp & _). apply negb_true_iff in Hp.
    rewrite Hp. eauto.
Qed.

Lemma formatObject_plain (props : list (string * JsValue)) :
  forallb (fun kv => plain (snd kv)) props = true ->
  plain (formatObject props) = true.
Proof.
  intros Hp. unfold formatObject.
  repeat match goal with
         | |- context [if ?c then _ else _] => destruct c
         end; try (now apply lookup_plain).
  destruct (Object_values props) as [|[] ?]; reflexivity.
Qed.

Lemma mapC_plain (f : JsValue -> Completion JsValue) (items : list JsValue) :
  Forall (fun v => plain v = true ->
                   exists r, f v = Normal r /\ plain r = true) items ->
  forallb plain items = true ->
  exists rs, mapC f items = Normal rs /\ forallb plain rs = true.
Proof.
  induction 1 as [|v vs Hv _ IH]; cbn [forallb mapC]; intros Hp.
  - now exists [].
  - apply andb_prop in Hp as (Hpv & Hpvs).
    destruct (Hv Hpv) as (r & -> & Hr). destruct (IH Hpvs) as (rs & -> & Hrs).
    cbn [bindC]. exists (r :: rs). cbn [forallb]. now rewrite Hr, Hrs.
Qed.

Lemma formatValue_plain (v : JsValue) :
  plain v = true -> exists r, formatValue v = Normal r /\ plain r = true.
Proof.
  induction v as [| |b|n|s|items IH|props IH] using JsValue_nested_ind;
    cbn [formatValue]; intros Hp; eauto.
  - destruct b; cbn; eauto.
  - destruct (isEmptyString s); eauto.
  - destruct items as [|x rest]; [eauto|].
    cbn [plain] in Hp.
    destruct (mapC_plain formatValue (x :: rest) IH Hp) as (rs & -> & Hrs).
    cbn [bindC]. unfold Array_join.
    destruct (joinWith_plain ", " rs) as (s & ->); [|cbn [bindC]; eauto].
    rewrite forallb_forall in Hrs. rewrite Forall_forall.
    intros r Hr. apply ToString_plain. auto.
  - cbn [plain] in Hp. apply andb_prop in Hp as (_ & Hp).
    eexists. split; [reflexivity|]. now apply formatObject_plain.
Qed.

(** X1.  On ordinary data, data in which no object has a property
    named [toString], [formatValue] ends normally, and so does the
    conversion of its result to the text of a row.  A throw of the
    formatter therefore needs such a property somewhere in its input. *)
Theorem formatValue_returns_on_plain (data : JsValue) :
  plain data = true ->
  exists r text,
    formatValue data = Normal r
    /\ ToString r = Normal text
    /\ template [Sub (formatValue data)] = Normal text.
Proof.
  intros Hp.
  destruct (formatValue_plain data Hp) as (r & Hr & Hpr).
  destruct (ToString_plain r Hpr) as (text & Ht).
  exists r, text. split; [exact Hr|]. split; [exact Ht|].
  cbn [template]. rewrite Hr. cbn [bindC]. rewrite Ht. cbn [bindC].
  now rewrite append_nil_r.
Qed.

Lemma formatValue_returns_on_plain_witness :
  exists r text,
    formatValue (JArr [JObj [("label", JArr [JNum 1; JNull])]; JBool false])
    = Normal r
    /\ ToString r = Normal text
    /\ template
         [Sub (formatValue
                 (JArr [JObj [("label", JArr [JNum 1; JNull])]; JBool false]))]
       = Normal text.
Proof.
  apply formatValue_returns_on_plain. reflexivity.
Defined.

(** ** Shape of the formatter's results *)

Lemma formatValue_array_is_string (items : list JsValue) (r : JsValue) :
  formatValue (JArr items) = Normal r -> exists s, r = JStr s.
Proof.
  cbn [formatValue]. intros H.
  destruct items as [|x rest]; [inversion H; eauto|].
  destruct (mapC formatValue (x :: rest)) as [formatted|];
    cbn [bindC] in H; [|discriminate].
  destruct (Array_join ", " formatted); cbn [bindC] in H; inversion H; eauto.
Qed.

(** X2.  Whatever [formatValue] returns is never [null] or [undefined];
    for an array it is always a string; and a result that is not a
    string can only come from a number or from an object. *)
Theorem formatValue_result_shape (data r : JsValue) :
  formatValue data = Normal r ->
  nullish r = false
  /\ (forall items, data = JArr items -> exists s, r = JStr s)
  /\ ((forall s, r <> JStr s) ->
      (exists n, data = JNum n) \/ (exists props, data = JObj props)).
Proof.
  intros H. split; [eapply formatValue_not_nullish; eassumption|].
  split.
  - intros items ->. eapply formatValue_array_is_string; eassumption.
  - intros Hr. destruct data as [| |b|n|s|items|props]; cbn [formatValue] in H;
      eauto; exfalso.
    + inversion H; subst. eapply Hr; reflexivity.
    + inversion H; subst. eapply Hr; reflexivity.
    + destruct b; inversion H; subst; eapply Hr; reflexivity.
    + destruct (isEmptyString s); inversion H; subst; eapply Hr; reflexivity.
    + destruct (formatValue_array_is_string _ _ H) as (s & ->).
      eapply Hr; reflexivity.
Qed.

Lemma formatValue_result_shape_witness :
  nullish (JNum 7) = false
  /\ (forall items,
        JObj [("label", JNum 7)] = JArr items -> exists s, JNum 7 = JStr s)
  /\ ((forall s, JNum 7 <> JStr s) ->
      (exists n, JObj [("label", JNum 7)] = JNum n)
      \/ (exists props, JObj [("label", JNum 7)] = JObj props)).
Proof.
  apply (formatValue_result_shape (JObj [("label", JNum 7)]) (JNum 7)).
  reflexivity.
Defined.

(** ** Arrays *)

Lemma mapC_app {A B : Type} (f : A -> Completion B) (l1 l2 : list A) :
  mapC f (l1 ++ l2)
  = bindC (mapC f l1) (fun a =>
    bindC (mapC f l2) (fun b => Normal (a ++ b)%list)).
Proof.
  induction l1 as [|x l1 IH]; cbn [app mapC].
  - cbn [bindC]. destruct (mapC f l2); reflexivity.
  - destruct (f x) as [y|]; [|reflexivity]. cbn [bindC]. rewrite IH.
    destruct (mapC f l1) as [a|]; [|reflexivity]. cbn [bindC].
    destruct (mapC f l2) as [b|]; reflexivity.
Qed.

Lemma mapC_nonempty {A B : Type} (f : A -> Completion B) (l : list A)
    (r : list B) :
  mapC f l = Normal r -> l <> [] -> r <> [].
Proof.
  destruct l as [|x l]; [congruence|]. cbn [mapC]. intros H _.
  destruct (f x); cbn [bindC] in H; [|discriminate].
  destruct (mapC f l); cbn [bindC] in H; inversion H. discriminate.
Qed.

Lemma concat_app (sep : string) (l1 l2 : list string) :
  l1 <> [] -> l2 <> [] ->
  String.concat sep (l1 ++ l2)
  = String.concat sep l1 ++ sep ++ String.concat sep l2.
Proof.
  intros H1 H2. induction l1 as [|a l1 IH]; [congruence|].
  destruct l1 as [|b l1].
  - destruct l2; [congruence | reflexivity].
  - change (String.concat sep ((a :: b :: l1) ++ l2))
      with (a ++ sep ++ String.concat sep ((b :: l1) ++ l2)).
    rewrite IH by discriminate.
    change (String.concat sep (a :: b :: l1))
      with (a ++ sep ++ String.concat sep (b :: l1)).
    now rewrite <- !append_assoc.
Qed.

(** What a non-empty array is formatted to, seen from its result. *)
Lemma formatValue_array_inv (items : list JsValue) (text : string) :
  items <> [] ->
  formatValue (JArr items) = Normal (JStr text) ->
  exists formatted strs,
    mapC formatValue items = Normal formatted
    /\ mapC ToString formatted = Normal strs
    /\ text = String.concat ", " strs.
Proof.
  intros Hne H. destruct items as [|x rest]; [congruence|].
  cbn [formatValue] in H.
  destruct (mapC formatValue (x :: rest)) as [formatted|] eqn:E;
    cbn [bindC] in H; [|discriminate].
  unfold Array_join in H. rewrite joinWith_concat in H.
  - destruct (mapC ToString formatted) as [strs|] eqn:Es; cbn [bindC] in H;
      [|discriminate].
    inversion H. eauto.
  - eapply mapC_Forall; [|exact E]. intros a b. apply formatValue_not_nullish.
Qed.

Lemma formatValue_array_intro (items formatted : list JsValue)
    (strs : list string) :
  items <> [] ->
  mapC formatValue items = Normal formatted ->
  mapC ToString formatted = Normal strs ->
  formatValue (JArr items) = Normal (JStr (String.concat ", " strs)).
Proof.
  intros Hne Hf Hs. destruct items as [|x rest]; [congruence|].
  cbn [formatValue]. rewrite Hf. cbn [bindC]. unfold Array_join.
  rewrite joinWith_concat, Hs; [reflexivity|].
  eapply mapC_Forall; [|exact Hf]. intros a b. apply formatValue_not_nullish.
Qed.

(** X3.  Formatting composes over arrays.  An array of one element
    displays as that element; wrapping an array in another array changes
    nothing; and the display of two non-empty arrays put end to end is
    the two displays joined by a comma and a space. *)
Theorem formatValue_array_composes :
  (forall x,
      formatValue (JArr [x])
      = bindC (formatValue x) (fun v =>
        bindC (ToString v) (fun text => Normal (JStr text))))
  /\ (forall items, formatValue (JArr [JArr items]) = formatValue (JArr items))
  /\ (forall xs ys a b,
        xs <> [] -> ys <> [] ->
        formatValue (JArr xs) = Normal (JStr a) ->
        formatValue (JArr ys) = Normal (JStr b) ->
        formatValue (JArr (xs ++ ys)) = Normal (JStr (a ++ ", " ++ b))).
Proof.
  assert (Hone : forall x,
             formatValue (JArr [x])
             = bindC (formatValue x) (fun v =>
               bindC (ToString v) (fun text => Normal (JStr text)))).
  { intros x. cbn [formatValue mapC].
    destruct (formatValue x) as [v|] eqn:E; [|reflexivity].
    cbn [bindC Array_join joinWith]. unfold Array_join. cbn [joinWith].
    apply formatValue_not_nullish in E.
    destruct v; try discriminate; cbn [bindC];
      match goal with
      | |- context [ToString ?v] => destruct (ToString v); reflexivity
      end. }
  split; [exact Hone|]. split.
  - intros items. rewrite Hone.
    destruct (formatValue (JArr items)) as [r|] eqn:E; [|reflexivity].
    destruct (formatValue_array_is_string _ _ E) as (s & ->).
    reflexivity.
  - intros xs ys a b Hxs Hys Ha Hb.
    destruct (formatValue_array_inv xs a Hxs Ha) as (fx & sx & Hfx & Hsx & ->).
    destruct (formatValue_array_inv ys b Hys Hb) as (fy & sy & Hfy & Hsy & ->).
    rewrite <- concat_app.
    + apply (formatValue_array_intro _ (fx ++ fy)).
      * destruct xs; [congruence | discriminate].
      * rewrite mapC_app, Hfx, Hfy. reflexivity.
      * rewrite mapC_app, Hsx, Hsy. reflexivity.
    + eapply mapC_nonempty; [exact Hsx|]. eapply mapC_nonempty; eassumption.
    + eapply mapC_nonempty; [exact Hsy|]. eapply mapC_nonempty; eassumption.
Qed.

Lemma formatValue_array_composes_witness :
  formatValue (JArr ([JStr "Mon"; JNum 2] ++ [JNull]))
  = Normal (JStr ("Mon, 2" ++ ", " ++ "N/A")).
Proof.
  apply (proj2 (proj2 formatValue_array_composes)); try discriminate;
    reflexivity.
Defined.

Lemma mapC_formatValue_strings (strs : list string) :
  mapC formatValue (map JStr strs)
  = Normal (map (fun s => JStr (shown s)) strs).
Proof.
  induction strs as [|s strs IH]; [reflexivity|].
  cbn [map mapC formatValue]. rewrite IH. unfold shown.
  destruct (isEmptyString s); reflexivity.
Qed.

Lemma mapC_ToString_strings (strs : list string) :
  mapC ToString (map JStr strs) = Normal strs.
Proof.
  induction strs as [|s strs IH]; [reflexivity|].
  cbn [map mapC ToString bindC]. now rewrite IH.
Qed.

(** X4.  A non-empty array of strings displays as its strings joined by
    a comma and a space, each empty string replaced by [N/A]. *)
Theorem formatValue_array_of_strings (strs : list string) :
  strs <> [] ->
  formatValue (JArr (map JStr strs))
  = Normal (JStr (String.concat ", " (map shown strs))).
Proof.
  intros Hne.
  apply (formatValue_array_intro _ (map JStr (map shown strs))).
  - destruct strs; [congruence | discriminate].
  - rewrite mapC_formatValue_strings. now rewrite map_map.
  - apply mapC_ToString_strings.
Qed.

Lemma formatValue_array_of_strings_witness :
  formatValue (JArr (map JStr ["Mon"; ""; "Fri"]))
  = Normal (JStr "Mon, N/A, Fri").
Proof.
  apply (formatValue_array_of_strings ["Mon"; ""; "Fri"]). discriminate.
Defined.

(** ** Objects *)

(** X5.  Skipping an [id] equal to the string [other] has no effect when
    that [id] is the first property of the object and none of [label],
    [value], [name], [other] is truthy: the first-value rule then
    returns the string [other] all the same. *)
Theorem id_other_in_first_place (rest : list (string * JsValue)) :
  (forall k, In k ["label"; "value"; "name"; "other"] ->
             truthy (lookup rest k) = false) ->
  formatValue (JObj (("id", JStr "other") :: rest)) = Normal (JStr "other").
Proof.
  intros H. cbn [formatValue]. unfold formatObject.
  cbn [lookup String.eqb Ascii.eqb Bool.eqb Object_values map snd].
  rewrite !H by (cbn [In]; tauto). reflexivity.
Qed.

Lemma id_other_in_first_place_witness :
  formatValue (JObj [("id", JStr "other"); ("other", JStr ""); ("note", JNum 4)])
  = Normal (JStr "other").
Proof.
  apply (id_other_in_first_place [("other", JStr ""); ("note", JNum 4)]).
  intros k [<-|[<-|[<-|[<-|[]]]]]; reflexivity.
Defined.

(** X6.  The field chosen from an object is returned as it is, without
    being formatted in turn.  A [label] holding an object therefore
    shows in a row as [[object Object]], and a [label] holding an array
    of strings shows them joined by a bare comma (nothing at all for the
    empty array), not as [formatValue] displays an array. *)
Theorem chosen_field_is_not_formatted (props : list (string * JsValue)) :
  (forall inner,
      lookup props "label" = JObj inner ->
      hasOwn inner "toString" = false ->
      formatValue (JObj props) = Normal (JObj inner)
      /\ template [Sub (formatValue (JObj props))] = Normal "[object Object]")
  /\ (forall strs,
        lookup props "label" = JArr (map JStr strs) ->
        formatValue (JObj props) = Normal (JArr (map JStr strs))
        /\ template [Sub (formatValue (JObj props))]
           = Normal (String.concat "," strs)).
Proof.
  split.
  - intros inner Hl Hn.
    assert (Hf : formatValue (JObj props) = Normal (JObj inner))
      by (cbn [formatValue]; unfold formatObject; now rewrite Hl).
    split; [exact Hf|]. cbn [template]. rewrite Hf.
    cbn [bindC ToString]. now rewrite Hn.
  - intros strs Hl.
    assert (Hf : formatValue (JObj props) = Normal (JArr (map JStr strs)))
      by (cbn [formatValue]; unfold formatObject; now rewrite Hl).
    split; [exact Hf|]. cbn [template]. rewrite Hf. cbn [bindC ToString].
    rewrite joinWith_concat, mapC_ToString_strings.
    + cbn [bindC]. now rewrite append_nil_r.
    + apply Forall_forall. intros v Hv. apply in_map_iff in Hv as (s & <- & _).
      reflexivity.
Qed.

Lemma chosen_field_is_not_formatted_witness :
  template [Sub (formatValue (JObj [("label", JObj [("en", JStr "Flat")])]))]
  = Normal "[object Object]"
  /\ template [Sub (formatValue (JObj [("label", JArr [JStr "a"; JStr "b"])]))]
     = Normal "a,b"
  /\ formatValue (JArr [JStr "a"; JStr "b"]) = Normal (JStr "a, b").
Proof.
  split; [|split].
  - apply (proj1 (chosen_field_is_not_formatted
                    [("label", JObj [("en", JStr "Flat")])])
             [("en", JStr "Flat")]); reflexivity.
  - apply (proj2 (chosen_field_is_not_formatted
                    [("label", JArr [JStr "a"; JStr "b"])])
             ["a"; "b"]); reflexivity.
  - reflexivity.
Defined.

(** ** The special fields of a cleaning booking *)

(** X7.  A [bestDays] that is neither an array nor an object with a
    truthy nested [bestDays] is not displayed: a plain string, a number,
    [true], or an object of another shape all give [N/A], whatever the
    generic formatter would make of them. *)
Theorem bestDays_of_other_shape (bookingDetails bestDays : JsValue) :
  Get bookingDetails "bestDays" = Normal bestDays ->
  (forall items, bestDays <> JArr items) ->
  (forall props, bestDays = JObj props ->
                 truthy (lookup props "bestDays") = false) ->
  bestDaysDisplay bookingDetails = Normal (JStr "N/A").
Proof.
  intros Hg Harr Hobj. unfold bestDaysDisplay. rewrite Hg. cbn [bindC].
  destruct bestDays as [| |b|n|s|items|props]; cbn [truthy Get bindC].
  - reflexivity.
  - reflexivity.
  - destruct b; reflexivity.
  - destruct (negb (n =? 0)%Z); reflexivity.
  - destruct (negb (isEmptyString s)); reflexivity.
  - now destruct (Harr items).
  - now rewrite (Hobj props eq_refl).
Qed.

Lemma bestDays_of_other_shape_witness :
  bestDaysDisplay (JObj [("bestDays", JStr "Monday")]) = Normal (JStr "N/A")
  /\ formatValue (JStr "Monday") = Normal (JStr "Monday")
  /\ bestDaysDisplay (JObj [("bestDays", JObj [("label", JStr "Monday")])])
     = Normal (JStr "N/A").
Proof.
  split; [|split; [reflexivity|]].
  - apply (bestDays_of_other_shape _ (JStr "Monday")); [reflexivity| |];
      discriminate.
  - apply (bestDays_of_other_shape _ (JObj [("label", JStr "Monday")]));
      [reflexivity|discriminate|].
    intros props H. inversion H. reflexivity.
Defined.

(** X8.  The current-cleaner field.  A falsy value gives [N/A].  An
    object (or array) whose own [currentCleaner] is truthy gives that
    inner value as it is, followed by the [other] text in parentheses
    when [other] is truthy.  Every other truthy value goes through
    [formatValue]. *)
Theorem currentCleaner_display (bookingDetails currentCleaner : JsValue) :
  Get bookingDetails "currentCleaner" = Normal currentCleaner ->
  (truthy currentCleaner = false ->
   currentCleanerDisplay bookingDetails = Normal (JStr "N/A"))
  /\ (forall props,
        currentCleaner = JObj props ->
        truthy (lookup props "currentCleaner") = true ->
        (truthy (lookup props "other") = false ->
         currentCleanerDisplay bookingDetails
         = Normal (lookup props "currentCleaner"))
        /\ (forall name text,
              lookup props "currentCleaner" = JStr name ->
              lookup props "other" = JStr text ->
              text <> "" ->
              currentCleanerDisplay bookingDetails
              = Normal (JStr (name ++ " (" ++ text ++ ")"))))
  /\ (truthy currentCleaner = true ->
      (forall props, currentCleaner = JObj props ->
                     truthy (lookup props "currentCleaner") = false) ->
      currentCleanerDisplay bookingDetails = formatValue currentCleaner).
Proof.
  intros Hg. unfold currentCleanerDisplay. rewrite Hg. cbn [bindC].
  split; [|split].
  - now intros ->.
  - intros props -> Hinner. cbn [truthy typeofObject Get bindC].
    rewrite Hinner. split.
    + now intros ->.
    + intros name text Hn Ho Ht. rewrite Ho, Hn.
      destruct text as [|c text]; [congruence|].
      cbn [truthy isEmptyString negb template bindC ToString appendString].
      now rewrite append_nil_r.
  - intros Ht Hobj. rewrite Ht.
    destruct currentCleaner as [| |b|n|s|items|props];
      cbn [typeofObject Get bindC truthy]; try discriminate Ht;
      try reflexivity.
    now rewrite (Hobj props eq_refl).
Qed.

Lemma currentCleaner_display_witness :
  currentCleanerDisplay
    (JObj [("currentCleaner",
            JObj [("currentCleaner", JStr "Yes"); ("other", JStr "weekly")])])
  = Normal (JStr ("Yes" ++ " (" ++ "weekly" ++ ")"))
  /\ currentCleanerDisplay (JObj [("currentCleaner", JStr "No")])
     = formatValue (JStr "No")
  /\ currentCleanerDisplay (JObj [("currentCleaner", JStr "")])
     = Normal (JStr "N/A").
Proof.
  split; [|split].
  - refine (proj2 (proj1 (proj2 (currentCleaner_display
                                   (JObj [("currentCleaner",
                                           JObj [("currentCleaner", JStr "Yes");
                                                 ("other", JStr "weekly")])])
                                   (JObj [("currentCleaner", JStr "Yes");
                                          ("other", JStr "weekly")])
                                   eq_refl))
                     [("currentCleaner", JStr "Yes"); ("other", JStr "weekly")]
                     eq_refl eq_refl)
              "Yes" "weekly" eq_refl eq_refl _).
    discriminate.
  - apply (proj2 (proj2 (currentCleaner_display
                           (JObj [("currentCleaner", JStr "No")]) (JStr "No")
                           eq_refl)));
      [reflexivity | discriminate].
  - apply (proj1 (currentCleaner_display
                    (JObj [("currentCleaner", JStr "")]) (JStr "") eq_refl)).
    reflexivity.
Defined.

(** X9.  The cleaning type is the formatted [cleaningType], followed by
    the [cleaningTypeOther] text in parentheses when that is truthy; in
    particular a booking that gives only [cleaningTypeOther] is shown as
    [N/A] followed by the text in parentheses. *)
Theorem cleaningType_display (bookingDetails cleaningType other : JsValue) :
  Get bookingDetails "cleaningType" = Normal cleaningType ->
  Get bookingDetails "cleaningTypeOther" = Normal other ->
  (truthy other = false ->
   cleaningTypeDisplay bookingDetails = formatValue cleaningType)
  /\ (forall display shownAs text,
        other = JStr text -> text <> "" ->
        formatValue cleaningType = Normal display ->
        ToString display = Normal shownAs ->
        cleaningTypeDisplay bookingDetails
        = Normal (JStr (shownAs ++ " (" ++ text ++ ")")))
  /\ (forall text,
        other = JStr text -> text <> "" ->
        provided cleaningType = false ->
        cleaningTypeDisplay bookingDetails
        = Normal (JStr ("N/A" ++ " (" ++ text ++ ")"))).
Proof.
  intros Hc Ho.
  assert (Hwith : forall display shownAs text,
             other = JStr text -> text <> "" ->
             formatValue cleaningType = Normal display ->
             ToString display = Normal shownAs ->
             cleaningTypeDisplay bookingDetails
             = Normal (JStr (shownAs ++ " (" ++ text ++ ")"))).
  { intros display shownAs text -> Ht Hd Hs.
    unfold cleaningTypeDisplay, formatField. rewrite Hc, Ho. cbn [bindC].
    rewrite Hd. cbn [bindC].
    destruct text as [|c text]; [congruence|].
    cbn [truthy isEmptyString negb template bindC ToString].
    unfold appendString. rewrite Hs. cbn [bindC]. now rewrite append_nil_r. }
  split; [|split].
  - intros Hf. unfold cleaningTypeDisplay, formatField. rewrite Hc, Ho.
    cbn [bindC]. destruct (formatValue cleaningType); [|reflexivity].
    cbn [bindC]. now rewrite Hf.
  - exact Hwith.
  - intros text Ht Hne Hgiven.
    apply (Hwith (JStr "N/A") "N/A" text Ht Hne); [|reflexivity].
    destruct cleaningType as [| |b|n|s|items|props]; cbn [provided] in Hgiven;
      try discriminate; try reflexivity.
    cbn [formatValue]. apply negb_false_iff in Hgiven. now rewrite Hgiven.
Qed.

Lemma cleaningType_display_witness :
  cleaningTypeDisplay (JObj [("cleaningTypeOther", JStr "after party")])
  = Normal (JStr ("N/A" ++ " (" ++ "after party" ++ ")"))
  /\ cleaningTypeDisplay
       (JObj [("cleaningType", JObj [("label", JStr "Deep")]);
              ("cleaningTypeOther", JStr "oven")])
     = Normal (JStr ("Deep" ++ " (" ++ "oven" ++ ")"))
  /\ cleaningTypeDisplay (JObj [("cleaningType", JNum 2)])
     = formatValue (JNum 2).
Proof.
  split; [|split].
  - apply (proj2 (proj2 (cleaningType_display
                           (JObj [("cleaningTypeOther", JStr "after party")])
                           JUndefined (JStr "after party") eq_refl eq_refl))
             "after party"); try reflexivity; discriminate.
  - apply (proj1 (proj2 (cleaningType_display
                           (JObj [("cleaningType", JObj [("label", JStr "Deep")]);
                                  ("cleaningTypeOther", JStr "oven")])
                           (JObj [("label", JStr "Deep")]) (JStr "oven")
                           eq_refl eq_refl))
             (JStr "Deep") "Deep" "oven"); try reflexivity; discriminate.
  - apply (proj1 (cleaningType_display (JObj [("cleaningType", JNum 2)])
                    (JNum 2) JUndefined eq_refl eq_refl)).
    reflexivity.
Defined.

(** ** The summary tables *)

Lemma tableRow_occurs (before label text after : string) :
  occursIn (tableRow label text)
    (before ++ "<tr><td>" ++ label ++ "</td><td>" ++ text ++ "</td></tr>" ++ after).
Proof.
  exists before, after. unfold tableRow. now rewrite <- !append_assoc.
Qed.

(** The row of the field read at part [2 * i + 1] of a rows template. *)
Ltac field_row i Hrows Hv Ht :=
  eapply occursIn_trans;
  [|eapply (template_window (2 * i) 3);
    [exact Hrows
    |cbn [Nat.mul Nat.add firstn skipn template]; unfold formatField;
     cbn [Get bindC]; rewrite Hv; cbn [bindC]; rewrite Ht; cbn [bindC];
     reflexivity]];
  first [ refine (tableRow_occurs "
      " _ _ _)
        | refine (tableRow_occurs "</td></tr>
      " _ _ _) ].

(** X10.  Every row of the gardening summary shows, under its label,
    the formatted value of the property the table assigns to it; a
    property that is absent, [null] or empty shows as [N/A]. *)
Theorem gardening_rows_table (props : list (string * JsValue))
    (rows label key : string) :
  gardeningBookingRows (JObj props) = Normal rows ->
  In (label, key) gardeningFieldRows ->
  (forall v text,
      formatValue (lookup props key) = Normal v ->
      ToString v = Normal text ->
      occursIn (tableRow label text) rows)
  /\ (provided (lookup props key) = false ->
      occursIn (tableRow label "N/A") rows).
Proof.
  intros Hrows Hin.
  assert (H : forall v text,
             formatValue (lookup props key) = Normal v ->
             ToString v = Normal text ->
             occursIn (tableRow label text) rows).
  { intros v text Hv Ht. unfold gardeningBookingRows in Hrows.
    cbn [gardeningFieldRows In] in Hin.
    destruct Hin as [E|[E|[E|[E|[E|[E|[E|[E|[E|[E|[]]]]]]]]]]];
      inversion E; subst label key.
    - field_row 0 Hrows Hv Ht.
    - field_row 1 Hrows Hv Ht.
    - field_row 2 Hrows Hv Ht.
    - field_row 3 Hrows Hv Ht.
    - field_row 4 Hrows Hv Ht.
    - field_row 5 Hrows Hv Ht.
    - field_row 6 Hrows Hv Ht.
    - field_row 7 Hrows Hv Ht.
    - field_row 8 Hrows Hv Ht.
    - field_row 9 Hrows Hv Ht. }
  split; [exact H|].
  intros Hgiven. apply (H (JStr "N/A")); [|reflexivity].
  destruct (lookup props key); cbn [provided] in Hgiven;
    try discriminate; try reflexivity.
  cbn [formatValue]. apply negb_false_iff in Hgiven. now rewrite Hgiven.
Qed.

Lemma gardening_rows_table_witness :
  match gardeningBookingRows
          (JObj [("plants", JArr [JStr "roses"; JStr "ivy"])]) with
  | Normal rows =>
      occursIn (tableRow "Plants" "roses, ivy") rows
      /\ occursIn (tableRow "Start Time" "N/A") rows
  | Throw _ => False
  end.
Proof.
  destruct (gardeningBookingRows
              (JObj [("plants", JArr [JStr "roses"; JStr "ivy"])]))
    as [rows|] eqn:Hrows; [|vm_compute in Hrows; discriminate Hrows].
  split.
  - apply (proj1 (gardening_rows_table _ rows "Plants" "plants" Hrows
                    ltac:(cbn; tauto))
             (JStr "roses, ivy") "roses, ivy"); reflexivity.
  - apply (proj2 (gardening_rows_table _ rows "Start Time" "workBegin" Hrows
                    ltac:(cbn; tauto))).
    reflexivity.
Defined.

(** X11.  The seven plain rows of the cleaning summary show, under their
    label, the formatted value of the property the table assigns to
    them.  The row labelled Bathrooms is among them and shows the
    property [receptionRooms]. *)
Theorem cleaning_rows_table (props : list (string * JsValue))
    (bestDays currentCleaner cleaningType : JsValue) (rows label key : string) :
  cleaningBookingRows (JObj props) bestDays currentCleaner cleaningType
  = Normal rows ->
  In (label, key) cleaningFieldRows ->
  (forall v text,
      formatValue (lookup props key) = Normal v ->
      ToString v = Normal text ->
      occursIn (tableRow label text) rows)
  /\ (provided (lookup props key) = false ->
      occursIn (tableRow label "N/A") rows).
Proof.
  intros Hrows Hin.
  assert (H : forall v text,
             formatValue (lookup props key) = Normal v ->
             ToString v = Normal text ->
             occursIn (tableRow label text) rows).
  { intros v text Hv Ht. unfold cleaningBookingRows in Hrows.
    cbn [cleaningFieldRows In] in Hin.
    destruct Hin as [E|[E|[E|[E|[E|[E|[E|[]]]]]]]];
      inversion E; subst label key.
    - field_row 0 Hrows Hv Ht.
    - field_row 1 Hrows Hv Ht.
    - field_row 2 Hrows Hv Ht.
    - field_row 3 Hrows Hv Ht.
    - field_row 7 Hrows Hv Ht.
    - field_row 8 Hrows Hv Ht.
    - field_row 9 Hrows Hv Ht. }
  split; [exact H|].
  intros Hgiven. apply (H (JStr "N/A")); [|reflexivity].
  destruct (lookup props key); cbn [provided] in Hgiven;
    try discriminate; try reflexivity.
  cbn [formatValue]. apply negb_false_iff in Hgiven. now rewrite Hgiven.
Qed.

Lemma cleaning_rows_table_witness :
  match cleaningBookingRows
          (JObj [("bathrooms", JNum 2); ("receptionRooms", JNum 1)])
          (JStr "N/A") (JStr "N/A") (JStr "N/A") with
  | Normal rows =>
      occursIn (tableRow "Bathrooms" "1") rows
      /\ occursIn (tableRow "Bedrooms" "N/A") rows
  | Throw _ => False
  end.
Proof.
  destruct (cleaningBookingRows
              (JObj [("bathrooms", JNum 2); ("receptionRooms", JNum 1)])
              (JStr "N/A") (JStr "N/A") (JStr "N/A"))
    as [rows|] eqn:Hrows; [|vm_compute in Hrows; discriminate Hrows].
  split.
  - apply (proj1 (cleaning_rows_table _ _ _ _ rows "Bathrooms" "receptionRooms"
                    Hrows ltac:(cbn; tauto))
             (JNum 1) "1"); reflexivity.
  - apply (proj2 (cleaning_rows_table _ _ _ _ rows "Bedrooms" "bedrooms"
                    Hrows ltac:(cbn; tauto))).
    reflexivity.
Defined.

(** X12.  The cleaning summary reads eleven properties of the booking
    details and nothing else: two bookings that agree on these
    properties get the same three special displays and the same rows.
    A property named [bathrooms], for one, is never read. *)
Theorem cleaning_reads_only_its_keys (props props' : list (string * JsValue)) :
  (forall k, In k cleaningKeys -> lookup props k = lookup props' k) ->
  bestDaysDisplay (JObj props) = bestDaysDisplay (JObj props')
  /\ currentCleanerDisplay (JObj props) = currentCleanerDisplay (JObj props')
  /\ cleaningTypeDisplay (JObj props) = cleaningTypeDisplay (JObj props')
  /\ forall bestDays currentCleaner cleaningType,
      cleaningBookingRows (JObj props) bestDays currentCleaner cleaningType
      = cleaningBookingRows (JObj props') bestDays currentCleaner cleaningType.
Proof.
  intros H.
  assert (Hk : forall k, In k cleaningKeys ->
                         Get (JObj props) k = Get (JObj props') k)
    by (intros k Hin; cbn [Get]; now rewrite H).
  repeat split.
  - unfold bestDaysDisplay. now rewrite Hk by (cbn; tauto).
  - unfold currentCleanerDisplay. now rewrite Hk by (cbn; tauto).
  - unfold cleaningTypeDisplay, formatField.
    now rewrite !Hk by (cbn; tauto).
  - intros bestDays currentCleaner cleaningType.
    unfold cleaningBookingRows, formatField.
    now rewrite !Hk by (cbn; tauto).
Qed.

Lemma cleaning_reads_only_its_keys_witness :
  cleaningBookingRows (JObj [("receptionRooms", JNum 1)])
    (JStr "N/A") (JStr "N/A") (JStr "N/A")
  = cleaningBookingRows
      (JObj [("bathrooms", JNum 2); ("receptionRooms", JNum 1)])
      (JStr "N/A") (JStr "N/A") (JStr "N/A").
Proof.
  apply (cleaning_reads_only_its_keys [("receptionRooms", JNum 1)]
           [("bathrooms", JNum 2); ("receptionRooms", JNum 1)]).
  intros k Hin. cbn [cleaningKeys In] in Hin.
  repeat (destruct Hin as [<-|Hin]; [reflexivity|]). contradiction.
Defined.

(** ** Handlers: what a submission of ordinary data leads to *)

Lemma template_returns (parts : list Part) :
  Forall PartReturns parts -> exists text, template parts = Normal text.
Proof.
  induction 1 as [|part parts Hpart _ (rest & Hrest)]; [now exists ""|].
  destruct part as [text|e]; cbn [template]; rewrite Hrest; cbn [bindC].
  - eauto.
  - destruct Hpart as (v & -> & Hv). cbn [bindC].
    destruct (ToString_plain v Hv) as (s & ->). cbn [bindC]. eauto.
Qed.

Lemma truthy_Get_plain (v : JsValue) (k : string) :
  plain v = true -> truthy v = true ->
  exists x, Get v k = Normal x /\ plain x = true.
Proof.
  intros Hp Ht. apply Get_plain; [exact Hp|].
  now apply truthy_not_nullish.
Qed.

Lemma appendString_plain (v : JsValue) (suffix : string) :
  plain v = true ->
  exists r, appendString v suffix = Normal r /\ plain r = true.
Proof.
  intros Hp. unfold appendString.
  destruct (ToString_plain v Hp) as (s & ->). cbn [bindC]. eauto.
Qed.

Lemma suffix_returns (opening : string) (other : JsValue) :
  plain other = true ->
  exists suffix, template [Lit opening; Sub (Normal other); Lit ")"] = Normal suffix.
Proof.
  intros Hp. apply template_returns.
  repeat constructor. now exists other.
Qed.

Lemma formatField_plain (bookingDetails : JsValue) (k : string) :
  plain bookingDetails = true -> nullish bookingDetails = false ->
  PartReturns (Sub (formatField bookingDetails k)).
Proof.
  intros Hp Hn. unfold formatField.
  destruct (Get_plain bookingDetails k Hp Hn) as (x & -> & Hx).
  cbn [bindC PartReturns]. now apply formatValue_plain.
Qed.

Lemma bestDaysDisplay_plain (bookingDetails : JsValue) :
  plain bookingDetails = true -> nullish bookingDetails = false ->
  exists v, bestDaysDisplay bookingDetails = Normal v /\ plain v = true.
Proof.
  intros Hp Hn. unfold bestDaysDisplay.
  destruct (Get_plain bookingDetails "bestDays" Hp Hn) as (bestDays & -> & Hb).
  cbn [bindC]. destruct (truthy bestDays) eqn:Ht; [|eauto].
  assert (Hgeneric :
            exists v,
              bindC (Get bestDays "bestDays") (fun nested =>
                if truthy nested
                then bindC (formatValue nested) (fun days =>
                     bindC (Get bestDays "other") (fun other =>
                       if truthy other
                       then bindC (template [Lit " (Other: "; Sub (Normal other);
                                             Lit ")"])
                              (fun suffix => appendString days suffix)
                       else Normal days))
                else Normal (JStr "N/A")) = Normal v
              /\ plain v = true).
  { destruct (truthy_Get_plain bestDays "bestDays" Hb Ht) as (nested & -> & Hnp).
    cbn [bindC]. destruct (truthy nested); [|eauto].
    destruct (formatValue_plain nested Hnp) as (days & -> & Hd). cbn [bindC].
    destruct (truthy_Get_plain bestDays "other" Hb Ht) as (other & -> & Ho).
    cbn [bindC]. destruct (truthy other); [|eauto].
    destruct (suffix_returns " (Other: " other Ho) as (suffix & ->).
    cbn [bindC]. now apply appendString_plain. }
  destruct bestDays; try exact Hgeneric. now apply formatValue_plain.
Qed.

Lemma currentCleanerDisplay_plain (bookingDetails : JsValue) :
  plain bookingDetails = true -> nullish bookingDetails = false ->
  exists v, currentCleanerDisplay bookingDetails = Normal v /\ plain v = true.
Proof.
  intros Hp Hn. unfold currentCleanerDisplay.
  destruct (Get_plain bookingDetails "currentCleaner" Hp Hn)
    as (currentCleaner & -> & Hc).
  cbn [bindC]. destruct (truthy currentCleaner) eqn:Ht; [|eauto].
  assert (Hinner : exists inner,
             (if typeofObject currentCleaner
              then Get currentCleaner "currentCleaner"
              else Normal (JBool false)) = Normal inner
             /\ plain inner = true).
  { destruct (typeofObject currentCleaner); [|eauto].
    now apply truthy_Get_plain. }
  destruct Hinner as (inner & -> & Hi). cbn [bindC].
  destruct (typeofObject currentCleaner && truthy inner);
    [|now apply formatValue_plain].
  destruct (truthy_Get_plain currentCleaner "other" Hc Ht) as (other & -> & Ho).
  cbn [bindC]. destruct (truthy other); [|eauto].
  destruct (suffix_returns " (" other Ho) as (suffix & ->).
  cbn [bindC]. now apply appendString_plain.
Qed.

Lemma cleaningTypeDisplay_plain (bookingDetails : JsValue) :
  plain bookingDetails = true -> nullish bookingDetails = false ->
  exists v, cleaningTypeDisplay bookingDetails = Normal v /\ plain v = true.
Proof.
  intros Hp Hn. unfold cleaningTypeDisplay.
  destruct (formatField_plain bookingDetails "cleaningType" Hp Hn)
    as (display & -> & Hd).
  cbn [bindC].
  destruct (Get_plain bookingDetails "cleaningTypeOther" Hp Hn)
    as (other & -> & Ho).
  cbn [bindC]. destruct (truthy other); [|eauto].
  destruct (suffix_returns " (" other Ho) as (suffix & ->).
  cbn [bindC]. now apply appendString_plain.
Qed.

Ltac parts_return :=
  apply template_returns;
  repeat first
    [ apply Forall_nil
    | apply Forall_cons
    | exact I
    | apply formatField_plain; assumption
    | apply Get_plain; assumption
    | eexists; split; [reflexivity | assumption] ].

Section Submissions.

Variable env : Env.
Variable JSON_parse : string -> Completion JsValue.
Variable transporter : Transport.

Lemma cleaningContents_returns (req : BookingRequest)
    (userDetails bookingDetails : JsValue) :
  parseField JSON_parse (userDetails_field req) = Normal userDetails ->
  parseField JSON_parse (bookingDetails_field req) = Normal bookingDetails ->
  plain userDetails = true -> nullish userDetails = false ->
  plain bookingDetails = true -> nullish bookingDetails = false ->
  exists adminContent userContent,
    cleaningContents JSON_parse req
    = Normal (userDetails, adminContent, userContent).
Proof.
  intros Hu Hb Hup Hun Hbp Hbn. unfold cleaningContents.
  rewrite Hu, Hb. cbn [bindC].
  destruct (bestDaysDisplay_plain bookingDetails Hbp Hbn) as (b & -> & Hpb).
  destruct (currentCleanerDisplay_plain bookingDetails Hbp Hbn) as (c & -> & Hpc).
  destruct (cleaningTypeDisplay_plain bookingDetails Hbp Hbn) as (t & -> & Hpt).
  cbn [bindC].
  assert (Hrows : exists rows, cleaningBookingRows bookingDetails b c t = Normal rows)
    by (unfold cleaningBookingRows; parts_return).
  destruct Hrows as (rows & ->). cbn [bindC].
  assert (Hadmin : exists text,
             cleaningAdminContent userDetails rows (descriptionOf req)
             = Normal text)
    by (unfold cleaningAdminContent; parts_return).
  destruct Hadmin as (adminContent & ->). cbn [bindC].
  assert (Huser : exists text, cleaningUserContent userDetails rows = Normal text)
    by (unfold cleaningUserContent; parts_return).
  destruct Huser as (userContent & ->). cbn [bindC]. eauto.
Qed.

Lemma gardeningContents_returns (req : BookingRequest)
    (userDetails bookingDetails : JsValue) :
  parseField JSON_parse (userDetails_field req) = Normal userDetails ->
  parseField JSON_parse (bookingDetails_field req) = Normal bookingDetails ->
  plain userDetails = true -> nullish userDetails = false ->
  plain bookingDetails = true -> nullish bookingDetails = false ->
  exists adminContent userContent,
    gardeningContents JSON_parse req
    = Normal (userDetails, adminContent, userContent).
Proof.
  intros Hu Hb Hup Hun Hbp Hbn. unfold gardeningContents.
  rewrite Hu, Hb. cbn [bindC].
  assert (Hrows : exists rows, gardeningBookingRows bookingDetails = Normal rows)
    by (unfold gardeningBookingRows; parts_return).
  destruct Hrows as (rows & ->). cbn [bindC].
  assert (Hadmin : exists text,
             gardeningAdminContent userDetails rows (descriptionOf req)
             = Normal text)
    by (unfold gardeningAdminContent; parts_return).
  destruct Hadmin as (adminContent & ->). cbn [bindC].
  assert (Huser : exists text, gardeningUserContent userDetails rows = Normal text)
    by (unfold gardeningUserContent; parts_return).
  destruct Huser as (userContent & ->). cbn [bindC]. eauto.
Qed.

(** *** One send, with its console line *)

Lemma sendEmail_accepted_run (recipient : JsValue) (subj htmlContent : string)
    (attached : option (list Attachment)) (w : World) (shownAs : string) :
  transporter (outbox w)
    (mailOptions env recipient subj htmlContent (defaultAttachments attached))
  = Normal tt ->
  ToString recipient = Normal shownAs ->
  sendEmail env transporter recipient subj htmlContent attached w
  = (Normal tt,
     extend w
       [mailOptions env recipient subj htmlContent (defaultAttachments attached)]
       [ConsoleLog ("Email sent to " ++ shownAs)] []).
Proof.
  intros Ht Hs.
  unfold sendEmail, tryCatch, bind, transporter_sendMail, lift, console_log,
    extend.
  rewrite Ht. cbn [template bindC]. rewrite Hs.
  cbn [bindC outbox console responses].
  now rewrite append_nil_r, app_nil_r.
Qed.

Lemma sendEmail_rejected_run (recipient : JsValue) (subj htmlContent : string)
    (attached : option (list Attachment)) (w : World) (e : JsError) :
  transporter (outbox w)
    (mailOptions env recipient subj htmlContent (defaultAttachments attached))
  = Throw e ->
  sendEmail env transporter recipient subj htmlContent attached w
  = (Throw e,
     extend w
       [mailOptions env recipient subj htmlContent (defaultAttachments attached)]
       [ConsoleError (Some "Error sending email:") e] []).
Proof.
  intros Ht.
  unfold sendEmail, tryCatch, bind, transporter_sendMail, console_error, throw,
    extend.
  rewrite Ht. cbn [outbox console responses]. now rewrite app_nil_r.
Qed.

Lemma sendEmail_unlogged_run (recipient : JsValue) (subj htmlContent : string)
    (attached : option (list Attachment)) (w : World) (e : JsError) :
  transporter (outbox w)
    (mailOptions env recipient subj htmlContent (defaultAttachments attached))
  = Normal tt ->
  ToString recipient = Throw e ->
  sendEmail env transporter recipient subj htmlContent attached w
  = (Throw e,
     extend w
       [mailOptions env recipient subj htmlContent (defaultAttachments attached)]
       [ConsoleError (Some "Error sending email:") e] []).
Proof.
  intros Ht Hs.
  unfold sendEmail, tryCatch, bind, transporter_sendMail, lift, console_error,
    throw, extend.
  rewrite Ht. cbn [template bindC]. rewrite Hs.
  cbn [bindC outbox console responses]. now rewrite app_nil_r.
Qed.

(** X13.  After the transport has accepted a message, [sendEmail] writes
    the console line [Email sent to] followed by the recipient and ends
    normally; an omitted attachment list is sent as the empty list.  If
    the recipient cannot be converted to text for that line, [sendEmail]
    ends by a throw, logged as a send error, although the message has
    been handed to the transport. *)
Theorem sendEmail_after_acceptance (recipient : JsValue)
    (subj htmlContent : string) (w : World) :
  transporter (outbox w) (mailOptions env recipient subj htmlContent [])
  = Normal tt ->
  (forall shownAs,
      ToString recipient = Normal shownAs ->
      sendEmail env transporter recipient subj htmlContent None w
      = (Normal tt,
         extend w [mailOptions env recipient subj htmlContent []]
           [ConsoleLog ("Email sent to " ++ shownAs)] []))
  /\ (forall e,
        ToString recipient = Throw e ->
        sendEmail env transporter recipient subj htmlContent None w
        = (Throw e,
           extend w [mailOptions env recipient subj htmlContent []]
             [ConsoleError (Some "Error sending email:") e] [])).
Proof.
  intros Ht. split.
  - intros shownAs Hs. now apply sendEmail_accepted_run.
  - intros e Hs. now apply sendEmail_unlogged_run.
Qed.

(** *** The two sends, with their console lines *)

Lemma ToString_envValue (x : option string) :
  ToString (envValue x) = Normal (envString x).
Proof. destruct x; reflexivity. Qed.

Lemma both_accepted_run (onError : JsError -> Action unit)
    (adminSubject adminHtml : string) (attached : option (list Attachment))
    (customer : JsValue) (customerSubject customerHtml customerText : string)
    (w : World) :
  let admin := mailOptions env (envValue (ADMIN_EMAIL env)) adminSubject
                 adminHtml (defaultAttachments attached) in
  let second := mailOptions env customer customerSubject customerHtml [] in
  transporter (outbox w) admin = Normal tt ->
  transporter (outbox w ++ [admin])%list second = Normal tt ->
  ToString customer = Normal customerText ->
  tryCatch
    (sendEmail env transporter (envValue (ADMIN_EMAIL env)) adminSubject
       adminHtml attached ;;
     addressee <- lift (Normal customer) ;;
     sendEmail env transporter addressee customerSubject customerHtml None ;;
     res_status_json 200 true)%action
    onError w
  = (Normal tt,
     extend w [admin; second]
       [ConsoleLog ("Email sent to " ++ envString (ADMIN_EMAIL env));
        ConsoleLog ("Email sent to " ++ customerText)]
       [okResponse]).
Proof.
  intros admin second Ha Hc Hs. subst admin second.
  unfold tryCatch at 1, bind at 1.
  rewrite (sendEmail_accepted_run _ _ _ _ _ _ Ha (ToString_envValue _)).
  unfold bind at 1, lift at 1, bind at 1.
  rewrite (sendEmail_accepted_run customer customerSubject customerHtml None
             (extend w
                [mailOptions env (envValue (ADMIN_EMAIL env)) adminSubject
                   adminHtml (defaultAttachments attached)]
                [ConsoleLog ("Email sent to " ++ envString (ADMIN_EMAIL env))] [])
             customerText Hc Hs).
  rewrite res_status_json_run, !extend_extend. reflexivity.
Qed.

Lemma second_rejected_run (onError : JsError -> Action unit)
    (adminSubject adminHtml : string) (attached : option (list Attachment))
    (customer : JsValue) (customerSubject customerHtml : string)
    (w : World) (e : JsError) (errorLines : list LogEntry) :
  let admin := mailOptions env (envValue (ADMIN_EMAIL env)) adminSubject
                 adminHtml (defaultAttachments attached) in
  let second := mailOptions env customer customerSubject customerHtml [] in
  (forall w0, onError e w0 = (Normal tt, extend w0 [] errorLines [failResponse])) ->
  transporter (outbox w) admin = Normal tt ->
  transporter (outbox w ++ [admin])%list second = Throw e ->
  tryCatch
    (sendEmail env transporter (envValue (ADMIN_EMAIL env)) adminSubject
       adminHtml attached ;;
     addressee <- lift (Normal customer) ;;
     sendEmail env transporter addressee customerSubject customerHtml None ;;
     res_status_json 200 true)%action
    onError w
  = (Normal tt,
     extend w [admin; second]
       (ConsoleLog ("Email sent to " ++ envString (ADMIN_EMAIL env))
        :: ConsoleError (Some "Error sending email:") e :: errorLines)
       [failResponse]).
Proof.
  intros admin second Herr Ha Hc. subst admin second.
  unfold tryCatch at 1, bind at 1.
  rewrite (sendEmail_accepted_run _ _ _ _ _ _ Ha (ToString_envValue _)).
  unfold bind at 1, lift at 1, bind at 1.
  rewrite (sendEmail_rejected_run customer customerSubject customerHtml None
             (extend w
                [mailOptions env (envValue (ADMIN_EMAIL env)) adminSubject
                   adminHtml (defaultAttachments attached)]
                [ConsoleLog ("Email sent to " ++ envString (ADMIN_EMAIL env))] [])
             e Hc).
  rewrite Herr, !extend_extend. reflexivity.
Qed.

Lemma booking_catch_explicit (e : JsError) (w0 : World) :
  (console_error None e ;; res_status_json 500 false)%action w0
  = (Normal tt, extend w0 [] [ConsoleError None e] [failResponse]).
Proof.
  unfold bind, console_error, res_status_json, extend.
  cbn [outbox console responses]. now rewrite app_nil_r.
Qed.

(** *** Attachments *)

Lemma twoSends_after_admin (before : list MailOptions)
    (admin second : MailOptions) (shownAs : string) :
  ToString (to admin) = Normal shownAs ->
  exists rest ok,
    twoSends transporter before admin (Normal second) = (admin :: rest, ok)
    /\ (forall e, transporter before admin = Throw e -> rest = [])
    /\ (transporter before admin = Normal tt -> rest = [second]).
Proof.
  intros Hs. unfold twoSends, sendCompletes at 1. rewrite Hs.
  destruct (transporter before admin) as [[]|e0]; cbn [bindC].
  - destruct (sendCompletes transporter (before ++ [admin]) second);
      eexists _, _; (split; [reflexivity|]); split; congruence.
  - eexists _, _. split; [reflexivity|]. split; congruence.
Qed.

Lemma booking_run_on_contents
    (contents : Completion (JsValue * string * string))
    (adminSubject adminTitle : string) (req : BookingRequest)
    (userDetails customer : JsValue) (adminContent userContent : string)
    (before : list MailOptions) :
  contents = Normal (userDetails, adminContent, userContent) ->
  Get userDetails "email" = Normal customer ->
  exists admin rest ok,
    bookingSummary env transporter contents adminSubject adminTitle req before
    = (admin :: rest, ok)
    /\ to admin = envValue (ADMIN_EMAIL env)
    /\ attachments admin = emailAttachments req
    /\ (forall e, transporter before admin = Throw e -> rest = [])
    /\ (transporter before admin = Normal tt ->
        exists second,
          rest = [second] /\ to second = customer /\ attachments second = []).
Proof.
  intros -> Hg. unfold bookingSummary. rewrite Hg. cbn [bindC].
  match goal with
  | |- context [twoSends _ _ ?a (Normal ?c)] =>
      destruct (twoSends_after_admin before a c (envString (ADMIN_EMAIL env))
                  (ToString_envValue _))
        as (rest & ok & -> & Hrejected & Haccepted)
  end.
  eexists _, rest, ok. split; [reflexivity|].
  split; [reflexivity|]. split; [reflexivity|]. split; [exact Hrejected|].
  intros Ha. rewrite (Haccepted Ha). eexists. repeat split.
Qed.

(** C8.  The uploaded files go out on the admin email and on no other.
    In every run of a booking handler, cleaning or gardening, the calls
    are none, or the admin email alone, or the admin email and then the
    customer email; the admin email carries one attachment per file of
    the request, with the file's name and bytes, and the customer email
    carries none.  And for every booking whose two JSON fields parse to
    ordinary values other than [null], the admin email is made, with
    these attachments, to the configured administrator address; once
    the transport has accepted it, the customer email follows, to the
    [email] of the user details and without attachment. *)
Theorem attachments_only_for_admin (req : BookingRequest) (w : World) :
  let expected :=
    match files req with
    | Some uploaded =>
        map (fun file => {| filename := originalname file;
                            content := buffer file |}) uploaded
    | None => []
    end in
  let shape (run : Completion unit * World) :=
    exists calls lines ok,
      run = (Normal tt, extend w calls lines [responseOf ok])
      /\ (calls = []
          \/ exists admin rest,
               calls = admin :: rest
               /\ to admin = envValue (ADMIN_EMAIL env)
               /\ attachments admin = expected
               /\ (rest = []
                   \/ exists customer userDetails,
                        rest = [customer]
                        /\ parseField JSON_parse (userDetails_field req)
                           = Normal userDetails
                        /\ Get userDetails "email" = Normal (to customer)
                        /\ attachments customer = [])) in
  let sent (userDetails : JsValue) (run : Completion unit * World) :=
    exists admin rest lines ok,
      run = (Normal tt, extend w (admin :: rest) lines [responseOf ok])
      /\ to admin = envValue (ADMIN_EMAIL env)
      /\ attachments admin = expected
      /\ (forall e, transporter (outbox w) admin = Throw e -> rest = [])
      /\ (transporter (outbox w) admin = Normal tt ->
          exists customer,
            rest = [customer]
            /\ Get userDetails "email" = Normal (to customer)
            /\ attachments customer = []) in
  shape (bookCleaningHandler env JSON_parse transporter req w)
  /\ shape (bookGardeningHandler env JSON_parse transporter req w)
  /\ forall userDetails bookingDetails,
      parseField JSON_parse (userDetails_field req) = Normal userDetails ->
      parseField JSON_parse (bookingDetails_field req) = Normal bookingDetails ->
      plain userDetails = true -> nullish userDetails = false ->
      plain bookingDetails = true -> nullish bookingDetails = false ->
      sent userDetails (bookCleaningHandler env JSON_parse transporter req w)
      /\ sent userDetails (bookGardeningHandler env JSON_parse transporter req w).
Proof.
  intros expected shape sent.
  assert (Hexpected : emailAttachments req = expected) by reflexivity.
  split; [|split].
  - destruct (bookCleaningHandler_run env JSON_parse transporter req w)
      as (lines & Hrun).
    eexists _, lines, _. split; [exact Hrun|].
    destruct (cleaning_call_inv env JSON_parse transporter req w _ _ _ Hrun
                eq_refl)
      as [H|(userDetails & adminContent & userContent & admin & rest
             & Hc & Hcalls & -> & Hrest)]; [now left|].
    right. eexists _, rest. split; [exact Hcalls|].
    split; [reflexivity|]. split; [exact Hexpected|].
    destruct Hrest as [->|(customer & Hg & ->)]; [now left|].
    right. eexists _, userDetails. split; [reflexivity|].
    apply cleaningContents_inv in Hc as (? & ? & ? & ? & ? & Hu & _).
    auto.
  - destruct (bookGardeningHandler_run env JSON_parse transporter req w)
      as (lines & Hrun).
    eexists _, lines, _. split; [exact Hrun|].
    destruct (gardening_call_inv env JSON_parse transporter req w _ _ _ Hrun
                eq_refl)
      as [H|(userDetails & adminContent & userContent & admin & rest
             & Hc & Hcalls & -> & Hrest)]; [now left|].
    right. eexists _, rest. split; [exact Hcalls|].
    split; [reflexivity|]. split; [exact Hexpected|].
    destruct Hrest as [->|(customer & Hg & ->)]; [now left|].
    right. eexists _, userDetails. split; [reflexivity|].
    apply gardeningContents_inv in Hc as (? & ? & Hu & _).
    auto.
  - intros userDetails bookingDetails Hu Hb Hup Hun Hbp Hbn.
    destruct (Get_plain userDetails "email" Hup Hun) as (customer & Hg & _).
    split.
    + destruct (cleaningContents_returns req _ _ Hu Hb Hup Hun Hbp Hbn)
        as (adminContent & userContent & Hc).
      destruct (bookCleaningHandler_run env JSON_parse transporter req w)
        as (lines & Hrun).
      destruct (booking_run_on_contents _ "New Cleaning Job Alert"
                  "New Cleaning Job" req _ _ _ _ (outbox w) Hc Hg)
        as (admin & rest & ok & Hsummary & Hto & Hatt & Hrejected & Haccepted).
      unfold cleaningSummary in Hrun. rewrite Hsummary in Hrun.
      cbn [fst snd] in Hrun.
      exists admin, rest, lines, ok. split; [exact Hrun|].
      split; [exact Hto|]. split; [now rewrite Hatt|].
      split; [exact Hrejected|].
      intros Ha. destruct (Haccepted Ha) as (second & -> & <- & Hnone).
      exists second. auto.
    + destruct (gardeningContents_returns req _ _ Hu Hb Hup Hun Hbp Hbn)
        as (adminContent & userContent & Hc).
      destruct (bookGardeningHandler_run env JSON_parse transporter req w)
        as (lines & Hrun).
      destruct (booking_run_on_contents _ "New Gardening Job Alert"
                  "New Gardening Job" req _ _ _ _ (outbox w) Hc Hg)
        as (admin & rest & ok & Hsummary & Hto & Hatt & Hrejected & Haccepted).
      unfold gardeningSummary in Hrun. rewrite Hsummary in Hrun.
      cbn [fst snd] in Hrun.
      exists admin, rest, lines, ok. split; [exact Hrun|].
      split; [exact Hto|]. split; [now rewrite Hatt|].
      split; [exact Hrejected|].
      intros Ha. destruct (Haccepted Ha) as (second & -> & <- & Hnone).
      exists second. auto.
Qed.

(** *** Booking handlers *)

(** X14.  A booking whose two JSON fields parse to ordinary values other
    than [null], sent through a transport that accepts the next two
    calls, always succeeds, in the cleaning and in the gardening
    handler alike: the admin email, then the email to the [email] of
    the user details, the two console lines, and the answer 200 with
    success true. *)
Theorem ordinary_booking_succeeds (req : BookingRequest)
    (userDetails bookingDetails : JsValue) (w : World) :
  parseField JSON_parse (userDetails_field req) = Normal userDetails ->
  parseField JSON_parse (bookingDetails_field req) = Normal bookingDetails ->
  plain userDetails = true -> nullish userDetails = false ->
  plain bookingDetails = true -> nullish bookingDetails = false ->
  (forall m, transporter (outbox w) m = Normal tt) ->
  (forall m1 m2, transporter (outbox w ++ [m1])%list m2 = Normal tt) ->
  (exists admin second customerText,
      to admin = envValue (ADMIN_EMAIL env)
      /\ subject admin = "New Cleaning Job Alert"
      /\ Get userDetails "email" = Normal (to second)
      /\ ToString (to second) = Normal customerText
      /\ bookCleaningHandler env JSON_parse transporter req w
         = (Normal tt,
            extend w [admin; second]
              [ConsoleLog ("Email sent to " ++ envString (ADMIN_EMAIL env));
               ConsoleLog ("Email sent to " ++ customerText)]
              [okResponse]))
  /\ (exists admin second customerText,
        to admin = envValue (ADMIN_EMAIL env)
        /\ subject admin = "New Gardening Job Alert"
        /\ Get userDetails "email" = Normal (to second)
        /\ ToString (to second) = Normal customerText
        /\ bookGardeningHandler env JSON_parse transporter req w
           = (Normal tt,
              extend w [admin; second]
                [ConsoleLog ("Email sent to " ++ envString (ADMIN_EMAIL env));
                 ConsoleLog ("Email sent to " ++ customerText)]
                [okResponse])).
Proof.
  intros Hu Hb Hup Hun Hbp Hbn Hfirst Hsecond.
  destruct (Get_plain userDetails "email" Hup Hun) as (customer & Hg & Hcp).
  destruct (ToString_plain customer Hcp) as (customerText & Hs).
  split.
  - destruct (cleaningContents_returns req _ _ Hu Hb Hup Hun Hbp Hbn)
      as (adminContent & userContent & Hc).
    eexists _, _, customerText. repeat split; cycle 4.
    + unfold bookCleaningHandler. rewrite Hc, tryCatch_lift_Normal.
      cbv beta iota. rewrite Hg.
      apply both_accepted_run; [apply Hfirst | apply Hsecond | exact Hs].
    + reflexivity.
    + reflexivity.
    + exact Hg.
    + exact Hs.
  - destruct (gardeningContents_returns req _ _ Hu Hb Hup Hun Hbp Hbn)
      as (adminContent & userContent & Hc).
    eexists _, _, customerText. repeat split; cycle 4.
    + unfold bookGardeningHandler. rewrite Hc, tryCatch_lift_Normal.
      cbv beta iota. rewrite Hg.
      apply both_accepted_run; [apply Hfirst | apply Hsecond | exact Hs].
    + reflexivity.
    + reflexivity.
    + exact Hg.
    + exact Hs.
Qed.

(** X15.  A booking that cannot be read sends nothing.  When the user
    details do not parse, or the booking details do not parse, or the
    booking details parse to [null], both booking handlers make no call
    to the transport, write the error to the console, answer 500 with
    success false, and end normally. *)
Theorem unreadable_booking_sends_nothing (req : BookingRequest) (w : World)
    (e : JsError) :
  parseField JSON_parse (userDetails_field req) = Throw e
  \/ (exists userDetails,
        parseField JSON_parse (userDetails_field req) = Normal userDetails
        /\ (parseField JSON_parse (bookingDetails_field req) = Throw e
            \/ (parseField JSON_parse (bookingDetails_field req) = Normal JNull
                /\ e = TypeError))) ->
  bookCleaningHandler env JSON_parse transporter req w
  = (Normal tt, extend w [] [ConsoleError None e] [failResponse])
  /\ bookGardeningHandler env JSON_parse transporter req w
     = (Normal tt, extend w [] [ConsoleError None e] [failResponse]).
Proof.
  intros H.
  assert (Hc : cleaningContents JSON_parse req = Throw e
               /\ gardeningContents JSON_parse req = Throw e).
  { unfold cleaningContents, gardeningContents.
    destruct H as [->|(userDetails & -> & [->|(-> & ->)])]; split; reflexivity. }
  destruct Hc as (Hc & Hg). split.
  - unfold bookCleaningHandler. rewrite Hc, tryCatch_lift_Throw.
    apply booking_catch_explicit.
  - unfold bookGardeningHandler. rewrite Hg, tryCatch_lift_Throw.
    apply booking_catch_explicit.
Qed.

(** X16.  Nothing undoes the admin email.  When the transport accepts
    the admin email of a booking, cleaning or gardening, and then
    rejects the customer email, both calls have been made, the console
    shows the admin line and the error twice (from [sendEmail] and from
    the handler), and the answer is 500 with success false. *)
Theorem customer_rejection_after_admin (req : BookingRequest)
    (userDetails customer : JsValue) (adminContent userContent : string)
    (w : World) (e : JsError) :
  Get userDetails "email" = Normal customer ->
  (let admin :=
     mailOptions env (envValue (ADMIN_EMAIL env)) "New Cleaning Job Alert"
       (generateEmailTemplate (currentYear env) "New Cleaning Job" adminContent)
       (emailAttachments req) in
   let second :=
     mailOptions env customer "Booking Received - Loksar Services"
       (generateEmailTemplate (currentYear env) "Booking Received" userContent)
       [] in
   cleaningContents JSON_parse req
   = Normal (userDetails, adminContent, userContent) ->
   transporter (outbox w) admin = Normal tt ->
   transporter (outbox w ++ [admin])%list second = Throw e ->
   bookCleaningHandler env JSON_parse transporter req w
   = (Normal tt,
      extend w [admin; second]
        [ConsoleLog ("Email sent to " ++ envString (ADMIN_EMAIL env));
         ConsoleError (Some "Error sending email:") e;
         ConsoleError None e]
        [failResponse]))
  /\ (let admin :=
        mailOptions env (envValue (ADMIN_EMAIL env)) "New Gardening Job Alert"
          (generateEmailTemplate (currentYear env) "New Gardening Job"
             adminContent)
          (emailAttachments req) in
      let second :=
        mailOptions env customer "Booking Received - Loksar Services"
          (generateEmailTemplate (currentYear env) "Booking Received"
             userContent)
          [] in
      gardeningContents JSON_parse req
      = Normal (userDetails, adminContent, userContent) ->
      transporter (outbox w) admin = Normal tt ->
      transporter (outbox w ++ [admin])%list second = Throw e ->
      bookGardeningHandler env JSON_parse transporter req w
      = (Normal tt,
         extend w [admin; second]
           [ConsoleLog ("Email sent to " ++ envString (ADMIN_EMAIL env));
            ConsoleError (Some "Error sending email:") e;
            ConsoleError None e]
           [failResponse])).
Proof.
  intros Hg. split; intros admin second Hc Ha Hs; subst admin second.
  - unfold bookCleaningHandler. rewrite Hc, tryCatch_lift_Normal.
    cbv beta iota. rewrite Hg.
    apply (second_rejected_run _ _ _ (Some (emailAttachments req)));
      [intros w0; apply booking_catch_explicit | exact Ha | exact Hs].
  - unfold bookGardeningHandler. rewrite Hc, tryCatch_lift_Normal.
    cbv beta iota. rewrite Hg.
    apply (second_rejected_run _ _ _ (Some (emailAttachments req)));
      [intros w0; apply booking_catch_explicit | exact Ha | exact Hs].
Qed.

(** *** Contact handler *)

(** X17.  The contact handler does not validate its fields.  For every
    body that is an ordinary object, and a transport that accepts the
    next two calls, it sends the admin email with the subject
    [New Contact: ] followed by the text of the [subject] property, then
    an email to whatever the [email] property holds, and answers 200
    with success true; a missing property goes out as the text
    [undefined], and a missing [email] as the recipient [undefined]. *)
Theorem contact_sends_whatever_it_gets (req : ContactRequest)
    (props : list (string * JsValue)) (w : World) :
  contact_body req = JObj props ->
  plain (JObj props) = true ->
  (forall m, transporter (outbox w) m = Normal tt) ->
  (forall m1 m2, transporter (outbox w ++ [m1])%list m2 = Normal tt) ->
  exists admin second subjectText emailText,
    ToString (lookup props "subject") = Normal subjectText
    /\ ToString (lookup props "email") = Normal emailText
    /\ to admin = envValue (ADMIN_EMAIL env)
    /\ subject admin = "New Contact: " ++ subjectText
    /\ to second = lookup props "email"
    /\ subject second = "We received your message - Loksar"
    /\ contactHandler env transporter req w
       = (Normal tt,
          extend w [admin; second]
            [ConsoleLog ("Email sent to " ++ envString (ADMIN_EMAIL env));
             ConsoleLog ("Email sent to " ++ emailText)]
            [okResponse]).
Proof.
  intros Hbody Hp Hfirst Hsecond.
  assert (Hk : forall k, plain (lookup props k) = true).
  { intros k. cbn [plain] in Hp. apply andb_prop in Hp as (_ & Hp).
    now apply lookup_plain. }
  destruct (ToString_plain _ (Hk "subject")) as (subjectText & Hs).
  destruct (ToString_plain _ (Hk "email")) as (emailText & He).
  assert (Hadmin : exists text,
             contactAdminContent (lookup props "subject") (lookup props "name")
               (lookup props "email") (lookup props "phone")
               (lookup props "message") = Normal text)
    by (unfold contactAdminContent; pose proof (Hk "subject");
        pose proof (Hk "name"); pose proof (Hk "email");
        pose proof (Hk "phone"); pose proof (Hk "message"); parts_return).
  assert (Huser : exists text,
             contactUserContent (lookup props "subject") (lookup props "name")
             = Normal text)
    by (unfold contactUserContent; pose proof (Hk "subject");
        pose proof (Hk "name"); parts_return).
  destruct Hadmin as (adminContent & Hadmin).
  destruct Huser as (userContent & Huser).
  eexists _, _, subjectText, emailText.
  split; [exact Hs|]. split; [exact He|]. repeat split; cycle 4.
  - unfold contactHandler, contactContents. rewrite Hbody.
    cbn [Get bindC]. rewrite Hadmin, Huser. cbn [bindC].
    unfold bind at 1, lift at 1. cbn [template bindC]. rewrite Hs.
    cbn [bindC]. rewrite append_nil_r, tryCatch_lift_Normal.
    exact (both_accepted_run _ _ _ None _ _ _ emailText w
             (Hfirst _) (Hsecond _ _) He).
  - reflexivity.
  - reflexivity.
  - reflexivity.
  - reflexivity.
Qed.

(** X18.  The contact handler builds its two fragments before its
    [try].  When the body is [null] or [undefined], or when the
    [subject] is an object with a property named [toString], the
    handler ends by a [TypeError] that nothing catches: no call is made
    and no response is written. *)
Theorem contact_throws_before_try (req : ContactRequest) (w : World) :
  (nullish (contact_body req) = true ->
   contactHandler env transporter req w = (Throw TypeError, w))
  /\ (forall props inner,
        contact_body req = JObj props ->
        lookup props "subject" = JObj inner ->
        hasOwn inner "toString" = true ->
        contactHandler env transporter req w = (Throw TypeError, w)).
Proof.
  split.
  - intros Hn. unfold contactHandler, contactContents.
    destruct (contact_body req); try discriminate; reflexivity.
  - intros props inner Hbody Hsubject Hown.
    unfold contactHandler, contactContents. rewrite Hbody.
    cbn [Get bindC]. unfold contactAdminContent. rewrite Hsubject.
    cbn [template bindC ToString]. rewrite Hown. reflexivity.
Qed.

(** *** What the emails of a booking carry *)

Lemma occursIn_single (text : string) : occursIn text (text ++ "").
Proof. exists "", "". reflexivity. Qed.

Lemma gardeningAdminContent_rows (userDetails : JsValue)
    (bookingRows description adminContent : string) :
  gardeningAdminContent userDetails bookingRows description = Normal adminContent ->
  occursIn bookingRows adminContent.
Proof.
  intros H. unfold gardeningAdminContent in H.
  eapply occursIn_trans; [|eapply (template_window 7 1); [exact H | reflexivity]].
  apply occursIn_single.
Qed.

Lemma gardeningUserContent_rows (userDetails : JsValue)
    (bookingRows userContent : string) :
  gardeningUserContent userDetails bookingRows = Normal userContent ->
  occursIn bookingRows userContent.
Proof.
  intros H. unfold gardeningUserContent in H.
  eapply occursIn_trans; [|eapply (template_window 3 1); [exact H | reflexivity]].
  apply occursIn_single.
Qed.

Lemma notesBox_occurs (before note after : string) :
  occursIn (notesBox note)
    (before ++ q "<div class=`description-box`>" ++ note ++ "</div>" ++ after).
Proof.
  exists before, after. unfold notesBox. now rewrite <- !append_assoc.
Qed.

Lemma cleaningAdminContent_description (userDetails : JsValue)
    (bookingRows description adminContent : string) :
  cleaningAdminContent userDetails bookingRows description = Normal adminContent ->
  occursIn (notesBox (orElse description "No additional notes provided."))
    adminContent.
Proof.
  intros H. unfold cleaningAdminContent in H.
  eapply occursIn_trans; [|eapply (template_window 8 3); [exact H | reflexivity]].
  refine (notesBox_occurs (q "</table>
      <div class=`section-title`>Customer Notes</div>
      ") _ _).
Qed.

Lemma gardeningAdminContent_description (userDetails : JsValue)
    (bookingRows description adminContent : string) :
  gardeningAdminContent userDetails bookingRows description = Normal adminContent ->
  occursIn (notesBox (orElse description "No additional notes provided."))
    adminContent.
Proof.
  intros H. unfold gardeningAdminContent in H.
  eapply occursIn_trans; [|eapply (template_window 8 3); [exact H | reflexivity]].
  refine (notesBox_occurs (q "</table>
      <div class=`section-title`>Customer Notes</div>
      ") _ _).
Qed.

Lemma cleaningContents_displays (req : BookingRequest) (userDetails : JsValue)
    (adminContent userContent : string) :
  cleaningContents JSON_parse req = Normal (userDetails, adminContent, userContent) ->
  exists bookingDetails bestDays currentCleaner cleaningType bookingRows,
    parseField JSON_parse (bookingDetails_field req) = Normal bookingDetails
    /\ bestDaysDisplay bookingDetails = Normal bestDays
    /\ currentCleanerDisplay bookingDetails = Normal currentCleaner
    /\ cleaningTypeDisplay bookingDetails = Normal cleaningType
    /\ cleaningBookingRows bookingDetails bestDays currentCleaner cleaningType
       = Normal bookingRows
    /\ cleaningAdminContent userDetails bookingRows (descriptionOf req)
       = Normal adminContent
    /\ cleaningUserContent userDetails bookingRows = Normal userContent.
Proof.
  unfold cleaningContents. intros H.
  repeat match type of H with
         | bindC ?c _ = Normal _ =>
             let E := fresh "E" in
             destruct c eqn:E; cbn [bindC] in H; [|discriminate H]
         end.
  inversion H; subst. repeat eexists; eassumption.
Qed.

(** X19.  The customer of a booking is shown the rows the administrator
    is shown: when a booking handler has made both calls, one and the
    same rows text occurs in the HTML of the admin email and of the
    customer email, and it is the rows template evaluated on the parsed
    booking details (for a cleaning booking, with the three special
    displays computed from those same details). *)
Theorem both_emails_show_the_same_rows (req : BookingRequest) (w w' : World)
    (r : Completion unit) (admin second : MailOptions) :
  outbox w' = (outbox w ++ [admin; second])%list ->
  (bookCleaningHandler env JSON_parse transporter req w = (r, w') ->
   exists bookingDetails bestDays currentCleaner cleaningType rows,
     parseField JSON_parse (bookingDetails_field req) = Normal bookingDetails
     /\ bestDaysDisplay bookingDetails = Normal bestDays
     /\ currentCleanerDisplay bookingDetails = Normal currentCleaner
     /\ cleaningTypeDisplay bookingDetails = Normal cleaningType
     /\ cleaningBookingRows bookingDetails bestDays currentCleaner cleaningType
        = Normal rows
     /\ occursIn rows (html admin) /\ occursIn rows (html second))
  /\ (bookGardeningHandler env JSON_parse transporter req w = (r, w') ->
      exists bookingDetails rows,
        parseField JSON_parse (bookingDetails_field req) = Normal bookingDetails
        /\ gardeningBookingRows bookingDetails = Normal rows
        /\ occursIn rows (html admin) /\ occursIn rows (html second)).
Proof.
  intros Hout. split; intros Hrun.
  - destruct (cleaning_call_inv env JSON_parse transporter req w w' r _ Hrun Hout)
      as [H|(userDetails & adminContent & userContent & admin' & rest
             & Hc & Hcalls & Hadmin & Hrest)]; [discriminate|].
    inversion Hcalls; subst admin' rest.
    destruct Hrest as [H|(customer & _ & Hsecond)]; [discriminate|].
    inversion Hsecond; subst second. subst admin.
    apply cleaningContents_displays in Hc
      as (bookingDetails & bestDays & currentCleaner & cleaningType & rows
          & Hb & Hbest & Hcurrent & Htype & Hrows & Ha & Hu).
    exists bookingDetails, bestDays, currentCleaner, cleaningType, rows.
    split; [exact Hb|]. split; [exact Hbest|]. split; [exact Hcurrent|].
    split; [exact Htype|]. split; [exact Hrows|]. cbn [html mailOptions]. split.
    + eapply occursIn_trans; [eapply cleaningAdminContent_rows; exact Ha|].
      apply generateEmailTemplate_content.
    + eapply occursIn_trans; [eapply cleaningUserContent_rows; exact Hu|].
      apply generateEmailTemplate_content.
  - destruct (gardening_call_inv env JSON_parse transporter req w w' r _ Hrun Hout)
      as [H|(userDetails & adminContent & userContent & admin' & rest
             & Hc & Hcalls & Hadmin & Hrest)]; [discriminate|].
    inversion Hcalls; subst admin' rest.
    destruct Hrest as [H|(customer & _ & Hsecond)]; [discriminate|].
    inversion Hsecond; subst second. subst admin.
    apply gardeningContents_inv in Hc
      as (bookingDetails & rows & _ & Hb & Hrows & Ha & Hu).
    exists bookingDetails, rows.
    split; [exact Hb|]. split; [exact Hrows|]. cbn [html mailOptions]. split.
    + eapply occursIn_trans; [eapply gardeningAdminContent_rows; exact Ha|].
      apply generateEmailTemplate_content.
    + eapply occursIn_trans; [eapply gardeningUserContent_rows; exact Hu|].
      apply generateEmailTemplate_content.
Qed.

(** X20.  A note given with a booking reaches the administrator as it
    was typed: whatever the non-empty description is, markup included,
    the admin email of either booking handler holds it unchanged inside
    the box of the Customer Notes section. *)
Theorem description_is_not_escaped (req : BookingRequest) (note : string) :
  description_field req = Some note -> note <> "" ->
  (forall w r w' admin rest,
      bookCleaningHandler env JSON_parse transporter req w = (r, w') ->
      outbox w' = (outbox w ++ admin :: rest)%list ->
      occursIn (notesBox note) (html admin))
  /\ (forall w r w' admin rest,
        bookGardeningHandler env JSON_parse transporter req w = (r, w') ->
        outbox w' = (outbox w ++ admin :: rest)%list ->
        occursIn (notesBox note) (html admin)).
Proof.
  intros Hd Hne.
  assert (Hnote : orElse (descriptionOf req) "No additional notes provided."
                  = note).
  { unfold descriptionOf. rewrite Hd.
    destruct note; [congruence | reflexivity]. }
  split; intros w r w' admin rest Hrun Hout.
  - destruct (cleaning_call_inv env JSON_parse transporter req w w' r _ Hrun Hout)
      as [H|(userDetails & adminContent & userContent & admin' & rest'
             & Hc & Hcalls & -> & _)]; [discriminate|].
    injection Hcalls as -> ->.
    apply cleaningContents_inv in Hc
      as (? & ? & ? & ? & bookingRows & _ & _ & _ & _ & Hadmin & _).
    apply cleaningAdminContent_description in Hadmin. rewrite Hnote in Hadmin.
    cbn [html mailOptions].
    eapply occursIn_trans; [exact Hadmin | apply generateEmailTemplate_content].
  - destruct (gardening_call_inv env JSON_parse transporter req w w' r _ Hrun Hout)
      as [H|(userDetails & adminContent & userContent & admin' & rest'
             & Hc & Hcalls & -> & _)]; [discriminate|].
    injection Hcalls as -> ->.
    apply gardeningContents_inv in Hc
      as (? & bookingRows & _ & _ & _ & Hadmin & _).
    apply gardeningAdminContent_description in Hadmin. rewrite Hnote in Hadmin.
    cbn [html mailOptions].
    eapply occursIn_trans; [exact Hadmin | apply generateEmailTemplate_content].
Qed.

(** X21.  The attachments of the admin email of a booking mirror the
    uploaded files: one attachment per file, in the order of upload,
    each with the file's original name and its bytes; none when the
    request carries no files at all. *)
Theorem attachments_mirror_the_files (req : BookingRequest) (w w' : World)
    (r : Completion unit) (admin : MailOptions) (rest : list MailOptions) :
  outbox w' = (outbox w ++ admin :: rest)%list ->
  bookCleaningHandler env JSON_parse transporter req w = (r, w')
  \/ bookGardeningHandler env JSON_parse transporter req w = (r, w') ->
  match files req with
  | Some uploaded =>
      map filename (attachments admin) = map originalname uploaded
      /\ map content (attachments admin) = map buffer uploaded
      /\ List.length (attachments admin) = List.length uploaded
  | None => attachments admin = []
  end.
Proof.
  intros Hout Hrun.
  assert (Ha : attachments admin = emailAttachments req).
  { destruct Hrun as [Hrun|Hrun].
    - destruct (cleaning_call_inv env JSON_parse transporter req w w' r _
                  Hrun Hout)
        as [H|(? & ? & ? & admin' & rest' & _ & Hcalls & -> & _)];
        [discriminate|].
      inversion Hcalls; subst. reflexivity.
    - destruct (gardening_call_inv env JSON_parse transporter req w w' r _
                  Hrun Hout)
        as [H|(? & ? & ? & admin' & rest' & _ & Hcalls & -> & _)];
        [discriminate|].
      inversion Hcalls; subst. reflexivity. }
  rewrite Ha. unfold emailAttachments.
  destruct (files req) as [uploaded|]; [|reflexivity].
  rewrite !map_map, length_map. cbn [filename content]. auto.
Qed.

(** *** Every email *)

Lemma contact_call_inv (req : ContactRequest) (w w' : World)
    (r : Completion unit) (calls : list MailOptions) (m : MailOptions) :
  contactHandler env transporter req w = (r, w') ->
  outbox w' = (outbox w ++ calls)%list ->
  In m calls ->
  exists recipient subj title content,
    m = mailOptions env recipient subj
          (generateEmailTemplate (currentYear env) title content) [].
Proof.
  intros Hrun Hout Hin.
  pose proof (contactHandler_run env transporter req w) as Hr.
  unfold contactSummary in Hr.
  destruct (contactContents req)
    as [[[[email subj] adminContent] userContent]|].
  - destruct (ToString subj) as [subjectText|].
    + match type of Hr with
      | context [twoSends ?t ?b ?a ?c] =>
          pose proof (twoSends_calls t b a c) as Hcalls;
          destruct (twoSends t b a c) as [made ok]
      end.
      destruct Hr as (lines & Hr). rewrite Hr in Hrun. symmetry in Hrun.
      destruct (run_matches_summary calls Hrun Hout) as (_ & -> & _).
      cbn [fst] in Hcalls.
      destruct Hcalls as [->|(second & Hs & -> & _)].
      * destruct Hin as [<-|[]]. eauto.
      * inversion Hs; subst second.
        destruct Hin as [<-|[<-|[]]]; eauto.
    + destruct Hr as (lines & Hr). rewrite Hr in Hrun. symmetry in Hrun.
      destruct (run_matches_summary calls Hrun Hout) as (_ & -> & _).
      contradiction.
  - destruct Hr as (e1 & Hr). rewrite Hr in Hrun. inversion Hrun; subst.
    apply app_self_nil in Hout. subst calls. contradiction.
Qed.

(** X22.  Every call that any of the three handlers makes to the
    transport has the same sender, the display name [Loksar Services]
    with the configured [EMAIL_USER] (the text [undefined] when it is
    not set), and an HTML body that is the branded document around some
    fragment, the same whatever title the handler passed.  The emails
    of the contact handler never carry an attachment. *)
Theorem every_email_is_branded (w w' : World) (r : Completion unit)
    (calls : list MailOptions) (m : MailOptions) :
  outbox w' = (outbox w ++ calls)%list ->
  In m calls ->
  (forall req,
      bookCleaningHandler env JSON_parse transporter req w = (r, w')
      \/ bookGardeningHandler env JSON_parse transporter req w = (r, w') ->
      from m = q "`Loksar Services` <" ++ envString (EMAIL_USER env) ++ ">"
      /\ exists content,
          forall title,
            html m = generateEmailTemplate (currentYear env) title content)
  /\ (forall req,
        contactHandler env transporter req w = (r, w') ->
        from m = q "`Loksar Services` <" ++ envString (EMAIL_USER env) ++ ">"
        /\ attachments m = []
        /\ exists content,
            forall title,
              html m = generateEmailTemplate (currentYear env) title content).
Proof.
  intros Hout Hin. split.
  - intros req Hrun.
    assert (H : exists recipient subj title content attached,
               m = mailOptions env recipient subj
                     (generateEmailTemplate (currentYear env) title content)
                     attached).
    { destruct Hrun as [Hrun|Hrun].
      - destruct (cleaning_call_inv env JSON_parse transporter req w w' r _
                    Hrun Hout)
          as [->|(? & ? & ? & admin & rest & _ & -> & -> & Hrest)];
          [contradiction|].
        destruct Hin as [<-|Hin]; [repeat eexists|].
        destruct Hrest as [->|(customer & _ & ->)]; [contradiction|].
        destruct Hin as [<-|[]]. repeat eexists.
      - destruct (gardening_call_inv env JSON_parse transporter req w w' r _
                    Hrun Hout)
          as [->|(? & ? & ? & admin & rest & _ & -> & -> & Hrest)];
          [contradiction|].
        destruct Hin as [<-|Hin]; [repeat eexists|].
        destruct Hrest as [->|(customer & _ & ->)]; [contradiction|].
        destruct Hin as [<-|[]]. repeat eexists. }
    destruct H as (recipient & subj & title & content & attached & ->).
    split; [reflexivity|]. exists content. reflexivity.
  - intros req Hrun.
    destruct (contact_call_inv req w w' r calls m Hrun Hout Hin)
      as (recipient & subj & title & content & ->).
    split; [reflexivity|]. split; [reflexivity|]. exists content. reflexivity.
Qed.

End Submissions.

(** ** Further properties on the sample submissions *)

Lemma sendEmail_after_acceptance_witness :
  sendEmail sampleEnv acceptAll (JStr "ann@x.com") "Hello" "<p>Hi</p>" None
    emptyWorld
  = (Normal tt,
     extend emptyWorld
       [mailOptions sampleEnv (JStr "ann@x.com") "Hello" "<p>Hi</p>" []]
       [ConsoleLog ("Email sent to " ++ "ann@x.com")] [])
  /\ sendEmail sampleEnv acceptAll (JObj [("toString", JNum 1)]) "Hello"
       "<p>Hi</p>" None emptyWorld
     = (Throw TypeError,
        extend emptyWorld
          [mailOptions sampleEnv (JObj [("toString", JNum 1)]) "Hello"
             "<p>Hi</p>" []]
          [ConsoleError (Some "Error sending email:") TypeError] []).
Proof.
  split.
  - apply (proj1 (sendEmail_after_acceptance sampleEnv acceptAll
                    (JStr "ann@x.com") "Hello" "<p>Hi</p>" emptyWorld eq_refl)).
    reflexivity.
  - apply (proj2 (sendEmail_after_acceptance sampleEnv acceptAll
                    (JObj [("toString", JNum 1)]) "Hello" "<p>Hi</p>"
                    emptyWorld eq_refl)).
    reflexivity.
Defined.

Lemma ordinary_booking_succeeds_witness :
  (exists second,
      Get sampleUserDetails "email" = Normal (to second)
      /\ exists admin customerText,
          bookCleaningHandler sampleEnv sampleParse acceptAll sampleBooking
            emptyWorld
          = (Normal tt,
             extend emptyWorld [admin; second]
               [ConsoleLog ("Email sent to " ++ "admin@loksar.com");
                ConsoleLog ("Email sent to " ++ customerText)]
               [okResponse]))
  /\ (exists second,
        Get sampleUserDetails "email" = Normal (to second)
        /\ exists admin customerText,
            bookGardeningHandler sampleEnv sampleParse acceptAll sampleBooking
              emptyWorld
            = (Normal tt,
               extend emptyWorld [admin; second]
                 [ConsoleLog ("Email sent to " ++ "admin@loksar.com");
                  ConsoleLog ("Email sent to " ++ customerText)]
                 [okResponse])).
Proof.
  destruct (ordinary_booking_succeeds sampleEnv sampleParse acceptAll
              sampleBooking sampleUserDetails sampleBookingDetails emptyWorld
              eq_refl eq_refl eq_refl eq_refl eq_refl eq_refl
              (fun _ => eq_refl) (fun _ _ => eq_refl))
    as ((admin1 & second1 & text1 & _ & _ & Hg1 & _ & Hrun1)
        & (admin2 & second2 & text2 & _ & _ & Hg2 & _ & Hrun2)).
  split.
  - exists second1. split; [exact Hg1|]. exists admin1, text1. exact Hrun1.
  - exists second2. split; [exact Hg2|]. exists admin2, text2. exact Hrun2.
Defined.

Lemma unreadable_booking_sends_nothing_witness :
  bookCleaningHandler sampleEnv sampleParse acceptAll malformedBooking emptyWorld
  = (Normal tt,
     extend emptyWorld [] [ConsoleError None SyntaxError] [failResponse])
  /\ bookGardeningHandler sampleEnv sampleParse acceptAll malformedBooking
       emptyWorld
     = (Normal tt,
        extend emptyWorld [] [ConsoleError None SyntaxError] [failResponse]).
Proof.
  apply (unreadable_booking_sends_nothing sampleEnv sampleParse acceptAll
           malformedBooking emptyWorld SyntaxError).
  left. reflexivity.
Defined.

Lemma customer_rejection_after_admin_witness :
  let run := bookCleaningHandler sampleEnv sampleParse acceptFirstOnly
               sampleBooking emptyWorld in
  fst run = Normal tt
  /\ responses (snd run) = [failResponse]
  /\ map to (outbox (snd run)) = [JStr "admin@loksar.com"; JStr "ann@x.com"]
  /\ console (snd run)
     = [ConsoleLog "Email sent to admin@loksar.com";
        ConsoleError (Some "Error sending email:")
          (TransportError "mailbox unavailable");
        ConsoleError None (TransportError "mailbox unavailable")].
Proof.
  intros run. subst run.
  destruct (cleaningContents sampleParse sampleBooking)
    as [[[userDetails adminContent] userContent]|] eqn:Hc;
    [|vm_compute in Hc; discriminate Hc].
  assert (Hu : userDetails = sampleUserDetails).
  { apply cleaningContents_inv in Hc as (? & ? & ? & ? & ? & Hu & _).
    vm_compute in Hu. inversion Hu. reflexivity. }
  subst userDetails.
  rewrite (proj1 (customer_rejection_after_admin sampleEnv sampleParse
                    acceptFirstOnly sampleBooking sampleUserDetails
                    (JStr "ann@x.com") adminContent userContent emptyWorld
                    (TransportError "mailbox unavailable") eq_refl)
             Hc eq_refl eq_refl).
  repeat split.
Defined.

Lemma contact_sends_whatever_it_gets_witness :
  exists admin second,
    subject admin = "New Contact: " ++ "undefined"
    /\ to second = JUndefined
    /\ contactHandler sampleEnv acceptAll {| contact_body := JObj [] |} emptyWorld
       = (Normal tt,
          extend emptyWorld [admin; second]
            [ConsoleLog ("Email sent to " ++ "admin@loksar.com");
             ConsoleLog ("Email sent to " ++ "undefined")]
            [okResponse]).
Proof.
  destruct (contact_sends_whatever_it_gets sampleEnv acceptAll
              {| contact_body := JObj [] |} [] emptyWorld eq_refl eq_refl
              (fun _ => eq_refl) (fun _ _ => eq_refl))
    as (admin & second & subjectText & emailText & Hs & He & _ & Hsa & Hts
        & _ & Hrun).
  cbn [lookup ToString] in Hs, He, Hts.
  injection Hs as <-. injection He as <-.
  exists admin, second. auto.
Defined.

Lemma contact_throws_before_try_witness :
  contactHandler sampleEnv acceptAll {| contact_body := JNull |} emptyWorld
  = (Throw TypeError, emptyWorld)
  /\ contactHandler sampleEnv acceptAll
       {| contact_body :=
            JObj [("subject", JObj [("toString", JStr "x")])] |} emptyWorld
     = (Throw TypeError, emptyWorld).
Proof.
  split.
  - apply (proj1 (contact_throws_before_try sampleEnv acceptAll
                    {| contact_body := JNull |} emptyWorld)).
    reflexivity.
  - apply (proj2 (contact_throws_before_try sampleEnv acceptAll
                    {| contact_body :=
                         JObj [("subject", JObj [("toString", JStr "x")])] |}
                    emptyWorld)
             [("subject", JObj [("toString", JStr "x")])]
             [("toString", JStr "x")]); reflexivity.
Defined.

Lemma both_emails_show_the_same_rows_witness :
  let run := bookCleaningHandler sampleEnv sampleParse acceptAll sampleBooking
               emptyWorld in
  let none := mailOptions sampleEnv JNull "" "" [] in
  exists rows,
    cleaningBookingRows sampleBookingDetails
      (JStr "Mon, Wed (Other: evenings)") (JStr "N/A") (JStr "N/A")
    = Normal rows
    /\ occursIn rows (html (hd none (outbox (snd run))))
    /\ occursIn rows (html (hd none (tl (outbox (snd run))))).
Proof.
  intros run none.
  destruct (proj1 (both_emails_show_the_same_rows sampleEnv sampleParse
                     acceptAll sampleBooking emptyWorld (snd run) (fst run)
                     (hd none (outbox (snd run)))
                     (hd none (tl (outbox (snd run))))
                     ltac:(vm_compute; reflexivity))
              (surjective_pairing run))
    as (bookingDetails & bestDays & currentCleaner & cleaningType & rows
        & Hb & Hbest & Hcurrent & Htype & Hrows & Ha & Hs).
  vm_compute in Hb. injection Hb as <-.
  vm_compute in Hbest. injection Hbest as <-.
  vm_compute in Hcurrent. injection Hcurrent as <-.
  vm_compute in Htype. injection Htype as <-.
  exists rows. auto.
Defined.

Lemma description_is_not_escaped_witness :
  let none := mailOptions sampleEnv JNull "" "" [] in
  occursIn (notesBox "<b>Ring twice</b>")
    (html (hd none (outbox (snd (bookCleaningHandler sampleEnv sampleParse
                                   acceptAll notedBooking emptyWorld)))))
  /\ occursIn (notesBox "<b>Ring twice</b>")
       (html (hd none (outbox (snd (bookGardeningHandler sampleEnv sampleParse
                                      acceptAll notedBooking emptyWorld))))).
Proof.
  intros none.
  destruct (description_is_not_escaped sampleEnv sampleParse acceptAll
              notedBooking "<b>Ring twice</b>" eq_refl
              ltac:(discriminate)) as (Hcleaning & Hgardening).
  split.
  - set (run := bookCleaningHandler sampleEnv sampleParse acceptAll notedBooking
                  emptyWorld).
    refine (Hcleaning emptyWorld (fst run) (snd run) (hd none (outbox (snd run)))
              (tl (outbox (snd run))) (surjective_pairing run) _).
    vm_compute. reflexivity.
  - set (run := bookGardeningHandler sampleEnv sampleParse acceptAll notedBooking
                  emptyWorld).
    refine (Hgardening emptyWorld (fst run) (snd run)
              (hd none (outbox (snd run))) (tl (outbox (snd run)))
              (surjective_pairing run) _).
    vm_compute. reflexivity.
Defined.

Lemma attachments_mirror_the_files_witness :
  let run := bookGardeningHandler sampleEnv sampleParse acceptAll sampleBooking
               emptyWorld in
  let none := mailOptions sampleEnv JNull "" "" [] in
  map filename (attachments (hd none (outbox (snd run)))) = ["kitchen.jpg"]
  /\ map content (attachments (hd none (outbox (snd run))))
     = [[Byte.xff; Byte.xd8; Byte.xff; Byte.xe0]]
  /\ List.length (attachments (hd none (outbox (snd run)))) = 1.
Proof.
  intros run none.
  exact (attachments_mirror_the_files sampleEnv sampleParse acceptAll
           sampleBooking emptyWorld (snd run) (fst run)
           (hd none (outbox (snd run))) (tl (outbox (snd run)))
           ltac:(vm_compute; reflexivity)
           (or_intror (surjective_pairing run))).
Defined.

Lemma every_email_is_branded_witness :
  let run := contactHandler sampleEnv acceptAll annRequest emptyWorld in
  let none := mailOptions sampleEnv JNull "" "" [] in
  from (hd none (tl (outbox (snd run))))
  = q "`Loksar Services` <" ++ "noreply@loksar.com" ++ ">"
  /\ attachments (hd none (tl (outbox (snd run)))) = [].
Proof.
  intros run none.
  destruct (proj2 (every_email_is_branded sampleEnv sampleParse acceptAll
                     emptyWorld (snd run) (fst run) (outbox (snd run))
                     (hd none (tl (outbox (snd run)))) eq_refl
                     ltac:(vm_compute; right; left; reflexivity))
              annRequest (surjective_pairing run))
    as (Hfrom & Hnone & _).
  auto.
Defined.

Lemma attachments_only_for_admin_witness :
  exists admin customer lines ok,
    bookCleaningHandler sampleEnv sampleParse acceptAll sampleBooking emptyWorld
    = (Normal tt, extend emptyWorld [admin; customer] lines [responseOf ok])
    /\ to admin = JStr "admin@loksar.com"
    /\ attachments admin
       = [{| filename := "kitchen.jpg";
             content := [Byte.xff; Byte.xd8; Byte.xff; Byte.xe0] |}]
    /\ Get sampleUserDetails "email" = Normal (to customer)
    /\ attachments customer = [].
Proof.
  destruct (proj1 (proj2 (proj2 (attachments_only_for_admin sampleEnv
                                   sampleParse acceptAll sampleBooking
                                   emptyWorld))
                     sampleUserDetails sampleBookingDetails
                     eq_refl eq_refl eq_refl eq_refl eq_refl eq_refl))
    as (admin & rest & lines & ok & Hrun & Hto & Hattached & _ & Haccepted).
  destruct (Haccepted eq_refl) as (customer & -> & Hcustomer & Hnone).
  exists admin, customer, lines, ok. auto.
Defined.
